(** * COMTRADE decoder: a shallow embedding of [comtrade.py]

    The development follows the source file class by class:
    the primitive field parsers ([AnalogInfo], [DigitalInfo], [FileInfo],
    [ChannelInfo], [SampleInfo], [TimeStamp]), the configuration builder
    ([ComtradeConfig]), the binary record decoder ([ComtradeData]) and the
    session object ([ComtradeParser]).

    Modelling conventions.
    - A Python [int] is a [Z]; a Python [float] is an IEEE-754 binary64
      value, i.e. a primitive [float] of Rocq; a Python [str] and a
      [bytes] object are both a [string] (a sequence of 8-bit characters,
      a text character being identified with its code point below 256).
    - A Python exception is a value [Raise e] of the [res] type; the
      source has no [try]/[except], so an exception raised anywhere leaves
      the constructor that was running, and every constructor above it.
    - The file system is a partial map from paths to contents
      ([None]: [os.path.exists] is false).  Existing paths are readable
      regular files.
    - Attributes that a constructor sets only on some paths are grouped in
      an [option] ([None]: reading the attribute raises [AttributeError]).
    - [struct.unpack('h', ...)] is native-endian; the model is the
      little-endian host the format is written for.
    - [int()] and [float()] are those of CPython 3.6 and later
      (underscores between digits); [np.linspace] is numpy's, with its
      default [endpoint=True].
    - Storage is unbounded: no allocation raises [MemoryError].  The size
      checks of the interpreter stay: an integer shift beyond the largest
      integer object raises [OverflowError] (64-bit CPython, digits of 30
      bits).
    - An exception ends the run: the state the constructor had reached
      (values already appended to the buffers) is not kept.
    - The descriptors and the time stamps keep their line in [str], as
      [__repr__] returns it.  The [str] of [FileInfo], [ChannelInfo] and
      [SampleInfo] is a summary formatted from their other attributes and
      is left out, as are the plotting and export methods of
      [ComtradeParser]. *)

From Stdlib Require Import ZArith List String Ascii Bool Lia.
From Stdlib Require Import Floats.PrimFloat Floats.SpecFloat Floats.FloatOps.
Import ListNotations.

Local Open Scope string_scope.
Local Open Scope list_scope.
Local Open Scope Z_scope.

(** ** Exceptions *)

Inductive exn : Type :=
| ValueError
| IndexError
| AttributeError
| ZeroDivisionError
| OverflowError
| StructError.

Inductive res (A : Type) : Type :=
| Return (a : A)
| Raise (e : exn).

Arguments Return {A} a.
Arguments Raise {A} e.

Definition bind {A B : Type} (m : res A) (k : A -> res B) : res B :=
  match m with
  | Return a => k a
  | Raise e => Raise e
  end.

Notation "x <- m ;; k" := (bind m (fun x => k))
  (at level 61, m at next level, right associativity).
Notation "' pat <- m ;; k" := (bind m (fun x => match x with pat => k end))
  (at level 61, pat pattern, m at next level, right associativity).

(** [for x in xs: s = body(x, s)], leaving at the first exception. *)
Fixpoint for_each {A S : Type} (xs : list A) (body : A -> S -> res S)
  (s : S) : res S :=
  match xs with
  | [] => Return s
  | x :: xs' => s' <- body x s ;; for_each xs' body s'
  end.

(** [range(0, n)]: empty when [n <= 0]. *)
Definition range (n : Z) : list Z := map Z.of_nat (seq 0 (Z.to_nat n)).

(** [l[i]] for a list and a non-negative index. *)
Definition getitem {A : Type} (l : list A) (i : nat) : res A :=
  match nth_error l i with
  | Some a => Return a
  | None => Raise IndexError
  end.

(** [l[i] = a] as a functional update; the source only updates an index
    it has just read. *)
Fixpoint setitem {A : Type} (l : list A) (i : nat) (a : A) : list A :=
  match l, i with
  | [], _ => []
  | _ :: l', O => a :: l'
  | x :: l', S i' => x :: setitem l' i' a
  end.

(** ** Python strings *)

Module Str.

Definition ord (c : ascii) : Z := Z.of_N (N_of_ascii c).

Definition LF : ascii := "010"%char.
Definition CR : ascii := "013"%char.

Fixpoint to_list (s : string) : list ascii :=
  match s with
  | EmptyString => []
  | String c s' => c :: to_list s'
  end.

Fixpoint of_list (l : list ascii) : string :=
  match l with
  | [] => EmptyString
  | c :: l' => String c (of_list l')
  end.

(** [s.split(sep)] for a one-character separator. *)
Fixpoint split (sep : ascii) (s : string) : list string :=
  match s with
  | EmptyString => [EmptyString]
  | String c s' =>
      if Ascii.eqb c sep then EmptyString :: split sep s'
      else match split sep s' with
           | w :: ws => String c w :: ws
           | [] => [String c EmptyString]
           end
  end.

(** [s.replace(old, new)] for a non-empty [old]: occurrences are found
    left to right and do not overlap.  [skip] counts the characters of
    the occurrence being replaced that are still to be dropped. *)
Fixpoint replace_from (old new : string) (skip : nat) (s : string) : string :=
  match s with
  | EmptyString => EmptyString
  | String c s' =>
      match skip with
      | S k => replace_from old new k s'
      | O =>
          if prefix old s
          then (new ++ replace_from old new (Nat.pred (String.length old)) s')%string
          else String c (replace_from old new O s')
      end
  end.

Definition replace (old new s : string) : string := replace_from old new O s.

(** [sub in s]. *)
Fixpoint contains (sub s : string) : bool :=
  match s with
  | EmptyString => prefix sub EmptyString
  | String _ s' => prefix sub s || contains sub s'
  end.

(** [s.lower()] on code points below 256. *)
Definition lower_char (c : ascii) : ascii :=
  let n := ord c in
  if ((65 <=? n) && (n <=? 90))
     || ((192 <=? n) && (n <=? 222) && negb (n =? 215))
  then ascii_of_N (Z.to_N (n + 32))
  else c.

Fixpoint lower (s : string) : string :=
  match s with
  | EmptyString => EmptyString
  | String c s' => String (lower_char c) (lower s')
  end.

(** Text mode: universal newlines turn "\r\n" and "\r" into "\n". *)
Fixpoint translate_newlines (s : string) : string :=
  match s with
  | EmptyString => EmptyString
  | String c s' =>
      if Ascii.eqb c CR then
        match s' with
        | String c' s'' =>
            if Ascii.eqb c' LF then String LF (translate_newlines s'')
            else String LF (translate_newlines s')
        | EmptyString => String LF EmptyString
        end
      else String c (translate_newlines s')
  end.

(** [f.readlines()]: every line keeps its terminator. *)
Fixpoint readlines (s : string) : list string :=
  match s with
  | EmptyString => []
  | String c s' =>
      if Ascii.eqb c LF then String c EmptyString :: readlines s'
      else match readlines s' with
           | l :: ls => String c l :: ls
           | [] => [String c EmptyString]
           end
  end.

(** The white space [int()] and [float()] skip around a literal. *)
Definition is_space (c : ascii) : bool :=
  let n := ord c in
  ((9 <=? n) && (n <=? 13)) || (n =? 32) || (n =? 133) || (n =? 160).

Definition is_digit (c : ascii) : bool :=
  let n := ord c in (48 <=? n) && (n <=? 57).

Definition digit_val (c : ascii) : Z := ord c - 48.

Fixpoint lstrip (l : list ascii) : list ascii :=
  match l with
  | c :: l' => if is_space c then lstrip l' else l
  | [] => []
  end.

Definition strip (s : string) : list ascii :=
  rev (lstrip (rev (lstrip (to_list s)))).

End Str.

(** ** Python numbers *)

Module Py.

(** A [digitpart] of Python's numeric grammar: digits, with single
    underscores allowed between two digits.  [prev] tells whether the
    previous character was a digit. *)
Fixpoint digitpart (l : list ascii) (acc : Z) (prev : bool) : option Z :=
  match l with
  | [] => if prev then Some acc else None
  | c :: l' =>
      if Str.is_digit c then digitpart l' (10 * acc + Str.digit_val c) true
      else if Ascii.eqb c "_"%char
           then (if prev then digitpart l' acc false else None)
           else None
  end.

(** [int(s)] for a string, base 10.  (The length limit that recent
    interpreters put on decimal literals, 4300 digits by default, is not
    modelled.) *)
Definition int (s : string) : res Z :=
  let body :=
    match Str.strip s with
    | c :: l =>
        if Ascii.eqb c "-"%char then option_map Z.opp (digitpart l 0 false)
        else if Ascii.eqb c "+"%char then digitpart l 0 false
        else digitpart (c :: l) 0 false
    | [] => None
    end in
  match body with
  | Some z => Return z
  | None => Raise ValueError
  end.

(** [0x0001 << n].  A negative count is a [ValueError].  The
    interpreter (64-bit, digits of 30 bits) asks for one digit for the
    operand, [n // 30] digits for the whole words of the shift and one
    more when [n % 30] is not zero, and raises [OverflowError] when that
    is more than an integer object can have.  Storage itself is taken as
    unbounded, here as for every list and array the program builds: a
    [MemoryError] for a count short of that limit is not modelled. *)
Definition PyLong_SHIFT : Z := 30.

Definition MAX_LONG_DIGITS : Z := (2 ^ 63 - 1 - 24) / 4.

Definition lshift_digits (n : Z) : Z :=
  1 + n / PyLong_SHIFT + (if n mod PyLong_SHIFT =? 0 then 0 else 1).

Definition lshift_one (n : Z) : res Z :=
  if n <? 0 then Raise ValueError
  else if MAX_LONG_DIGITS <? lshift_digits n then Raise OverflowError
  else Return (Z.shiftl 1 n).

(** *** Floats: binary64 *)

Definition prec : Z := 53.
Definition emax : Z := 1024.

(** The correctly rounded (to nearest, ties to even) binary64 value of
    [n / d] for positive [n] and [d], with the sign [neg]. *)
Definition round_ratio (neg : bool) (n d : positive) : float :=
  SF2Prim (SFdiv prec emax (S754_finite neg n 0) (S754_finite false d 0)).

(** The binary64 value of [m * 10 ^ e], correctly rounded.  Beyond
    [10 ^ 400] every value rounds to infinity, and below [10 ^ -400] to
    zero, so the power is only computed in between. *)
Definition of_decimal (neg : bool) (m e : Z) : float :=
  match m with
  | Zpos p =>
      if 400 <? e then (if neg then neg_infinity else infinity)
      else if e + Z.log2 m <? - 400 then (if neg then (-0)%float else 0%float)
      else match e with
           | Z0 => round_ratio neg p 1
           | Zpos _ => round_ratio neg (p * Z.to_pos (10 ^ e)) 1
           | Zneg _ => round_ratio neg p (Z.to_pos (10 ^ (- e)))
           end
  | _ => if neg then (-0)%float else 0%float
  end.

(** The conversion of an [int] operand in mixed arithmetic: exact up to
    [2 ^ 53], rounded above, [OverflowError] beyond the largest float. *)
Definition float_of_int (z : Z) : res float :=
  match binary_normalize prec emax z 0 false with
  | S754_infinity _ => Raise OverflowError
  | x => Return (SF2Prim x)
  end.

(** The leading run of digits of a list, as (value, count, rest). *)
Fixpoint digits_run (l : list ascii) (acc : Z) (n : Z)
  : Z * Z * list ascii :=
  match l with
  | c :: l' =>
      if Str.is_digit c then digits_run l' (10 * acc + Str.digit_val c) (n + 1)
      else (acc, n, l)
  | [] => (acc, n, [])
  end.

(** Underscores of a float literal: each stands between two digits, and
    all are dropped before the number is read.  [prev] is the previous
    character ([None] at the start). *)
Fixpoint drop_underscores (l : list ascii) (prev : option ascii)
  : option (list ascii) :=
  match l with
  | [] =>
      match prev with
      | Some p => if Ascii.eqb p "_"%char then None else Some []
      | None => Some []
      end
  | c :: l' =>
      if Ascii.eqb c "_"%char then
        match prev with
        | Some p => if Str.is_digit p then drop_underscores l' (Some c) else None
        | None => None
        end
      else
        let ok :=
          match prev with
          | Some p => negb (Ascii.eqb p "_"%char) || Str.is_digit c
          | None => true
          end in
        if ok then option_map (cons c) (drop_underscores l' (Some c)) else None
  end.

(** The exponent part: nothing, or [e]/[E], an optional sign and at
    least one digit, up to the end of the literal. *)
Definition exponent (l : list ascii) : option Z :=
  match l with
  | [] => Some 0
  | c :: l1 =>
      if Ascii.eqb c "e"%char || Ascii.eqb c "E"%char then
        let '(neg, l2) :=
          match l1 with
          | s :: l2 =>
              if Ascii.eqb s "-"%char then (true, l2)
              else if Ascii.eqb s "+"%char then (false, l2)
              else (false, l1)
          | [] => (false, l1)
          end in
        match digits_run l2 0 0 with
        | (v, n, []) => if 0 <? n then Some (if neg then - v else v) else None
        | _ => None
        end
      else None
  end.

(** An unsigned float literal: [inf], [infinity], [nan] in any case, or
    digits with an optional point and exponent. *)
Definition absfloat (neg : bool) (l : list ascii) : option float :=
  let w := Str.lower (Str.of_list l) in
  if String.eqb w "inf" || String.eqb w "infinity"
  then Some (if neg then neg_infinity else infinity)
  else if String.eqb w "nan" then Some nan
  else
    let '(ip, ni, l1) := digits_run l 0 0 in
    let '(fp, nf, l2) :=
      match l1 with
      | c :: l1' =>
          if Ascii.eqb c "."%char then digits_run l1' ip 0 else (ip, 0, l1)
      | [] => (ip, 0, l1)
      end in
    if 0 <? ni + nf then
      match exponent l2 with
      | Some e => Some (of_decimal neg fp (e - nf))
      | None => None
      end
    else None.

(** [float(s)] for a string. *)
Definition float (s : string) : res PrimFloat.float :=
  let body :=
    match drop_underscores (Str.strip s) None with
    | Some (c :: l) =>
        if Ascii.eqb c "-"%char then absfloat true l
        else if Ascii.eqb c "+"%char then absfloat false l
        else absfloat false (c :: l)
    | _ => None
    end in
  match body with
  | Some x => Return x
  | None => Raise ValueError
  end.

(** [x / y] on floats. *)
Definition truediv (x y : PrimFloat.float) : res PrimFloat.float :=
  if PrimFloat.eqb y 0%float then Raise ZeroDivisionError
  else Return (PrimFloat.div x y).

End Py.

(** ** Primitive field parsers *)

Definition comma : ascii := ","%char.

(** [infoStr.replace('\n', '')], which every field parser first stores
    in [self.str]. *)
Definition stripped (infoStr : string) : string :=
  Str.replace (String Str.LF "") "" infoStr.

(** [self.str.split(',')], the second statement of every field parser. *)
Definition fields (infoStr : string) : list string :=
  Str.split comma (stripped infoStr).

Module AnalogInfo.

(** [str] is the line the descriptor was built from, which [__repr__]
    returns. *)
Record t : Type := mk {
  str : string;
  num : Z;
  ch_id : string;
  phase : string;
  ccbm : string;
  unit : string;
  a : float;
  b : float;
  skew : float;
  min : float;
  max : float;
  primary : float;
  secondary : float;
  ps : string;
  _data : list float
}.

Definition init (infoStr : string) : res t :=
  let str := stripped infoStr in
  let buf := fields infoStr in
  s0 <- getitem buf 0 ;; num <- Py.int s0 ;;
  ch_id <- getitem buf 1 ;;
  phase <- getitem buf 2 ;;
  ccbm <- getitem buf 3 ;;
  unit <- getitem buf 4 ;;
  s5 <- getitem buf 5 ;; a <- Py.float s5 ;;
  s6 <- getitem buf 6 ;; b <- Py.float s6 ;;
  s7 <- getitem buf 7 ;; skew <- Py.float s7 ;;
  s8 <- getitem buf 8 ;; min <- Py.float s8 ;;
  s9 <- getitem buf 9 ;; max <- Py.float s9 ;;
  s10 <- getitem buf 10 ;; primary <- Py.float s10 ;;
  s11 <- getitem buf 11 ;; secondary <- Py.float s11 ;;
  ps <- getitem buf 12 ;;
  Return (mk str num ch_id phase ccbm unit a b skew min max primary secondary
            ps []).

(** [rawValue * self.a + self.b], the calibration transform. *)
Definition value (self : t) (rawValue : Z) : res float :=
  r <- Py.float_of_int rawValue ;;
  Return (PrimFloat.add (PrimFloat.mul r (a self)) (b self)).

Definition with_data (self : t) (d : list float) : t :=
  mk (str self) (num self) (ch_id self) (phase self) (ccbm self) (unit self)
     (a self) (b self) (skew self) (min self) (max self) (primary self)
     (secondary self) (ps self) d.

Definition appendData (self : t) (rawValue : Z) : res t :=
  v <- value self rawValue ;;
  Return (with_data self (_data self ++ [v])).

(** [np.array(self._data)] *)
Definition data (self : t) : list float := _data self.

End AnalogInfo.

Module DigitalInfo.

(** [str] is the line the descriptor was built from, which [__repr__]
    returns. *)
Record t : Type := mk {
  str : string;
  num : Z;
  ch_id : string;
  phase : string;
  ccbm : string;
  y : Z;
  _data : list Z
}.

Definition init (infoStr : string) : res t :=
  let str := stripped infoStr in
  let buf := fields infoStr in
  s0 <- getitem buf 0 ;; num <- Py.int s0 ;;
  ch_id <- getitem buf 1 ;;
  phase <- getitem buf 2 ;;
  ccbm <- getitem buf 3 ;;
  s4 <- getitem buf 4 ;; y <- Py.int s4 ;;
  Return (mk str num ch_id phase ccbm y []).

(** [1 if value & (0x0001 << self.num) else 0]; the shift raises for a
    negative count and for a count beyond the size of an integer. *)
Definition value (self : t) (word : Z) : res Z :=
  mask <- Py.lshift_one (num self) ;;
  Return (if Z.land word mask =? 0 then 0 else 1).

Definition with_data (self : t) (d : list Z) : t :=
  mk (str self) (num self) (ch_id self) (phase self) (ccbm self) (y self) d.

Definition appendData (self : t) (rawValue : Z) : res t :=
  v <- value self rawValue ;;
  Return (with_data self (_data self ++ [v])).

Definition data (self : t) : list Z := _data self.

End DigitalInfo.

Module FileInfo.

(** [self.str] ends as a summary formatted from the three attributes
    below (lines 95-97), so it is a function of them and is not kept. *)
Record t : Type := mk {
  station_name : string;
  rec_dev_id : Z;
  rev_year : string
}.

Definition init (infoStr : string) : res t :=
  let buf := fields infoStr in
  station_name <- getitem buf 0 ;;
  s1 <- getitem buf 1 ;; rec_dev_id <- Py.int s1 ;;
  rev_year <- getitem buf 2 ;;
  Return (mk station_name rec_dev_id rev_year).

End FileInfo.

Module ChannelInfo.

(** [self.str] ends as a summary formatted from the three counts (lines
    118-120), so it is a function of them and is not kept. *)
Record t : Type := mk {
  total : Z;
  analog : Z;
  digital : Z
}.

Definition init (infoStr : string) : res t :=
  let buf := fields infoStr in
  s0 <- getitem buf 0 ;; total <- Py.int s0 ;;
  s1 <- getitem buf 1 ;;
  analog <- (if Str.contains "A" s1 then Py.int (Str.replace "A" "" s1)
             else Return 0) ;;
  s2 <- getitem buf 2 ;;
  digital <- (if Str.contains "D" s2 then Py.int (Str.replace "D" "" s2)
              else Return 0) ;;
  if negb (total =? analog + digital)
  then Return (mk 0 0 0)
  else Return (mk total analog digital).

End ChannelInfo.

Module SampleInfo.

(** [self.str] ends as a summary formatted from the two attributes (lines
    132-133), so it is a function of them and is not kept. *)
Record t : Type := mk {
  rate : float;
  end_ : Z
}.

Definition init (infoStr : string) : res t :=
  let buf := fields infoStr in
  s0 <- getitem buf 0 ;; rate <- Py.float s0 ;;
  s1 <- getitem buf 1 ;; end_ <- Py.int s1 ;;
  Return (mk rate end_).

End SampleInfo.

Module TimeStamp.

(** [str] is the line the time stamp was built from, which [__repr__]
    returns. *)
Record t : Type := mk {
  str : string;
  day : Z;
  month : Z;
  year : Z;
  hour : Z;
  minute : Z;
  second : float
}.

Definition init (infoStr : string) : res t :=
  let str := stripped infoStr in
  let buf := fields infoStr in
  s0 <- getitem buf 0 ;;
  let dateList := Str.split "/"%char s0 in
  s1 <- getitem buf 1 ;;
  let timeList := Str.split ":"%char s1 in
  d0 <- getitem dateList 0 ;; day <- Py.int d0 ;;
  d1 <- getitem dateList 1 ;; month <- Py.int d1 ;;
  d2 <- getitem dateList 2 ;; year <- Py.int d2 ;;
  t0 <- getitem timeList 0 ;; hour <- Py.int t0 ;;
  t1 <- getitem timeList 1 ;; minute <- Py.int t1 ;;
  t2 <- getitem timeList 2 ;; second <- Py.float t2 ;;
  Return (mk str day month year hour minute second).

End TimeStamp.

(** ** The file system *)

(** [fs p = None]: [os.path.exists(p)] is false; [fs p = Some c]: [p] is
    a file of content [c]. *)
Definition filesystem : Type := string -> option string.

Definition exists_ (fs : filesystem) (path : string) : bool :=
  match fs path with
  | Some _ => true
  | None => false
  end.

(** [open(path).readlines()] in text mode. *)
Definition read_text_lines (content : string) : list string :=
  Str.readlines (Str.translate_newlines content).

(** ** Configuration document builder *)

Module ComtradeConfig.

(** The attributes [_parse] sets. *)
Record doc : Type := mkdoc {
  fileInfo : FileInfo.t;
  channelInfo : ChannelInfo.t;
  analogInfo : list AnalogInfo.t;
  digitalInfo : list DigitalInfo.t;
  frequency : float;
  nrates : Z;
  sampleInfo : list SampleInfo.t;
  startTime : TimeStamp.t;
  triggerTime : TimeStamp.t;
  dataFormat : string;
  timemult : float
}.

Record t : Type := mk {
  path : string;
  result : string;
  body : option doc
}.

(** An attribute of the document, [AttributeError] when [_parse] has
    not run. *)
Definition attr {A : Type} (self : t) (f : doc -> A) : res A :=
  match body self with
  | Some d => Return (f d)
  | None => Raise AttributeError
  end.

Definition _removeNextline (strList : list string) : list string :=
  map (Str.replace (String Str.LF "") "") strList.

(** [for i in range(0, n): acc.append(make(infoStrs[index])); index += 1],
    on the pair of the list being built and the running index. *)
Definition read_block {A : Type} (make : string -> res A)
  (infoStrs : list string) (n : Z) (index : nat) : res (list A * nat) :=
  for_each (range n)
    (fun _ '(acc, index) =>
       s <- getitem infoStrs index ;;
       x <- make s ;;
       Return (acc ++ [x], S index))
    ([], index).

Definition _parse (infoStrs : list string) : res doc :=
  let index := O in
  s <- getitem infoStrs index ;; fileInfo <- FileInfo.init s ;;
  let index := S index in
  s <- getitem infoStrs index ;; channelInfo <- ChannelInfo.init s ;;
  let index := S index in
  '(analogInfo, index) <-
    read_block AnalogInfo.init infoStrs (ChannelInfo.analog channelInfo) index ;;
  '(digitalInfo, index) <-
    read_block DigitalInfo.init infoStrs (ChannelInfo.digital channelInfo) index ;;
  s <- getitem infoStrs index ;; frequency <- Py.float s ;;
  let index := S index in
  s <- getitem infoStrs index ;; nrates <- Py.int s ;;
  let index := S index in
  '(sampleInfo, index) <- read_block SampleInfo.init infoStrs nrates index ;;
  s <- getitem infoStrs index ;; startTime <- TimeStamp.init s ;;
  let index := S index in
  s <- getitem infoStrs index ;; triggerTime <- TimeStamp.init s ;;
  let index := S index in
  s <- getitem infoStrs index ;;
  let dataFormat := Str.lower s in
  let index := S index in
  s <- getitem infoStrs index ;; timemult <- Py.float s ;;
  Return (mkdoc fileInfo channelInfo analogInfo digitalInfo frequency nrates
            sampleInfo startTime triggerTime dataFormat timemult).

Definition init (fs : filesystem) (filePath : string) : res t :=
  match fs filePath with
  | None => Return (mk filePath "no file" None)
  | Some content =>
      let lines := _removeNextline (read_text_lines content) in
      d <- _parse lines ;;
      Return (mk filePath "parsed" (Some d))
  end.

End ComtradeConfig.

(** ** numpy *)

Module Np.

(** An integer as a float64 (rounded to nearest). *)
Definition float64 (z : Z) : float :=
  SF2Prim (binary_normalize Py.prec Py.emax z 0 false).

(** [np.zeros(0)] *)
Definition zeros0 : list float := [].

Fixpoint set_last {A : Type} (l : list A) (x : A) : list A :=
  match l with
  | [] => []
  | [_] => [x]
  | y :: l' => y :: set_last l' x
  end.

(** [np.linspace(start, stop, num)], with the default [endpoint=True]:
    [num] points from [start], the step being [(stop - start) / (num - 1)]
    and the last point being [stop] itself. *)
Definition linspace (start stop : float) (num : Z) : res (list float) :=
  if num <? 0 then Raise ValueError
  else
    let div := num - 1 in
    let delta := PrimFloat.sub stop start in
    let y := map float64 (range num) in
    let y :=
      if 0 <? div then
        let step := PrimFloat.div delta (float64 div) in
        if PrimFloat.eqb step 0%float
        then map (fun v => PrimFloat.mul (PrimFloat.div v (float64 div)) delta) y
        else map (fun v => PrimFloat.mul v step) y
      else map (fun v => PrimFloat.mul v delta) y in
    let y := map (fun v => PrimFloat.add v start) y in
    Return (if 1 <? num then set_last y stop else y).

End Np.

(** ** Binary record decoder *)

(** A [dict] keeps its keys in insertion order; assigning to a key that
    is present replaces the value in place. *)
Fixpoint dict_set {V : Type} (d : list (string * V)) (k : string) (v : V)
  : list (string * V) :=
  match d with
  | [] => [(k, v)]
  | (k', v') :: d' =>
      if String.eqb k' k then (k', v) :: d' else (k', v') :: dict_set d' k v
  end.

(** [data[lo:hi]] with Python's treatment of negative and out-of-range
    bounds. *)
Definition slice_bound (len i : Z) : Z :=
  if i <? 0 then Z.max 0 (i + len) else Z.min i len.

Definition slice {A : Type} (l : list A) (lo hi : Z) : list A :=
  let len := Z.of_nat (List.length l) in
  let lo' := slice_bound len lo in
  let hi' := slice_bound len hi in
  firstn (Z.to_nat (hi' - lo')) (skipn (Z.to_nat lo') l).

(** [struct.unpack('h', b)[0]]: a signed 16-bit integer from exactly two
    bytes, low byte first. *)
Definition signed16 (u : Z) : Z := if u <? 32768 then u else u - 65536.

Definition unpack_h (b : list ascii) : res Z :=
  match b with
  | [lo; hi] => Return (signed16 (Str.ord lo + 256 * Str.ord hi))
  | _ => Raise StructError
  end.

Module ComtradeData.

(** The attributes set once the data file has been found. *)
Record decoded : Type := mkdecoded {
  unitSize : Z;
  sampleCount : Z;
  deltaT : float;
  _analog : list (string * list float);
  _digital : list (string * list Z)
}.

Record obj : Type := mk {
  result : string;
  path : string;
  body : option decoded
}.

(** The two descriptor lists of the configuration, whose buffers the
    decoder appends to in place. *)
Definition buffers : Type := (list AnalogInfo.t * list DigitalInfo.t)%type.

(** The body of [for ch in range(0, analogChNum)]. *)
Definition analog_step (data : list ascii) (analogIndex : Z) (ch : Z)
  (st : buffers) : res buffers :=
  let index := ch * 2 + analogIndex in
  raw <- unpack_h (slice data index (index + 2)) ;;
  info <- getitem (fst st) (Z.to_nat ch) ;;
  info' <- AnalogInfo.appendData info raw ;;
  Return (setitem (fst st) (Z.to_nat ch) info', snd st).

(** The body of [for ch in range(0, digitalChNum)]. *)
Definition digital_step (data : list ascii) (digitalIndex : Z) (ch : Z)
  (st : buffers) : res buffers :=
  let index := (ch / 16) * 2 + digitalIndex in
  raw <- unpack_h (slice data index (index + 2)) ;;
  info <- getitem (snd st) (Z.to_nat ch) ;;
  info' <- DigitalInfo.appendData info raw ;;
  Return (fst st, setitem (snd st) (Z.to_nat ch) info').

(** The body of [for i in range(0, self.sampleCount)]. *)
Definition sample_step (data : list ascii)
  (unitSize analogChNum digitalChNum analogBytesLen : Z) (i : Z)
  (st : buffers) : res buffers :=
  let analogIndex := i * unitSize + 8 in
  st <- for_each (range analogChNum) (analog_step data analogIndex) st ;;
  let digitalIndex := i * unitSize + 8 + analogBytesLen in
  for_each (range digitalChNum) (digital_step data digitalIndex) st.

Definition digitalBytesLen (digitalChNum : Z) : Z :=
  if negb (digitalChNum mod 16 =? 0)
  then 2 * ((digitalChNum / 16) + 1)
  else 2 * (digitalChNum / 16).

Definition analog_key (each : AnalogInfo.t) : string :=
  (AnalogInfo.ch_id each ++ ("(" ++ AnalogInfo.unit each ++ ")"))%string.

(** [for each in self.config.analogInfo:
      self._analog[each.ch_id + '(%s)' % each.unit] = each.data()] *)
Definition collect_analog (infos : list AnalogInfo.t)
  : list (string * list float) :=
  fold_left (fun m each => dict_set m (analog_key each) (AnalogInfo.data each))
    infos [].

(** [for each in self.config.digitalInfo:
      self._digital[each.ch_id] = each.data()] *)
Definition collect_digital (infos : list DigitalInfo.t)
  : list (string * list Z) :=
  fold_left (fun m each =>
               dict_set m (DigitalInfo.ch_id each) (DigitalInfo.data each))
    infos [].

(** The path of the data file: the configuration path up to its first
    dot, and [.dat]. *)
Definition dat_path (config : ComtradeConfig.t) : string :=
  let pathList := Str.split "."%char (ComtradeConfig.path config) in
  (hd "" pathList ++ ".dat")%string.

(** The configuration object once the descriptors of its document [d]
    have reached the state [st]: the appends are made in place, to the
    object the caller holds. *)
Definition store (config : ComtradeConfig.t) (d : ComtradeConfig.doc)
  (st : buffers) : ComtradeConfig.t :=
  ComtradeConfig.mk (ComtradeConfig.path config) (ComtradeConfig.result config)
    (Some (ComtradeConfig.mkdoc
             (ComtradeConfig.fileInfo d) (ComtradeConfig.channelInfo d)
             (fst st) (snd st)
             (ComtradeConfig.frequency d) (ComtradeConfig.nrates d)
             (ComtradeConfig.sampleInfo d) (ComtradeConfig.startTime d)
             (ComtradeConfig.triggerTime d) (ComtradeConfig.dataFormat d)
             (ComtradeConfig.timemult d))).

(** [ComtradeData(config)].  The constructor keeps a reference to
    [config] and appends to the buffers of its descriptors, so the
    configuration object as it is after the call is returned with the
    data object. *)
Definition init (fs : filesystem) (config : ComtradeConfig.t)
  : res (obj * ComtradeConfig.t) :=
  let path := dat_path config in
  if negb (String.eqb (ComtradeConfig.result config) "parsed")
  then Return (mk "none" path None, config)
  else
    match fs path with
    | None => Return (mk "no file" path None, config)
    | Some content =>
        let data := Str.to_list content in
        channelInfo <- ComtradeConfig.attr config ComtradeConfig.channelInfo ;;
        let analogChNum := ChannelInfo.analog channelInfo in
        let digitalChNum := ChannelInfo.digital channelInfo in
        let analogBytesLen := 2 * analogChNum in
        let digitalBytesLen := digitalBytesLen digitalChNum in
        let unitSize := 4 + 4 + digitalBytesLen + analogBytesLen in
        sampleInfo <- ComtradeConfig.attr config ComtradeConfig.sampleInfo ;;
        first <- getitem sampleInfo 0 ;;
        let sampleCount := SampleInfo.end_ first in
        deltaT <- Py.truediv 1%float (SampleInfo.rate first) ;;
        d <- ComtradeConfig.attr config (fun d => d) ;;
        '(analogInfo, digitalInfo) <-
          for_each (range sampleCount)
            (sample_step data unitSize analogChNum digitalChNum analogBytesLen)
            (ComtradeConfig.analogInfo d, ComtradeConfig.digitalInfo d) ;;
        let _analog := collect_analog analogInfo in
        let _digital := collect_digital digitalInfo in
        Return (mk "parsed" path
                  (Some (mkdecoded unitSize sampleCount deltaT _analog _digital)),
                store config d (analogInfo, digitalInfo))
    end.

Definition t (self : obj) : res (list float) :=
  if String.eqb (result self) "parsed" then
    match body self with
    | Some d =>
        n <- Py.float_of_int (sampleCount d) ;;
        Np.linspace 0%float (PrimFloat.mul (deltaT d) n) (sampleCount d)
    | None => Raise AttributeError
    end
  else Return Np.zeros0.

Definition analog (self : obj) : list (string * list float) :=
  if String.eqb (result self) "parsed" then
    match body self with
    | Some d => _analog d
    | None => []
    end
  else [].

Definition digital (self : obj) : list (string * list Z) :=
  if String.eqb (result self) "parsed" then
    match body self with
    | Some d => _digital d
    | None => []
    end
  else [].

End ComtradeData.

(** ** The session object *)

Module ComtradeParser.

(** The attributes set after the path has been recognised.  [config] is
    the configuration object as the decoder left it. *)
Record session : Type := mksession {
  path : string;
  config : ComtradeConfig.t;
  dat : ComtradeData.obj;
  analog : list (string * list float);
  digital : list (string * list Z);
  t : list float;
  fs : float
}.

Record obj : Type := mk {
  result : string;
  body : option session
}.

(** [__init__] from [self.path = path] on. *)
Definition load (files : filesystem) (path : string) : res obj :=
  config <- ComtradeConfig.init files (path ++ ".cfg")%string ;;
  '(dat, config) <- ComtradeData.init files config ;;
  let analog := ComtradeData.analog dat in
  let digital := ComtradeData.digital dat in
  t <- ComtradeData.t dat ;;
  sampleInfo <- ComtradeConfig.attr config ComtradeConfig.sampleInfo ;;
  first <- getitem sampleInfo 0 ;;
  Return (mk "parsed"
            (Some (mksession path config dat analog digital t
                     (SampleInfo.rate first)))).

Definition init (files : filesystem) (path : string) : res obj :=
  if negb (Str.contains ".cfg" path) then
    if negb (Str.contains ".dat" path)
    then Return (mk ("not a comtrade file: " ++ path)%string None)
    else load files (Str.replace ".dat" "" path)
  else load files (Str.replace ".cfg" "" path).

End ComtradeParser.

(** * Specification-side definitions and recordings *)

(** The common shape of the two channel loops: read a word, fetch the
    descriptor of the channel, append to it. *)
Definition channel_step {A R : Type} (read : Z -> res R)
  (app : A -> R -> res A) (ch : Z) (l : list A) : res (list A) :=
  raw <- read ch ;;
  info <- getitem l (Z.to_nat ch) ;;
  info' <- app info raw ;;
  Return (setitem l (Z.to_nat ch) info').

(** The word the decoder unpacks at a byte index. *)
Definition read16 (data : list ascii) (index : Z) : res Z :=
  unpack_h (slice data index (index + 2)).

(** The words read for sample [i]: the indices are the source's
    expressions. *)
Definition analog_word (data : list ascii) (unitSize : Z) (i ch : Z) : res Z :=
  read16 data (ch * 2 + (i * unitSize + 8)).

Definition digital_word (data : list ascii) (unitSize analogBytesLen : Z)
  (i ch : Z) : res Z :=
  read16 data ((ch / 16) * 2 + (i * unitSize + 8 + analogBytesLen)).

(** [vals] are the values channel [ch] gets from [samples]. *)
Definition analog_trace (data : list ascii) (unitSize : Z)
  (ai : AnalogInfo.t) (ch : Z) (samples : list Z) (vals : list float) : Prop :=
  Forall2 (fun i v => exists raw, analog_word data unitSize i ch = Return raw /\
                                  AnalogInfo.value ai raw = Return v)
    samples vals.

Definition digital_trace (data : list ascii)
  (unitSize analogBytesLen : Z) (di : DigitalInfo.t) (ch : Z)
  (samples : list Z) (vals : list Z) : Prop :=
  Forall2 (fun i v => exists raw, digital_word data unitSize analogBytesLen i ch = Return raw /\
                                  DigitalInfo.value di raw = Return v)
    samples vals.

(** The stride the constructor computes. *)
Definition stride (d : ComtradeConfig.doc) : Z :=
  4 + 4
  + ComtradeData.digitalBytesLen (ChannelInfo.digital (ComtradeConfig.channelInfo d))
  + 2 * ChannelInfo.analog (ComtradeConfig.channelInfo d).

(** The positional grammar [_parse] follows, read off a successful run. *)
Record parsed_lines (infoStrs : list string) (d : ComtradeConfig.doc)
  : Prop := {
  pl_file : exists s, nth_error infoStrs 0 = Some s /\
                      FileInfo.init s = Return (ComtradeConfig.fileInfo d);
  pl_channel : exists s, nth_error infoStrs 1 = Some s /\
                         ChannelInfo.init s = Return (ComtradeConfig.channelInfo d);
  pl_analog : exists i,
      ComtradeConfig.read_block AnalogInfo.init infoStrs
        (ChannelInfo.analog (ComtradeConfig.channelInfo d)) 2 =
      Return (ComtradeConfig.analogInfo d, i);
  pl_digital : exists i,
      ComtradeConfig.read_block DigitalInfo.init infoStrs
        (ChannelInfo.digital (ComtradeConfig.channelInfo d))
        (2 + Z.to_nat (ChannelInfo.analog (ComtradeConfig.channelInfo d))) =
      Return (ComtradeConfig.digitalInfo d, i);
  pl_sample : exists i j,
      ComtradeConfig.read_block SampleInfo.init infoStrs
        (ComtradeConfig.nrates d) i =
      Return (ComtradeConfig.sampleInfo d, j)
}.

(** A document as [_parse] leaves it: as many descriptors as the layout
    declares, each with an empty buffer. *)
Record fresh_doc (d : ComtradeConfig.doc) : Prop := {
  fd_analog_len :
    List.length (ComtradeConfig.analogInfo d) =
    Z.to_nat (ChannelInfo.analog (ComtradeConfig.channelInfo d));
  fd_digital_len :
    List.length (ComtradeConfig.digitalInfo d) =
    Z.to_nat (ChannelInfo.digital (ComtradeConfig.channelInfo d));
  fd_sample_len :
    List.length (ComtradeConfig.sampleInfo d) = Z.to_nat (ComtradeConfig.nrates d);
  fd_analog_empty :
    Forall (fun ai => AnalogInfo._data ai = []) (ComtradeConfig.analogInfo d);
  fd_digital_empty :
    Forall (fun di => DigitalInfo._data di = []) (ComtradeConfig.digitalInfo d)
}.

(** What a successful run of the decoder's constructor establishes
    between the data file [content], the document before ([d]) and after
    ([d']) the run, and the attributes [dec] of the data object. *)
Record decodes (content : string) (d d' : ComtradeConfig.doc)
  (dec : ComtradeData.decoded) : Prop := {
  dc_stride : ComtradeData.unitSize dec = stride d;
  dc_first : exists first,
      nth_error (ComtradeConfig.sampleInfo d) 0 = Some first /\
      ComtradeData.sampleCount dec = SampleInfo.end_ first /\
      Py.truediv 1%float (SampleInfo.rate first) =
      Return (ComtradeData.deltaT dec);
  dc_channel : ComtradeConfig.channelInfo d' = ComtradeConfig.channelInfo d;
  dc_sample : ComtradeConfig.sampleInfo d' = ComtradeConfig.sampleInfo d;
  dc_analog : forall j ai,
      (j < Z.to_nat (ChannelInfo.analog (ComtradeConfig.channelInfo d)))%nat ->
      nth_error (ComtradeConfig.analogInfo d) j = Some ai ->
      exists vals,
        nth_error (ComtradeConfig.analogInfo d') j =
        Some (AnalogInfo.with_data ai (AnalogInfo._data ai ++ vals)) /\
        analog_trace (Str.to_list content) (stride d) ai (Z.of_nat j)
          (range (ComtradeData.sampleCount dec)) vals;
  dc_analog_rest : forall j,
      ~ (j < Z.to_nat (ChannelInfo.analog (ComtradeConfig.channelInfo d)))%nat ->
      nth_error (ComtradeConfig.analogInfo d') j =
      nth_error (ComtradeConfig.analogInfo d) j;
  dc_digital : forall j di,
      (j < Z.to_nat (ChannelInfo.digital (ComtradeConfig.channelInfo d)))%nat ->
      nth_error (ComtradeConfig.digitalInfo d) j = Some di ->
      exists vals,
        nth_error (ComtradeConfig.digitalInfo d') j =
        Some (DigitalInfo.with_data di (DigitalInfo._data di ++ vals)) /\
        digital_trace (Str.to_list content) (stride d)
          (2 * ChannelInfo.analog (ComtradeConfig.channelInfo d)) di (Z.of_nat j)
          (range (ComtradeData.sampleCount dec)) vals;
  dc_digital_rest : forall j,
      ~ (j < Z.to_nat (ChannelInfo.digital (ComtradeConfig.channelInfo d)))%nat ->
      nth_error (ComtradeConfig.digitalInfo d') j =
      nth_error (ComtradeConfig.digitalInfo d) j;
  dc_analog_dict :
    ComtradeData._analog dec =
    ComtradeData.collect_analog (ComtradeConfig.analogInfo d');
  dc_digital_dict :
    ComtradeData._digital dec =
    ComtradeData.collect_digital (ComtradeConfig.digitalInfo d')
}.

(** Spec side: the little-endian signed 16-bit integer held by the two
    bytes at an absolute offset of the buffer. *)
Definition int16_le_at (data : list ascii) (offset : Z) : option Z :=
  if offset <? 0 then None
  else
    match nth_error data (Z.to_nat offset),
          nth_error data (S (Z.to_nat offset)) with
    | Some lo, Some hi =>
        let u := Str.ord lo + 256 * Str.ord hi in
        Some (if 32768 <=? u then u - 65536 else u)
    | _, _ => None
    end.

(** Spec side: [ceil (n / 16)]. *)
Definition ceil16 (n : Z) : Z := (n + 15) / 16.

(** ** A recording: two analog channels, one digital channel, three
    samples at 1000 Hz *)

Module Scenario.

Fixpoint unlines (ls : list string) : string :=
  match ls with
  | [] => ""
  | l :: ls' => (l ++ String Str.LF (unlines ls'))%string
  end.

Definition bytes (l : list Z) : string :=
  Str.of_list (map (fun z => ascii_of_N (Z.to_N z)) l).

Definition cfg : string :=
  unlines
    ["STATION,1,1999";
     "3,2A,1D";
     "1,UA,A,,V,0.5,1,0,-32767,32767,1,1,P";
     "2,IA,A,,A,2,0,0,-32767,32767,1,1,P";
     "1,TRIP,,,0";
     "50";
     "1";
     "1000,3";
     "01/01/2020,00:00:00.000000";
     "01/01/2020,00:00:00.100000";
     "BINARY";
     "1"].

(** Three records of 14 bytes: sample number, time stamp, two analog
    words, one digital word. *)
Definition dat : string :=
  bytes [1; 0; 0; 0;   0; 0; 0; 0;     10; 0;     255; 255;   2; 0;
         2; 0; 0; 0;   232; 3; 0; 0;   0; 128;    100; 0;     0; 0;
         3; 0; 0; 0;   208; 7; 0; 0;   255; 127;  1; 1;       255; 255].

Definition files : filesystem :=
  fun p =>
    if String.eqb p "rec.cfg" then Some cfg
    else if String.eqb p "rec.dat" then Some dat
    else None.

(** The same configuration declaring another encoding. *)
Definition cfg_ascii : string :=
  unlines
    ["STATION,1,1999";
     "3,2A,1D";
     "1,UA,A,,V,0.5,1,0,-32767,32767,1,1,P";
     "2,IA,A,,A,2,0,0,-32767,32767,1,1,P";
     "1,TRIP,,,0";
     "50";
     "1";
     "1000,3";
     "01/01/2020,00:00:00.000000";
     "01/01/2020,00:00:00.100000";
     "ASCII";
     "1"].

Definition files_ascii : filesystem :=
  fun p =>
    if String.eqb p "rec.cfg" then Some cfg_ascii
    else if String.eqb p "rec.dat" then Some dat
    else None.

(** The same recording without its data file. *)
Definition files_no_dat : filesystem :=
  fun p => if String.eqb p "rec.cfg" then Some cfg else None.

Definition no_config : ComtradeConfig.t := ComtradeConfig.mk "" "" None.

Definition config : ComtradeConfig.t :=
  match ComtradeConfig.init files "rec.cfg" with
  | Return c => c
  | Raise _ => no_config
  end.

Definition decoded : ComtradeData.obj * ComtradeConfig.t :=
  match ComtradeData.init files config with
  | Return r => r
  | Raise _ => (ComtradeData.mk "" "" None, no_config)
  end.

Definition doc_of (c : ComtradeConfig.t) : ComtradeConfig.doc :=
  match ComtradeConfig.body c with
  | Some d => d
  | None =>
      ComtradeConfig.mkdoc (FileInfo.mk "" 0 "") (ChannelInfo.mk 0 0 0) [] []
        0%float 0 [] (TimeStamp.mk "" 0 0 0 0 0 0%float)
        (TimeStamp.mk "" 0 0 0 0 0 0%float) "" 0%float
  end.

Definition dec : ComtradeData.decoded :=
  match ComtradeData.body (fst decoded) with
  | Some d => d
  | None => ComtradeData.mkdecoded 0 0 0%float [] []
  end.

End Scenario.

(** The document with another data-encoding token. *)
Definition doc_set_dataFormat (tok : string) (d : ComtradeConfig.doc)
  : ComtradeConfig.doc :=
  ComtradeConfig.mkdoc
    (ComtradeConfig.fileInfo d) (ComtradeConfig.channelInfo d)
    (ComtradeConfig.analogInfo d) (ComtradeConfig.digitalInfo d)
    (ComtradeConfig.frequency d) (ComtradeConfig.nrates d)
    (ComtradeConfig.sampleInfo d) (ComtradeConfig.startTime d)
    (ComtradeConfig.triggerTime d) tok (ComtradeConfig.timemult d).

(** The configuration with another data-encoding token. *)
Definition set_dataFormat (tok : string) (c : ComtradeConfig.t)
  : ComtradeConfig.t :=
  ComtradeConfig.mk (ComtradeConfig.path c) (ComtradeConfig.result c)
    (option_map (doc_set_dataFormat tok) (ComtradeConfig.body c)).

(** What a session hands to its consumers: the time vector and the two
    mappings, or the exception that ended it. *)
Definition outputs (r : res (ComtradeData.obj * ComtradeConfig.t))
  : res (res (list float) * list (string * list float) * list (string * list Z)) :=
  match r with
  | Return (dat, _) =>
      Return (ComtradeData.t dat, ComtradeData.analog dat, ComtradeData.digital dat)
  | Raise e => Raise e
  end.

(** A recording whose layout line declares three channels and lists
    two: the descriptor lines are gone with the counts. *)
Definition collapsed_cfg : string :=
  Scenario.unlines
    ["STATION,1,1999";
     "3,1A,1D";
     "50";
     "1";
     "1000,3";
     "01/01/2020,00:00:00.000000";
     "01/01/2020,00:00:00.100000";
     "BINARY";
     "1"].

Definition collapsed_files : filesystem :=
  fun p => if String.eqb p "rec.cfg" then Some collapsed_cfg else None.

Definition collapsed_config : ComtradeConfig.t :=
  match ComtradeConfig.init collapsed_files "rec.cfg" with
  | Return c => c
  | Raise _ => Scenario.no_config
  end.

Definition bad_device_cfg : string :=
  Scenario.unlines
    ["STATION,DFR-7,1999";
     "3,2A,1D";
     "1,UA,A,,V,0.5,1,0,-32767,32767,1,1,P";
     "2,IA,A,,A,2,0,0,-32767,32767,1,1,P";
     "1,TRIP,,,0";
     "50";
     "1";
     "1000,3";
     "01/01/2020,00:00:00.000000";
     "01/01/2020,00:00:00.100000";
     "BINARY";
     "1"].

Definition bad_device_files : filesystem :=
  fun p => if String.eqb p "rec.cfg" then Some bad_device_cfg else None.

(** [r] raises nothing but [ValueError] and [IndexError]. *)
Definition parse_failure {A : Type} (r : res A) : Prop :=
  match r with
  | Return _ => True
  | Raise e => e = ValueError \/ e = IndexError
  end.

(** The line of the configuration file that holds the token. *)
Definition token_index (d : ComtradeConfig.doc) : nat :=
  (2 + Z.to_nat (ChannelInfo.analog (ComtradeConfig.channelInfo d))
   + Z.to_nat (ChannelInfo.digital (ComtradeConfig.channelInfo d))
   + 2 + Z.to_nat (ComtradeConfig.nrates d) + 2)%nat.


(** [z] converts to a finite float. *)
Definition finite_int (z : Z) : bool :=
  match binary_normalize Py.prec Py.emax z 0 false with
  | S754_infinity _ => false
  | _ => true
  end.

(** [finite_int] on the [n] integers from [p] on, and on their opposites. *)
Fixpoint finite_from (p : positive) (n : nat) : bool :=
  match n with
  | O => true
  | S n' => finite_int (Zpos p) && finite_int (Zneg p) && finite_from (Pos.succ p) n'
  end.

(** The path a session keeps: its argument without [.cfg], or without
    [.dat] when it holds no [.cfg]. *)
Definition session_base (path : string) : string :=
  if Str.contains ".cfg" path then Str.replace ".cfg" "" path
  else Str.replace ".dat" "" path.

(** What a session object shows: its status and, when they are set, the
    time vector and the two mappings; or the exception that ended the
    construction. *)
Definition session_outputs (r : res ComtradeParser.obj)
  : res (string
         * option (list float * list (string * list float)
                   * list (string * list Z))) :=
  match r with
  | Return p =>
      Return (ComtradeParser.result p,
              option_map
                (fun s => (ComtradeParser.t s, ComtradeParser.analog s,
                           ComtradeParser.digital s))
                (ComtradeParser.body p))
  | Raise e => Raise e
  end.

(** ** Further specification-side definitions *)

(** A descriptor or time stamp with another line in [str] and every
    other attribute as it is. *)
Definition analog_with_str (v : AnalogInfo.t) (s : string) : AnalogInfo.t :=
  AnalogInfo.mk s (AnalogInfo.num v) (AnalogInfo.ch_id v) (AnalogInfo.phase v)
    (AnalogInfo.ccbm v) (AnalogInfo.unit v) (AnalogInfo.a v) (AnalogInfo.b v)
    (AnalogInfo.skew v) (AnalogInfo.min v) (AnalogInfo.max v)
    (AnalogInfo.primary v) (AnalogInfo.secondary v) (AnalogInfo.ps v)
    (AnalogInfo._data v).

Definition digital_with_str (v : DigitalInfo.t) (s : string) : DigitalInfo.t :=
  DigitalInfo.mk s (DigitalInfo.num v) (DigitalInfo.ch_id v)
    (DigitalInfo.phase v) (DigitalInfo.ccbm v) (DigitalInfo.y v)
    (DigitalInfo._data v).

Definition timestamp_with_str (v : TimeStamp.t) (s : string) : TimeStamp.t :=
  TimeStamp.mk s (TimeStamp.day v) (TimeStamp.month v) (TimeStamp.year v)
    (TimeStamp.hour v) (TimeStamp.minute v) (TimeStamp.second v).

(** The largest channel number a COMTRADE configuration can declare: the
    index field of a channel line has at most six digits. *)
Definition max_channel_number : Z := 999999.

(** What the decoder's constructor reads of a configuration object: its
    path and status and, of the document, the layout, the two descriptor
    lists and the first sample-rate segment. *)
Definition decoder_view (c : ComtradeConfig.t)
  : string * string
    * option (ChannelInfo.t * list AnalogInfo.t * list DigitalInfo.t
              * option SampleInfo.t) :=
  (ComtradeConfig.path c, ComtradeConfig.result c,
   option_map
     (fun d => (ComtradeConfig.channelInfo d, ComtradeConfig.analogInfo d,
                ComtradeConfig.digitalInfo d,
                nth_error (ComtradeConfig.sampleInfo d) 0))
     (ComtradeConfig.body c)).

(** [d[k]] as [d.get(k)]. *)
Fixpoint dict_get {V : Type} (d : list (string * V)) (k : string) : option V :=
  match d with
  | [] => None
  | (k', v) :: d' => if String.eqb k' k then Some v else dict_get d' k
  end.

(** The loop [for each in infos: m[key(each)] = val(each)] from the
    dictionary [m]. *)
Definition collect_from {A V : Type} (key : A -> string) (val : A -> V)
  (infos : list A) (m : list (string * V)) : list (string * V) :=
  fold_left (fun m each => dict_set m (key each) (val each)) infos m.

(** The last element of [infos] filed under the key [k]. *)
Definition last_with_key {A : Type} (key : A -> string) (infos : list A)
  (k : string) : option A :=
  find (fun e => String.eqb (key e) k) (rev infos).

(** The recording of [Scenario] with a second sample-rate segment, another
    station, other time stamps and another time multiplier. *)
Definition cfg_two_rates : string :=
  Scenario.unlines
    ["SUBSTATION-B,42,1991";
     "3,2A,1D";
     "1,UA,A,,V,0.5,1,0,-32767,32767,1,1,P";
     "2,IA,A,,A,2,0,0,-32767,32767,1,1,P";
     "1,TRIP,,,0";
     "60";
     "2";
     "1000,3";
     "250,40";
     "02/03/2021,10:11:12.5";
     "02/03/2021,10:11:13.5";
     "BINARY";
     "1000"].

Definition files_two_rates : filesystem :=
  fun p =>
    if String.eqb p "rec.cfg" then Some cfg_two_rates
    else if String.eqb p "rec.dat" then Some Scenario.dat
    else None.

Definition config_two_rates : ComtradeConfig.t :=
  match ComtradeConfig.init files_two_rates "rec.cfg" with
  | Return c => c
  | Raise _ => Scenario.no_config
  end.

(** The session of the [Scenario] recording. *)
Definition scenario_session : ComtradeParser.obj :=
  match ComtradeParser.init Scenario.files "rec.cfg" with
  | Return p => p
  | Raise _ => ComtradeParser.mk "" None
  end.

Definition empty_session : ComtradeParser.session :=
  ComtradeParser.mksession "" Scenario.no_config (ComtradeData.mk "" "" None)
    [] [] [] 0%float.

(** The [Scenario] recording opened as [./rec.cfg]: its sibling
    [./rec.dat] does not exist, and the directory holds a file named
    [.dat]. *)
Definition files_dotted : filesystem :=
  fun p =>
    if String.eqb p "./rec.cfg" then Some Scenario.cfg
    else if String.eqb p ".dat" then Some Scenario.dat
    else None.

(** The same recording with its sibling in place and no file named
    [.dat]. *)
Definition files_dotted_sibling : filesystem :=
  fun p =>
    if String.eqb p "./rec.cfg" then Some Scenario.cfg
    else if String.eqb p "./rec.dat" then Some Scenario.dat
    else None.

Definition config_dotted : ComtradeConfig.t :=
  match ComtradeConfig.init files_dotted "./rec.cfg" with
  | Return c => c
  | Raise _ => Scenario.no_config
  end.

Definition decoded_dotted : ComtradeData.obj * ComtradeConfig.t :=
  match ComtradeData.init files_dotted config_dotted with
  | Return r => r
  | Raise _ => (ComtradeData.mk "" "" None, Scenario.no_config)
  end.

Definition session_dotted : ComtradeParser.session :=
  match ComtradeParser.init files_dotted "./rec.cfg" with
  | Return (ComtradeParser.mk _ (Some s)) => s
  | _ => empty_session
  end.

(** Two states of the descriptor lists with the same number of analog
    descriptors and, position by position, the same digital indices. *)
Definition same_layout (st1 st2 : ComtradeData.buffers) : Prop :=
  List.length (fst st1) = List.length (fst st2) /\
  map DigitalInfo.num (snd st1) = map DigitalInfo.num (snd st2).

(** The [Scenario] recording whose data file lost its last byte. *)
Definition dat_short : string :=
  Scenario.bytes
    [1; 0; 0; 0;   0; 0; 0; 0;     10; 0;     255; 255;   2; 0;
     2; 0; 0; 0;   232; 3; 0; 0;   0; 128;    100; 0;     0; 0;
     3; 0; 0; 0;   208; 7; 0; 0;   255; 127;  1; 1;       255].

Definition files_short : filesystem :=
  fun p =>
    if String.eqb p "rec.cfg" then Some Scenario.cfg
    else if String.eqb p "rec.dat" then Some dat_short
    else None.

(** The [Scenario] data file with other sample numbers and time stamps
    in its three records, and four more bytes after the last one. *)
Definition dat_rewritten : string :=
  Scenario.bytes
    [9; 9; 9; 9;   7; 7; 7; 7;     10; 0;     255; 255;   2; 0;
     0; 0; 0; 0;   0; 0; 0; 0;     0; 128;    100; 0;     0; 0;
     255; 255; 255; 255;   1; 2; 3; 4;   255; 127;  1; 1;   255; 255;
     42; 42; 42; 42].

Definition files_rewritten : filesystem :=
  fun p =>
    if String.eqb p "rec.cfg" then Some Scenario.cfg
    else if String.eqb p "rec.dat" then Some dat_rewritten
    else None.

(** The [Scenario] configuration declaring no sample-rate segment. *)
Definition cfg_no_rates : string :=
  Scenario.unlines
    ["STATION,1,1999";
     "3,2A,1D";
     "1,UA,A,,V,0.5,1,0,-32767,32767,1,1,P";
     "2,IA,A,,A,2,0,0,-32767,32767,1,1,P";
     "1,TRIP,,,0";
     "50";
     "0";
     "01/01/2020,00:00:00.000000";
     "01/01/2020,00:00:00.100000";
     "BINARY";
     "1"].

Definition files_no_rates : filesystem :=
  fun p =>
    if String.eqb p "rec.cfg" then Some cfg_no_rates
    else if String.eqb p "rec.dat" then Some Scenario.dat
    else None.

Definition config_no_rates : ComtradeConfig.t :=
  match ComtradeConfig.init files_no_rates "rec.cfg" with
  | Return c => c
  | Raise _ => Scenario.no_config
  end.

(** Spec side: a text file whose lines [ls] each end with the
    terminator [eol]. *)
Fixpoint text_of_lines (eol : string) (ls : list string) : string :=
  match ls with
  | [] => ""
  | l :: ls' => (l ++ eol ++ text_of_lines eol ls')%string
  end.

(** A line that holds neither a line feed nor a carriage return. *)
Fixpoint plain_line (s : string) : bool :=
  match s with
  | EmptyString => true
  | String c s' =>
      negb (Ascii.eqb c Str.LF) && negb (Ascii.eqb c Str.CR) && plain_line s'
  end.

Definition scenario_lines : list string :=
  ["STATION,1,1999";
   "3,2A,1D";
   "1,UA,A,,V,0.5,1,0,-32767,32767,1,1,P";
   "2,IA,A,,A,2,0,0,-32767,32767,1,1,P";
   "1,TRIP,,,0";
   "50";
   "1";
   "1000,3";
   "01/01/2020,00:00:00.000000";
   "01/01/2020,00:00:00.100000";
   "BINARY";
   "1"].

(** The lines a text holds after its last terminator: one line, or none
    when the text ends there. *)
Definition unterminated (tail : string) : list string :=
  match tail with
  | EmptyString => []
  | _ => [tail]
  end.

(** The [Scenario] configuration as a DOS text file whose last line has
    no terminator. *)
Definition files_crlf : filesystem :=
  fun p =>
    if String.eqb p "rec.cfg"
    then Some (text_of_lines (String Str.CR (String Str.LF ""))
                 (firstn 11 scenario_lines) ++ "1")%string
    else if String.eqb p "rec.dat" then Some Scenario.dat
    else None.

(** * Properties *)

(** ** The exception monad and the loops *)

Lemma bind_Return {A B : Type} (m : res A) (k : A -> res B) (b : B) :
  bind m k = Return b -> exists a, m = Return a /\ k a = Return b.
Proof.
  destruct m as [a|e]; simpl; intros H.
  - exists a. split; [reflexivity | exact H].
  - discriminate H.
Qed.

Lemma bind_Raise {A B : Type} (m : res A) (k : A -> res B) (e : exn) :
  bind m k = Raise e ->
  m = Raise e \/ exists a, m = Return a /\ k a = Raise e.
Proof.
  destruct m as [a|e']; simpl; intros H.
  - right. exists a. split; [reflexivity | exact H].
  - left. inversion H. reflexivity.
Qed.

(** Splits a hypothesis [bind m k = Return b] into its two halves. *)
Ltac inv_bind_auto H :=
  let a := fresh "x" in
  let H1 := fresh "E" in
  apply bind_Return in H; destruct H as (a & H1 & H).

Tactic Notation "inv_bind" hyp(H) "as" ident(a) ident(E) :=
  apply bind_Return in H; destruct H as (a & E & H).

Ltac inv_binds H :=
  repeat (match type of H with
          | bind _ _ = Return _ => inv_bind_auto H
          end; cbv beta in H).

Lemma getitem_Return {A : Type} (l : list A) (i : nat) (a : A) :
  getitem l i = Return a <-> nth_error l i = Some a.
Proof.
  unfold getitem. destruct (nth_error l i); split; intros H;
    inversion H; reflexivity.
Qed.

Lemma setitem_length {A : Type} (l : list A) (i : nat) (a : A) :
  List.length (setitem l i a) = List.length l.
Proof.
  revert i. induction l as [|x l IH]; intros [|i]; simpl; auto.
Qed.

Lemma setitem_same {A : Type} (l : list A) (i : nat) (a x : A) :
  nth_error l i = Some x -> nth_error (setitem l i a) i = Some a.
Proof.
  revert i. induction l as [|y l IH]; intros [|i]; simpl; intros H;
    try discriminate; auto.
Qed.

Lemma setitem_other {A : Type} (l : list A) (i j : nat) (a : A) :
  i <> j -> nth_error (setitem l i a) j = nth_error l j.
Proof.
  revert i j. induction l as [|y l IH]; intros [|i] [|j] H; simpl; auto.
  congruence.
Qed.

Lemma range_nonpos (n : Z) : n <= 0 -> range n = [].
Proof.
  intros H. unfold range. replace (Z.to_nat n) with O by lia. reflexivity.
Qed.

Lemma range_length (n : Z) : List.length (range n) = Z.to_nat n.
Proof. unfold range. rewrite length_map, length_seq. reflexivity. Qed.

Lemma range_nth (n : Z) (k : nat) :
  (k < Z.to_nat n)%nat -> nth_error (range n) k = Some (Z.of_nat k).
Proof.
  intros H. unfold range. rewrite nth_error_map, nth_error_seq.
  destruct (Nat.ltb_spec k (Z.to_nat n)); [reflexivity | lia].
Qed.

Lemma for_each_app {A S : Type} (xs ys : list A) (body : A -> S -> res S)
  (s : S) :
  for_each (xs ++ ys) body s = (s' <- for_each xs body s ;; for_each ys body s').
Proof.
  revert s. induction xs as [|x xs IH]; intros s; simpl.
  - reflexivity.
  - destruct (body x s) as [s1|e]; simpl; [apply IH | reflexivity].
Qed.

(** A loop on a pair that only touches one component is a loop on that
    component. *)
Lemma for_each_fst {A S T : Type} (xs : list A)
  (body : A -> S * T -> res (S * T)) (body1 : A -> S -> res S) :
  (forall x s t, body x (s, t) = (s' <- body1 x s ;; Return (s', t))) ->
  forall s t,
    for_each xs body (s, t) = (s' <- for_each xs body1 s ;; Return (s', t)).
Proof.
  intros Hb. induction xs as [|x xs IH]; intros s t; simpl.
  - reflexivity.
  - rewrite Hb. destruct (body1 x s) as [s1|e]; simpl; [apply IH | reflexivity].
Qed.

Lemma for_each_snd {A S T : Type} (xs : list A)
  (body : A -> S * T -> res (S * T)) (body2 : A -> T -> res T) :
  (forall x s t, body x (s, t) = (t' <- body2 x t ;; Return (s, t'))) ->
  forall s t,
    for_each xs body (s, t) = (t' <- for_each xs body2 t ;; Return (s, t')).
Proof.
  intros Hb. induction xs as [|x xs IH]; intros s t; simpl.
  - reflexivity.
  - rewrite Hb. destruct (body2 x t) as [t1|e]; simpl; [apply IH | reflexivity].
Qed.

(** ** Loops that update one element per index *)

Section IndexedLoop.

Context {A R : Type}.
Variable read : Z -> res R.
Variable app : A -> R -> res A.

Lemma channel_loop (k : nat) :
  forall (s : nat) (l l' : list A),
    for_each (map Z.of_nat (seq s k)) (channel_step read app) l = Return l' ->
    List.length l' = List.length l /\
    (forall j, (s <= j < s + k)%nat ->
               exists x raw x',
                 nth_error l j = Some x /\ read (Z.of_nat j) = Return raw /\
                 app x raw = Return x' /\ nth_error l' j = Some x') /\
    (forall j, ~ (s <= j < s + k)%nat -> nth_error l' j = nth_error l j).
Proof.
  induction k as [|k IH]; intros s l l' H; simpl in H.
  - inversion H; subst. repeat split; intros; try lia; reflexivity.
  - inv_bind H as l1 E. unfold channel_step in E.
    inv_bind E as raw0 Er. inv_bind E as x0 Ex. inv_bind E as x0' Ea.
    inversion E; subst l1; clear E.
    rewrite Nat2Z.id in *. apply getitem_Return in Ex.
    destruct (IH _ _ _ H) as (Hlen & Hin & Hout).
    rewrite setitem_length in Hlen.
    split; [exact Hlen|]. split.
    + intros j Hj. destruct (Nat.eq_dec j s) as [->|Hne].
      * exists x0, raw0, x0'. repeat split; auto.
        rewrite Hout by lia. eapply setitem_same; eauto.
      * destruct (Hin j) as (y & raw & y' & Hy & Hr & Ha & Hy'); [lia|].
        rewrite setitem_other in Hy by auto.
        exists y, raw, y'. auto.
    + intros j Hj. rewrite Hout by lia. apply setitem_other. lia.
Qed.

End IndexedLoop.

(** ** The shift of the digital test *)

Lemma lshift_one_small (n : Z) :
  0 <= n <= max_channel_number -> Py.lshift_one n = Return (Z.shiftl 1 n).
Proof.
  intros [H0 Hn]. unfold Py.lshift_one.
  destruct (Z.ltb_spec n 0) as [?|_]; [lia|].
  destruct (Z.ltb_spec Py.MAX_LONG_DIGITS (Py.lshift_digits n)) as [Hbig|_];
    [|reflexivity].
  exfalso. unfold Py.lshift_digits, Py.PyLong_SHIFT in Hbig.
  change Py.MAX_LONG_DIGITS with 2305843009213693945 in Hbig.
  unfold max_channel_number in Hn.
  assert (n / 30 <= n) by (apply Z.div_le_upper_bound; lia).
  destruct (n mod 30 =? 0); lia.
Qed.

Lemma lshift_one_raises (n : Z) (e : exn) :
  Py.lshift_one n = Raise e ->
  (e = ValueError /\ n < 0) \/ (e = OverflowError /\ max_channel_number < n).
Proof.
  intros H.
  destruct (Z.ltb_spec n 0) as [Hneg|Hpos].
  - left. unfold Py.lshift_one in H.
    destruct (Z.ltb_spec n 0) as [_|?]; [|lia]. inversion H. auto.
  - destruct (Z.le_gt_cases n max_channel_number) as [Hle|Hgt].
    + rewrite lshift_one_small in H by lia. discriminate H.
    + right. split; [|lia]. unfold Py.lshift_one in H.
      destruct (Z.ltb_spec n 0) as [?|_]; [lia|].
      destruct (Py.MAX_LONG_DIGITS <? Py.lshift_digits n);
        inversion H; reflexivity.
Qed.

Lemma digital_value_inv (di : DigitalInfo.t) (word v : Z) :
  DigitalInfo.value di word = Return v ->
  0 <= DigitalInfo.num di /\
  v = (if Z.land word (Z.shiftl 1 (DigitalInfo.num di)) =? 0 then 0 else 1).
Proof.
  unfold DigitalInfo.value, Py.lshift_one.
  destruct (Z.ltb_spec (DigitalInfo.num di) 0) as [?|Hpos];
    [discriminate|].
  destruct (Py.MAX_LONG_DIGITS <? Py.lshift_digits (DigitalInfo.num di));
    [discriminate|].
  cbn [bind]. intros H. inversion H. auto.
Qed.

(** ** The sample loop of the decoder *)

Lemma ord_byte (c : ascii) : 0 <= Str.ord c < 256.
Proof. unfold Str.ord. pose proof (N_ascii_bounded c). lia. Qed.

Lemma signed16_range (u : Z) :
  0 <= u < 65536 -> -32768 <= signed16 u <= 32767.
Proof. unfold signed16. destruct (Z.ltb_spec u 32768); lia. Qed.

Lemma unpack_h_inv (b : list ascii) (raw : Z) :
  unpack_h b = Return raw ->
  exists lo hi, b = [lo; hi] /\ raw = signed16 (Str.ord lo + 256 * Str.ord hi).
Proof.
  destruct b as [|lo [|hi [|x b]]]; intros H; try discriminate H.
  exists lo, hi. split; [reflexivity|]. unfold unpack_h in H. congruence.
Qed.

Lemma unpack_h_range (b : list ascii) (raw : Z) :
  unpack_h b = Return raw -> -32768 <= raw <= 32767.
Proof.
  intros H. destruct (unpack_h_inv _ _ H) as (lo & hi & _ & ->).
  apply signed16_range.
  pose proof (ord_byte lo). pose proof (ord_byte hi). lia.
Qed.

Lemma analog_append (ai ai' : AnalogInfo.t) (raw : Z) :
  AnalogInfo.appendData ai raw = Return ai' ->
  exists v, AnalogInfo.value ai raw = Return v /\
            ai' = AnalogInfo.with_data ai (AnalogInfo._data ai ++ [v]).
Proof.
  unfold AnalogInfo.appendData. intros H. inv_bind H as v E.
  inversion H; subst. eauto.
Qed.

Lemma digital_append (di di' : DigitalInfo.t) (raw : Z) :
  DigitalInfo.appendData di raw = Return di' ->
  exists v, DigitalInfo.value di raw = Return v /\
            di' = DigitalInfo.with_data di (DigitalInfo._data di ++ [v]).
Proof.
  unfold DigitalInfo.appendData. intros H. inv_bind H as v E.
  inversion H; subst. eauto.
Qed.

Lemma analog_with_data_id (ai : AnalogInfo.t) :
  AnalogInfo.with_data ai (AnalogInfo._data ai ++ []) = ai.
Proof. destruct ai; unfold AnalogInfo.with_data; simpl. now rewrite app_nil_r. Qed.

Lemma digital_with_data_id (di : DigitalInfo.t) :
  DigitalInfo.with_data di (DigitalInfo._data di ++ []) = di.
Proof. destruct di; unfold DigitalInfo.with_data; simpl. now rewrite app_nil_r. Qed.

Section SampleLoop.

Variable data : list ascii.
Variables unitSize analogChNum digitalChNum analogBytesLen : Z.

Lemma analog_step_channel (i ch : Z) (ais : list AnalogInfo.t)
  (dis : list DigitalInfo.t) :
  ComtradeData.analog_step data (i * unitSize + 8) ch (ais, dis) =
  (ais' <- channel_step (analog_word data unitSize i) AnalogInfo.appendData ch ais ;;
   Return (ais', dis)).
Proof.
  unfold ComtradeData.analog_step, channel_step, analog_word, read16. simpl.
  destruct (unpack_h _); simpl; [|reflexivity].
  destruct (getitem ais _); simpl; [|reflexivity].
  destruct (AnalogInfo.appendData _ _); reflexivity.
Qed.

Lemma digital_step_channel (i ch : Z) (ais : list AnalogInfo.t)
  (dis : list DigitalInfo.t) :
  ComtradeData.digital_step data (i * unitSize + 8 + analogBytesLen) ch
    (ais, dis) =
  (dis' <- channel_step (digital_word data unitSize analogBytesLen i) DigitalInfo.appendData ch dis ;;
   Return (ais, dis')).
Proof.
  unfold ComtradeData.digital_step, channel_step, digital_word, read16. simpl.
  destruct (unpack_h _); simpl; [|reflexivity].
  destruct (getitem dis _); simpl; [|reflexivity].
  destruct (DigitalInfo.appendData _ _); reflexivity.
Qed.

(** One sample: every channel below the declared count gets one value,
    the other descriptors are untouched. *)
Lemma sample_step_spec (i : Z) (ais ais' : list AnalogInfo.t)
  (dis dis' : list DigitalInfo.t) :
  ComtradeData.sample_step data unitSize analogChNum digitalChNum
    analogBytesLen i (ais, dis) = Return (ais', dis') ->
  (forall j ai, (j < Z.to_nat analogChNum)%nat -> nth_error ais j = Some ai ->
     exists raw v, analog_word data unitSize i (Z.of_nat j) = Return raw /\
                   AnalogInfo.value ai raw = Return v /\
                   nth_error ais' j =
                   Some (AnalogInfo.with_data ai (AnalogInfo._data ai ++ [v]))) /\
  (forall j, ~ (j < Z.to_nat analogChNum)%nat ->
             nth_error ais' j = nth_error ais j) /\
  (forall j di, (j < Z.to_nat digitalChNum)%nat -> nth_error dis j = Some di ->
     exists raw v, digital_word data unitSize analogBytesLen i (Z.of_nat j) = Return raw /\
                   DigitalInfo.value di raw = Return v /\
                   nth_error dis' j =
                   Some (DigitalInfo.with_data di (DigitalInfo._data di ++ [v]))) /\
  (forall j, ~ (j < Z.to_nat digitalChNum)%nat ->
             nth_error dis' j = nth_error dis j).
Proof.
  unfold ComtradeData.sample_step. intros H. inv_bind H as st1 EA.
  destruct st1 as [ais1 dis1].
  rewrite (for_each_fst _ _ _ (analog_step_channel i)) in EA.
  rewrite (for_each_snd _ _ _ (digital_step_channel i)) in H.
  inv_bind EA as a1 EA1. inversion EA; subst; clear EA.
  inv_bind H as d1 ED1. inversion H; subst; clear H.
  unfold range in EA1, ED1.
  destruct (channel_loop _ _ _ _ _ _ EA1) as (_ & HinA & HoutA).
  destruct (channel_loop _ _ _ _ _ _ ED1) as (_ & HinD & HoutD).
  repeat split.
  - intros j ai Hj Hai.
    destruct (HinA j) as (y & raw & y' & Hy & Hr & Ha & Hy'); [lia|].
    rewrite Hai in Hy. inversion Hy; subst y.
    destruct (analog_append _ _ _ Ha) as (v & Hv & ->). eauto.
  - intros j Hj. apply HoutA. lia.
  - intros j di Hj Hdi.
    destruct (HinD j) as (y & raw & y' & Hy & Hr & Ha & Hy'); [lia|].
    rewrite Hdi in Hy. inversion Hy; subst y.
    destruct (digital_append _ _ _ Ha) as (v & Hv & ->). eauto.
  - intros j Hj. apply HoutD. lia.
Qed.

(** The whole loop: the buffer of every channel below the declared
    count grows by the trace of the samples, in sample order. *)
Lemma samples_loop (k : nat) :
  forall (s : nat) (ais ais' : list AnalogInfo.t)
         (dis dis' : list DigitalInfo.t),
    for_each (map Z.of_nat (seq s k))
      (ComtradeData.sample_step data unitSize analogChNum digitalChNum
         analogBytesLen) (ais, dis) = Return (ais', dis') ->
    (forall j ai, (j < Z.to_nat analogChNum)%nat -> nth_error ais j = Some ai ->
       exists vals,
         nth_error ais' j =
         Some (AnalogInfo.with_data ai (AnalogInfo._data ai ++ vals)) /\
         analog_trace data unitSize ai (Z.of_nat j) (map Z.of_nat (seq s k)) vals) /\
    (forall j, ~ (j < Z.to_nat analogChNum)%nat ->
               nth_error ais' j = nth_error ais j) /\
    (forall j di, (j < Z.to_nat digitalChNum)%nat -> nth_error dis j = Some di ->
       exists vals,
         nth_error dis' j =
         Some (DigitalInfo.with_data di (DigitalInfo._data di ++ vals)) /\
         digital_trace data unitSize analogBytesLen di (Z.of_nat j) (map Z.of_nat (seq s k)) vals) /\
    (forall j, ~ (j < Z.to_nat digitalChNum)%nat ->
               nth_error dis' j = nth_error dis j).
Proof.
  induction k as [|k IH]; intros s ais ais' dis dis' H; simpl in H.
  - inversion H; subst. repeat split; try reflexivity.
    + intros j ai _ Hai. exists []. rewrite analog_with_data_id.
      split; [exact Hai | constructor].
    + intros j di _ Hdi. exists []. rewrite digital_with_data_id.
      split; [exact Hdi | constructor].
  - inv_bind H as st1 E. destruct st1 as [ais1 dis1].
    destruct (sample_step_spec _ _ _ _ _ E) as (HA & HA' & HD & HD').
    destruct (IH _ _ _ _ _ H) as (IA & IA' & ID & ID').
    repeat split.
    + intros j ai Hj Hai.
      destruct (HA j ai Hj Hai) as (raw & v & Hr & Hv & H1).
      destruct (IA j _ Hj H1) as (vals & H2 & Ht).
      exists (v :: vals). split.
      * rewrite H2. f_equal. destruct ai; unfold AnalogInfo.with_data; simpl.
        now rewrite <- app_assoc.
      * simpl. constructor; [eauto | exact Ht].
    + intros j Hj. rewrite IA' by exact Hj. apply HA'. exact Hj.
    + intros j di Hj Hdi.
      destruct (HD j di Hj Hdi) as (raw & v & Hr & Hv & H1).
      destruct (ID j _ Hj H1) as (vals & H2 & Ht).
      exists (v :: vals). split.
      * rewrite H2. f_equal. destruct di; unfold DigitalInfo.with_data; simpl.
        now rewrite <- app_assoc.
      * simpl. constructor; [eauto | exact Ht].
    + intros j Hj. rewrite ID' by exact Hj. apply HD'. exact Hj.
Qed.

End SampleLoop.

(** ** The three outcomes of the decoder's constructor *)

Lemma data_init_unparsed (fs : filesystem) (config : ComtradeConfig.t) :
  ComtradeConfig.result config <> "parsed" ->
  ComtradeData.init fs config =
  Return (ComtradeData.mk "none" (ComtradeData.dat_path config) None, config).
Proof.
  intros H. unfold ComtradeData.init.
  apply String.eqb_neq in H. rewrite H. reflexivity.
Qed.

Lemma data_init_no_file (fs : filesystem) (config : ComtradeConfig.t) :
  ComtradeConfig.result config = "parsed" ->
  fs (ComtradeData.dat_path config) = None ->
  ComtradeData.init fs config =
  Return (ComtradeData.mk "no file" (ComtradeData.dat_path config) None, config).
Proof.
  intros H Hf. unfold ComtradeData.init.
  apply String.eqb_eq in H. rewrite H, Hf. reflexivity.
Qed.

Lemma data_init_parsed (fs : filesystem) (config config' : ComtradeConfig.t)
  (dat : ComtradeData.obj) :
  ComtradeData.init fs config = Return (dat, config') ->
  ComtradeData.result dat = "parsed" ->
  exists content d first deltaT st,
    ComtradeConfig.result config = "parsed" /\
    fs (ComtradeData.dat_path config) = Some content /\
    ComtradeConfig.body config = Some d /\
    nth_error (ComtradeConfig.sampleInfo d) 0 = Some first /\
    Py.truediv 1%float (SampleInfo.rate first) = Return deltaT /\
    for_each (range (SampleInfo.end_ first))
      (ComtradeData.sample_step (Str.to_list content) (stride d)
         (ChannelInfo.analog (ComtradeConfig.channelInfo d))
         (ChannelInfo.digital (ComtradeConfig.channelInfo d))
         (2 * ChannelInfo.analog (ComtradeConfig.channelInfo d)))
      (ComtradeConfig.analogInfo d, ComtradeConfig.digitalInfo d) = Return st /\
    dat = ComtradeData.mk "parsed" (ComtradeData.dat_path config)
            (Some (ComtradeData.mkdecoded (stride d) (SampleInfo.end_ first)
                     deltaT (ComtradeData.collect_analog (fst st))
                     (ComtradeData.collect_digital (snd st)))) /\
    config' = ComtradeData.store config d st.
Proof.
  unfold ComtradeData.init. intros H Hres.
  destruct (String.eqb_spec (ComtradeConfig.result config) "parsed") as [Hp|Hp];
    simpl in H.
  2:{ inversion H; subst. discriminate Hres. }
  destruct (fs (ComtradeData.dat_path config)) as [content|] eqn:Hf.
  2:{ inversion H; subst. discriminate Hres. }
  unfold ComtradeConfig.attr in H.
  destruct (ComtradeConfig.body config) as [d|] eqn:Hb; [|discriminate H].
  simpl in H.
  inv_bind H as first Ef. apply getitem_Return in Ef.
  inv_bind H as deltaT Ed.
  inv_bind H as st Es. destruct st as [ais dis].
  inversion H; subst; clear H.
  exists content, d, first, deltaT, (ais, dis).
  repeat split; auto.
Qed.

(** ** The configuration builder *)

Lemma read_block_loop {A : Type} (make : string -> res A)
  (infoStrs : list string) (k : nat) :
  forall (s : nat) (acc : list A) (index : nat) (l : list A) (index' : nat),
    for_each (map Z.of_nat (seq s k))
      (fun (_ : Z) '(acc, index) =>
         s <- getitem infoStrs index ;;
         x <- make s ;;
         Return (acc ++ [x], S index))
      (acc, index) = Return (l, index') ->
    index' = (index + k)%nat /\
    exists new,
      l = acc ++ new /\ List.length new = k /\
      forall j, (j < k)%nat ->
        exists line x, nth_error infoStrs (index + j) = Some line /\
                       make line = Return x /\ nth_error new j = Some x.
Proof.
  induction k as [|k IH]; intros s acc index l index' H; simpl in H.
  - inversion H; subst. split; [lia|]. exists []. rewrite app_nil_r.
    repeat split; auto. intros j Hj. lia.
  - inv_bind H as st E. inv_bind E as line El. inv_bind E as x Ex.
    inversion E; subst st; clear E. apply getitem_Return in El.
    destruct (IH _ _ _ _ _ H) as (-> & new & -> & Hlen & Hnew).
    split; [lia|]. exists (x :: new). rewrite <- app_assoc. simpl.
    repeat split; auto.
    intros [|j] Hj.
    + exists line, x. rewrite Nat.add_0_r. auto.
    + destruct (Hnew j) as (line' & x' & H1 & H2 & H3); [lia|].
      exists line', x'. replace (index + S j)%nat with (S index + j)%nat by lia.
      auto.
Qed.

Lemma read_block_spec {A : Type} (make : string -> res A)
  (infoStrs : list string) (n : Z) (index : nat) (l : list A) (index' : nat) :
  ComtradeConfig.read_block make infoStrs n index = Return (l, index') ->
  index' = (index + Z.to_nat n)%nat /\
  List.length l = Z.to_nat n /\
  forall j, (j < Z.to_nat n)%nat ->
    exists line x, nth_error infoStrs (index + j) = Some line /\
                   make line = Return x /\ nth_error l j = Some x.
Proof.
  unfold ComtradeConfig.read_block, range. intros H.
  destruct (read_block_loop _ _ _ _ _ _ _ _ H) as (-> & new & -> & Hlen & Hnew).
  simpl. auto.
Qed.

(** What a block of lines made: every element comes from [make]. *)
Lemma read_block_Forall {A : Type} (make : string -> res A) (P : A -> Prop)
  (infoStrs : list string) (n : Z) (index : nat) (l : list A) (index' : nat) :
  (forall line x, make line = Return x -> P x) ->
  ComtradeConfig.read_block make infoStrs n index = Return (l, index') ->
  Forall P l.
Proof.
  intros HP H. destruct (read_block_spec _ _ _ _ _ _ H) as (_ & Hlen & Hnth).
  apply Forall_forall. intros x Hx.
  destruct (In_nth_error _ _ Hx) as (j & Hj).
  assert (Hlt : (j < Z.to_nat n)%nat).
  { rewrite <- Hlen. apply nth_error_Some. congruence. }
  destruct (Hnth j Hlt) as (line & x' & _ & Hm & Hx').
  rewrite Hj in Hx'. inversion Hx'; subst. eauto.
Qed.

Lemma parse_inv (infoStrs : list string) (d : ComtradeConfig.doc) :
  ComtradeConfig._parse infoStrs = Return d -> parsed_lines infoStrs d.
Proof.
  unfold ComtradeConfig._parse. intros H.
  inv_bind H as s0 E0. apply getitem_Return in E0.
  inv_bind H as fi Efi.
  inv_bind H as s1 E1. apply getitem_Return in E1.
  inv_bind H as ci Eci.
  inv_bind H as pa Ea. destruct pa as [ais ia].
  inv_bind H as pd Ed. destruct pd as [dis id].
  inv_bind H as sf Esf. inv_bind H as fr Efr.
  inv_bind H as sn Esn. inv_bind H as nr Enr.
  inv_bind H as psi Es. destruct psi as [sis isi].
  inv_bind H as st Est. inv_bind H as stt Estt.
  inv_bind H as tr Etr. inv_bind H as trt Etrt.
  inv_bind H as sd Esd.
  inv_bind H as sm Esm. inv_bind H as tm Etm.
  inversion H; subst d; clear H. simpl.
  pose proof (read_block_spec _ _ _ _ _ _ Ea) as (-> & _).
  constructor; simpl; eauto.
Qed.

Lemma config_init_inv (fs : filesystem) (filePath : string)
  (c : ComtradeConfig.t) :
  ComtradeConfig.init fs filePath = Return c ->
  (fs filePath = None /\ c = ComtradeConfig.mk filePath "no file" None) \/
  (exists content d,
      fs filePath = Some content /\
      ComtradeConfig._parse
        (ComtradeConfig._removeNextline (read_text_lines content)) = Return d /\
      c = ComtradeConfig.mk filePath "parsed" (Some d)).
Proof.
  unfold ComtradeConfig.init. destruct (fs filePath) as [content|].
  - intros H. inv_bind H as d E. inversion H; subst. right. eauto.
  - intros H. inversion H; subst. left. auto.
Qed.

Lemma analog_init_fresh (line : string) (ai : AnalogInfo.t) :
  AnalogInfo.init line = Return ai -> AnalogInfo._data ai = [].
Proof.
  unfold AnalogInfo.init. intros H. inv_binds H. inversion H. reflexivity.
Qed.

Lemma digital_init_fresh (line : string) (di : DigitalInfo.t) :
  DigitalInfo.init line = Return di -> DigitalInfo._data di = [].
Proof.
  unfold DigitalInfo.init. intros H. inv_binds H. inversion H. reflexivity.
Qed.

Lemma parse_fresh (infoStrs : list string) (d : ComtradeConfig.doc) :
  ComtradeConfig._parse infoStrs = Return d -> fresh_doc d.
Proof.
  intros H. destruct (parse_inv _ _ H) as [_ _ (ia & Ha) (id & Hd) (i & j & Hs)].
  constructor.
  - apply (read_block_spec _ _ _ _ _ _ Ha).
  - apply (read_block_spec _ _ _ _ _ _ Hd).
  - apply (read_block_spec _ _ _ _ _ _ Hs).
  - eapply read_block_Forall; [|exact Ha]. apply analog_init_fresh.
  - eapply read_block_Forall; [|exact Hd]. apply digital_init_fresh.
Qed.

(** ** A decoded session *)

Lemma data_init_decodes (fs : filesystem) (config config' : ComtradeConfig.t)
  (dat : ComtradeData.obj) :
  ComtradeData.init fs config = Return (dat, config') ->
  ComtradeData.result dat = "parsed" ->
  exists content d d' dec,
    fs (ComtradeData.path dat) = Some content /\
    ComtradeData.path dat = ComtradeData.dat_path config /\
    ComtradeConfig.result config = "parsed" /\
    ComtradeConfig.body config = Some d /\
    ComtradeConfig.body config' = Some d' /\
    ComtradeData.body dat = Some dec /\
    decodes content d d' dec.
Proof.
  intros H Hres.
  destruct (data_init_parsed _ _ _ _ H Hres)
    as (content & d & first & deltaT & st & Hp & Hf & Hb & Hfirst & Hd & Hloop
        & -> & ->).
  destruct st as [ais dis]. unfold range in Hloop.
  destruct (samples_loop _ _ _ _ _ _ _ _ _ _ _ Hloop) as (HA & HA' & HD & HD').
  exists content, d. eexists. eexists. simpl.
  repeat split; try reflexivity; try assumption; simpl; eauto.
Qed.

Lemma Forall2_nth {A B : Type} (P : A -> B -> Prop) (l1 : list A)
  (l2 : list B) (i : nat) (x : A) :
  Forall2 P l1 l2 -> nth_error l1 i = Some x ->
  exists y, nth_error l2 i = Some y /\ P x y.
Proof.
  intros HF. revert i. induction HF as [|a b l1 l2 Hab HF IH]; intros [|i] Hx;
    simpl in *; try discriminate.
  - inversion Hx; subst. eauto.
  - apply IH. exact Hx.
Qed.

(** ** Bits and bytes *)

Lemma land_bit (w n : Z) :
  0 <= n -> (Z.land w (Z.shiftl 1 n) =? 0) = negb (Z.testbit w n).
Proof.
  intros Hn. rewrite Z.shiftl_1_l.
  destruct (Z.testbit w n) eqn:Hb; simpl.
  - apply Z.eqb_neq. intros H0.
    assert (Ht : Z.testbit (Z.land w (2 ^ n)) n = true).
    { rewrite Z.land_spec, Hb, Z.pow2_bits_true by exact Hn. reflexivity. }
    rewrite H0, Z.bits_0 in Ht. discriminate.
  - apply Z.eqb_eq. apply Z.bits_inj'. intros m Hm.
    rewrite Z.land_spec, Z.bits_0, Z.pow2_bits_eqb by exact Hn.
    destruct (Z.eqb_spec n m) as [->|Hne].
    + rewrite Hb. reflexivity.
    + apply andb_false_r.
Qed.

Lemma signed16_bits (u n : Z) :
  0 <= n < 16 -> Z.testbit (signed16 u) n = Z.testbit u n.
Proof.
  intros Hn. unfold signed16. destruct (u <? 32768); [reflexivity|].
  rewrite <- (Z.mod_pow2_bits_low (u - 65536) 16 n) by lia.
  rewrite <- (Z.mod_pow2_bits_low u 16 n) by lia.
  f_equal. change 65536 with (1 * 2 ^ 16).
  replace (u - 1 * 2 ^ 16) with (u + (-1) * 2 ^ 16) by lia.
  apply Z.mod_add. lia.
Qed.

Lemma slice_two {A : Type} (l : list A) (off : Z) (x y : A) :
  0 <= off -> slice l off (off + 2) = [x; y] ->
  nth_error l (Z.to_nat off) = Some x /\
  nth_error l (S (Z.to_nat off)) = Some y.
Proof.
  intros Hoff. unfold slice, slice_bound.
  destruct (Z.ltb_spec off 0) as [?|_]; [lia|].
  destruct (Z.ltb_spec (off + 2) 0) as [?|_]; [lia|].
  set (len := Z.of_nat (List.length l)). intros H.
  assert (Hlen : (List.length
           (firstn (Z.to_nat (Z.min (off + 2) len - Z.min off len))
              (skipn (Z.to_nat (Z.min off len)) l)) = 2)%nat).
  { rewrite H. reflexivity. }
  rewrite length_firstn, length_skipn in Hlen.
  assert (Hle : off + 2 <= len) by (subst len; lia).
  rewrite !Z.min_l in H by lia.
  replace (Z.to_nat (off + 2 - off)) with 2%nat in H by lia.
  split.
  - rewrite <- (Nat.add_0_r (Z.to_nat off)), <- nth_error_skipn.
    destruct (skipn (Z.to_nat off) l) as [|a [|b r]]; simpl in H;
      inversion H; reflexivity.
  - replace (S (Z.to_nat off)) with (Z.to_nat off + 1)%nat by lia.
    rewrite <- nth_error_skipn.
    destruct (skipn (Z.to_nat off) l) as [|a [|b r]]; simpl in H;
      inversion H; reflexivity.
Qed.

Lemma read16_at (data : list ascii) (off raw : Z) :
  0 <= off -> read16 data off = Return raw -> int16_le_at data off = Some raw.
Proof.
  intros Hoff H. unfold read16 in H.
  destruct (unpack_h_inv _ _ H) as (lo & hi & Hs & ->).
  destruct (slice_two _ _ _ _ Hoff Hs) as (Hlo & Hhi).
  unfold int16_le_at. destruct (Z.ltb_spec off 0); [lia|].
  rewrite Hlo, Hhi. unfold signed16. f_equal.
  destruct (Z.ltb_spec (Str.ord lo + 256 * Str.ord hi) 32768);
    destruct (Z.leb_spec 32768 (Str.ord lo + 256 * Str.ord hi)); lia.
Qed.

Lemma digitalBytesLen_ceil (n : Z) :
  ComtradeData.digitalBytesLen n = 2 * ceil16 n.
Proof.
  unfold ComtradeData.digitalBytesLen, ceil16.
  pose proof (Z.div_mod n 16 ltac:(lia)) as Hdm.
  pose proof (Z.mod_pos_bound n 16 ltac:(lia)) as Hb.
  destruct (Z.eqb_spec (n mod 16) 0) as [H0|H0]; cbn [negb].
  - rewrite <- (Z.div_unique (n + 15) 16 (n / 16) 15); lia.
  - rewrite <- (Z.div_unique (n + 15) 16 (n / 16 + 1) (n mod 16 - 1)); lia.
Qed.

(** ** Channel values and record layout *)

(** C2.  In a session (a configuration built from its file, then
    decoded), position [i] of the buffer of every analog descriptor holds
    [raw * a + b], where [raw] is the signed 16-bit integer the decoder
    unpacked for that channel at sample [i] and [a], [b] are the
    calibration constants of the descriptor. *)
Theorem analog_value_is_calibrated
  (fs : filesystem) (filePath : string) (config config' : ComtradeConfig.t)
  (dat : ComtradeData.obj) (d' : ComtradeConfig.doc)
  (dec : ComtradeData.decoded) (ch : nat) (i : Z) (ai' : AnalogInfo.t) :
  ComtradeConfig.init fs filePath = Return config ->
  ComtradeData.init fs config = Return (dat, config') ->
  ComtradeData.result dat = "parsed" ->
  ComtradeData.body dat = Some dec ->
  ComtradeConfig.body config' = Some d' ->
  nth_error (ComtradeConfig.analogInfo d') ch = Some ai' ->
  0 <= i < ComtradeData.sampleCount dec ->
  exists content raw r,
    fs (ComtradeData.path dat) = Some content /\
    analog_word (Str.to_list content) (ComtradeData.unitSize dec) i
      (Z.of_nat ch) = Return raw /\
    -32768 <= raw <= 32767 /\
    Py.float_of_int raw = Return r /\
    nth_error (AnalogInfo.data ai') (Z.to_nat i) =
    Some (PrimFloat.add (PrimFloat.mul r (AnalogInfo.a ai')) (AnalogInfo.b ai')).
Proof.
  intros Hc Hd Hres Hdec Hb' Hai' Hi.
  destruct (data_init_decodes _ _ _ _ Hd Hres)
    as (content & d & d1 & dec1 & Hf & _ & _ & Hb & Hb1 & Hdec1 & D).
  rewrite Hb' in Hb1. inversion Hb1; subst d1; clear Hb1.
  rewrite Hdec in Hdec1. inversion Hdec1; subst dec1; clear Hdec1.
  destruct (config_init_inv _ _ _ Hc) as [(_ & ->)|(c0 & d0 & _ & Hp & ->)];
    [discriminate Hb|].
  simpl in Hb. inversion Hb; subst d0; clear Hb.
  destruct (parse_fresh _ _ Hp) as [La _ _ Ea _].
  assert (Hch : (ch < Z.to_nat (ChannelInfo.analog (ComtradeConfig.channelInfo d)))%nat).
  { destruct (Nat.lt_ge_cases ch
                (Z.to_nat (ChannelInfo.analog (ComtradeConfig.channelInfo d))))
      as [Hlt|Hge]; [exact Hlt|].
    rewrite (dc_analog_rest _ _ _ _ D) in Hai' by lia.
    rewrite <- La in Hge. apply nth_error_None in Hge. congruence. }
  destruct (nth_error (ComtradeConfig.analogInfo d) ch) as [ai|] eqn:Hai.
  2:{ apply nth_error_None in Hai. lia. }
  destruct (dc_analog _ _ _ _ D ch ai Hch Hai) as (vals & Hnew & Htr).
  rewrite Hai' in Hnew. inversion Hnew; subst ai'; clear Hnew.
  assert (Hfresh : AnalogInfo._data ai = []).
  { rewrite Forall_forall in Ea. apply Ea. eapply nth_error_In; eauto. }
  assert (Hnth : nth_error (range (ComtradeData.sampleCount dec)) (Z.to_nat i)
                 = Some i).
  { rewrite range_nth by lia. f_equal. lia. }
  destruct (Forall2_nth _ _ _ _ _ Htr Hnth) as (v & Hv & raw & Hw & Hval).
  unfold AnalogInfo.value in Hval. inv_bind Hval as r Er.
  inversion Hval; subst v; clear Hval.
  exists content, raw, r. rewrite (dc_stride _ _ _ _ D).
  repeat split; auto.
  - apply (unpack_h_range _ _ Hw).
  - apply (unpack_h_range _ _ Hw).
  - unfold AnalogInfo.data, AnalogInfo.with_data. simpl.
    rewrite Hfresh. simpl. exact Hv.
Qed.

Lemma analog_value_is_calibrated_witness :
  exists content raw r,
    Scenario.files (ComtradeData.path (fst Scenario.decoded)) = Some content /\
    analog_word (Str.to_list content)
      (ComtradeData.unitSize Scenario.dec) 1 (Z.of_nat 0) = Return raw /\
    -32768 <= raw <= 32767 /\
    Py.float_of_int raw = Return r /\
    nth_error
      (AnalogInfo.data
         (nth 0 (ComtradeConfig.analogInfo (Scenario.doc_of (snd Scenario.decoded)))
            (AnalogInfo.mk "" 0 "" "" "" "" 0 0 0 0 0 0 0 "" [])))
      (Z.to_nat 1) =
    Some (PrimFloat.add
            (PrimFloat.mul r
               (AnalogInfo.a
                  (nth 0 (ComtradeConfig.analogInfo
                            (Scenario.doc_of (snd Scenario.decoded)))
                     (AnalogInfo.mk "" 0 "" "" "" "" 0 0 0 0 0 0 0 "" []))))
            (AnalogInfo.b
               (nth 0 (ComtradeConfig.analogInfo
                         (Scenario.doc_of (snd Scenario.decoded)))
                  (AnalogInfo.mk "" 0 "" "" "" "" 0 0 0 0 0 0 0 "" [])))).
Proof.
  apply (analog_value_is_calibrated Scenario.files "rec.cfg" Scenario.config
           (snd Scenario.decoded) (fst Scenario.decoded)
           (Scenario.doc_of (snd Scenario.decoded)) Scenario.dec 0%nat 1).
  - vm_compute. reflexivity.
  - vm_compute. reflexivity.
  - vm_compute. reflexivity.
  - vm_compute. reflexivity.
  - vm_compute. reflexivity.
  - vm_compute. reflexivity.
  - vm_compute. split; [discriminate | reflexivity].
Defined.

(** C3.  In a session, for every digital descriptor whose declared index
    is below 16 and every sample [i], the decoded value at position [i]
    is 1 when bit [index] of the 16-bit word covering the channel (the
    two bytes [lo], [hi] read for its group of 16) is set, and 0
    otherwise. *)
Theorem digital_value_is_bit
  (fs : filesystem) (filePath : string) (config config' : ComtradeConfig.t)
  (dat : ComtradeData.obj) (d' : ComtradeConfig.doc)
  (dec : ComtradeData.decoded) (ch : nat) (i : Z) (di' : DigitalInfo.t) :
  ComtradeConfig.init fs filePath = Return config ->
  ComtradeData.init fs config = Return (dat, config') ->
  ComtradeData.result dat = "parsed" ->
  ComtradeData.body dat = Some dec ->
  ComtradeConfig.body config' = Some d' ->
  nth_error (ComtradeConfig.digitalInfo d') ch = Some di' ->
  DigitalInfo.num di' < 16 ->
  0 <= i < ComtradeData.sampleCount dec ->
  exists content lo hi,
    fs (ComtradeData.path dat) = Some content /\
    (let index :=
       (Z.of_nat ch / 16) * 2
       + (i * ComtradeData.unitSize dec + 8
          + 2 * ChannelInfo.analog (ComtradeConfig.channelInfo d')) in
     slice (Str.to_list content) index (index + 2) = [lo; hi]) /\
    nth_error (DigitalInfo.data di') (Z.to_nat i) =
    Some (if Z.testbit (Str.ord lo + 256 * Str.ord hi) (DigitalInfo.num di')
          then 1 else 0).
Proof.
  intros Hc Hd Hres Hdec Hb' Hdi' Hnum Hi.
  destruct (data_init_decodes _ _ _ _ Hd Hres)
    as (content & d & d1 & dec1 & Hf & _ & _ & Hb & Hb1 & Hdec1 & D).
  rewrite Hb' in Hb1. inversion Hb1; subst d1; clear Hb1.
  rewrite Hdec in Hdec1. inversion Hdec1; subst dec1; clear Hdec1.
  destruct (config_init_inv _ _ _ Hc) as [(_ & ->)|(c0 & d0 & _ & Hp & ->)];
    [discriminate Hb|].
  simpl in Hb. inversion Hb; subst d0; clear Hb.
  destruct (parse_fresh _ _ Hp) as [_ Ld _ _ Ed].
  assert (Hch : (ch < Z.to_nat (ChannelInfo.digital (ComtradeConfig.channelInfo d)))%nat).
  { destruct (Nat.lt_ge_cases ch
                (Z.to_nat (ChannelInfo.digital (ComtradeConfig.channelInfo d))))
      as [Hlt|Hge]; [exact Hlt|].
    rewrite (dc_digital_rest _ _ _ _ D) in Hdi' by lia.
    rewrite <- Ld in Hge. apply nth_error_None in Hge. congruence. }
  destruct (nth_error (ComtradeConfig.digitalInfo d) ch) as [di|] eqn:Hdi.
  2:{ apply nth_error_None in Hdi. lia. }
  destruct (dc_digital _ _ _ _ D ch di Hch Hdi) as (vals & Hnew & Htr).
  rewrite Hdi' in Hnew. inversion Hnew; subst di'; clear Hnew.
  assert (Hfresh : DigitalInfo._data di = []).
  { rewrite Forall_forall in Ed. apply Ed. eapply nth_error_In; eauto. }
  assert (Hnth : nth_error (range (ComtradeData.sampleCount dec)) (Z.to_nat i)
                 = Some i).
  { rewrite range_nth by lia. f_equal. lia. }
  destruct (Forall2_nth _ _ _ _ _ Htr Hnth) as (v & Hv & raw & Hw & Hval).
  unfold digital_word, read16 in Hw.
  destruct (unpack_h_inv _ _ Hw) as (lo & hi & Hs & ->).
  apply digital_value_inv in Hval. destruct Hval as (Hpos & ->).
  change (DigitalInfo.num (DigitalInfo.with_data di (DigitalInfo._data di ++ vals)))
    with (DigitalInfo.num di) in *.
  exists content, lo, hi. rewrite (dc_stride _ _ _ _ D), (dc_channel _ _ _ _ D).
  split; [exact Hf|]. split; [exact Hs|].
  unfold DigitalInfo.data, DigitalInfo.with_data. simpl.
  rewrite Hfresh. simpl. rewrite Hv. f_equal.
  rewrite land_bit by exact Hpos. rewrite signed16_bits by lia.
  destruct (Z.testbit _ (DigitalInfo.num di)); reflexivity.
Qed.

Lemma digital_value_is_bit_witness :
  exists content lo hi,
    Scenario.files (ComtradeData.path (fst Scenario.decoded)) = Some content /\
    (let index :=
       (Z.of_nat 0 / 16) * 2
       + (2 * ComtradeData.unitSize Scenario.dec + 8
          + 2 * ChannelInfo.analog
                  (ComtradeConfig.channelInfo
                     (Scenario.doc_of (snd Scenario.decoded)))) in
     slice (Str.to_list content) index (index + 2) = [lo; hi]) /\
    nth_error
      (DigitalInfo.data
         (nth 0 (ComtradeConfig.digitalInfo (Scenario.doc_of (snd Scenario.decoded)))
            (DigitalInfo.mk "" 0 "" "" "" 0 [])))
      (Z.to_nat 2) =
    Some (if Z.testbit (Str.ord lo + 256 * Str.ord hi)
               (DigitalInfo.num
                  (nth 0 (ComtradeConfig.digitalInfo
                            (Scenario.doc_of (snd Scenario.decoded)))
                     (DigitalInfo.mk "" 0 "" "" "" 0 [])))
          then 1 else 0).
Proof.
  apply (digital_value_is_bit Scenario.files "rec.cfg" Scenario.config
           (snd Scenario.decoded) (fst Scenario.decoded)
           (Scenario.doc_of (snd Scenario.decoded)) Scenario.dec 0%nat 2).
  - vm_compute. reflexivity.
  - vm_compute. reflexivity.
  - vm_compute. reflexivity.
  - vm_compute. reflexivity.
  - vm_compute. reflexivity.
  - vm_compute. reflexivity.
  - vm_compute. reflexivity.
  - vm_compute. split; [discriminate | reflexivity].
Defined.

Lemma ceil16_nonneg (n : Z) : 0 <= n -> 0 <= ceil16 n.
Proof. intros H. unfold ceil16. apply Z.div_pos; lia. Qed.

(** C4.  For a configuration with [A] analog and [D] digital channels
    the stride of a decoded recording is [8 + 2*A + 2*ceil(D/16)] (the
    digital term being 0 when [D = 0]); the value sample [i] adds to the
    buffer of the analog channel [ch] comes from the little-endian signed
    16-bit integer at offset [i*unitSize + 8 + 2*ch], and the one it adds
    to the digital channel [ch] from the one at offset
    [i*unitSize + 8 + 2*A + 2*(ch // 16)]. *)
Theorem record_layout
  (fs : filesystem) (config config' : ComtradeConfig.t)
  (dat : ComtradeData.obj) (d d' : ComtradeConfig.doc)
  (dec : ComtradeData.decoded) :
  ComtradeData.init fs config = Return (dat, config') ->
  ComtradeData.result dat = "parsed" ->
  ComtradeData.body dat = Some dec ->
  ComtradeConfig.body config = Some d ->
  ComtradeConfig.body config' = Some d' ->
  0 <= ChannelInfo.analog (ComtradeConfig.channelInfo d) ->
  0 <= ChannelInfo.digital (ComtradeConfig.channelInfo d) ->
  let A := ChannelInfo.analog (ComtradeConfig.channelInfo d) in
  let D := ChannelInfo.digital (ComtradeConfig.channelInfo d) in
  let unitSize := ComtradeData.unitSize dec in
  unitSize = 8 + 2 * A + 2 * ceil16 D /\
  (D = 0 -> 2 * ceil16 D = 0) /\
  exists content,
    fs (ComtradeData.path dat) = Some content /\
    forall i, 0 <= i < ComtradeData.sampleCount dec ->
      (forall ch ai,
          0 <= ch < A ->
          nth_error (ComtradeConfig.analogInfo d) (Z.to_nat ch) = Some ai ->
          exists raw v ai',
            int16_le_at (Str.to_list content) (i * unitSize + 8 + 2 * ch)
            = Some raw /\
            AnalogInfo.value ai raw = Return v /\
            nth_error (ComtradeConfig.analogInfo d') (Z.to_nat ch) = Some ai' /\
            nth_error (AnalogInfo._data ai')
              (List.length (AnalogInfo._data ai) + Z.to_nat i) = Some v) /\
      (forall ch di,
          0 <= ch < D ->
          nth_error (ComtradeConfig.digitalInfo d) (Z.to_nat ch) = Some di ->
          exists raw v di',
            int16_le_at (Str.to_list content)
              (i * unitSize + 8 + 2 * A + 2 * (ch / 16)) = Some raw /\
            DigitalInfo.value di raw = Return v /\
            nth_error (ComtradeConfig.digitalInfo d') (Z.to_nat ch) = Some di' /\
            nth_error (DigitalInfo._data di')
              (List.length (DigitalInfo._data di) + Z.to_nat i) = Some v).
Proof.
  intros Hd Hres Hdec Hb Hb' HA HD A D unitSize.
  destruct (data_init_decodes _ _ _ _ Hd Hres)
    as (content & d0 & d1 & dec1 & Hf & _ & _ & Hb0 & Hb1 & Hdec1 & DC).
  rewrite Hb in Hb0. inversion Hb0; subst d0; clear Hb0.
  rewrite Hb' in Hb1. inversion Hb1; subst d1; clear Hb1.
  rewrite Hdec in Hdec1. inversion Hdec1; subst dec1; clear Hdec1.
  assert (HU : unitSize = 8 + 2 * A + 2 * ceil16 D).
  { unfold unitSize. rewrite (dc_stride _ _ _ _ DC). unfold stride.
    rewrite digitalBytesLen_ceil. fold A D. lia. }
  pose proof (ceil16_nonneg D HD) as Hc.
  split; [exact HU|]. split.
  { intros ->. reflexivity. }
  exists content. split; [exact Hf|].
  intros i Hi.
  assert (Hnth : nth_error (range (ComtradeData.sampleCount dec)) (Z.to_nat i)
                 = Some i).
  { rewrite range_nth by lia. f_equal. lia. }
  assert (HiU : 0 <= i * unitSize) by (apply Z.mul_nonneg_nonneg; lia).
  split.
  - intros ch ai Hch Hai.
    destruct (dc_analog _ _ _ _ DC (Z.to_nat ch) ai ltac:(fold A; lia) Hai)
      as (vals & Hnew & Htr).
    destruct (Forall2_nth _ _ _ _ _ Htr Hnth) as (v & Hv & raw & Hw & Hval).
    exists raw, v. eexists. split; [|split; [exact Hval|split; [exact Hnew|]]].
    + unfold analog_word in Hw. rewrite Z2Nat.id in Hw by lia.
      rewrite <- (dc_stride _ _ _ _ DC) in Hw. fold unitSize in Hw.
      apply read16_at in Hw; [|lia].
      replace (i * unitSize + 8 + 2 * ch) with (ch * 2 + (i * unitSize + 8))
        by lia.
      exact Hw.
    + simpl. rewrite nth_error_app2 by lia.
      replace (List.length (AnalogInfo._data ai) + Z.to_nat i
               - List.length (AnalogInfo._data ai))%nat
        with (Z.to_nat i) by lia.
      exact Hv.
  - intros ch di Hch Hdi.
    destruct (dc_digital _ _ _ _ DC (Z.to_nat ch) di ltac:(fold D; lia) Hdi)
      as (vals & Hnew & Htr).
    destruct (Forall2_nth _ _ _ _ _ Htr Hnth) as (v & Hv & raw & Hw & Hval).
    exists raw, v. eexists. split; [|split; [exact Hval|split; [exact Hnew|]]].
    + unfold digital_word in Hw. rewrite Z2Nat.id in Hw by lia.
      rewrite <- (dc_stride _ _ _ _ DC) in Hw. fold unitSize A in Hw.
      assert (0 <= ch / 16) by (apply Z.div_pos; lia).
      apply read16_at in Hw; [|lia].
      replace (i * unitSize + 8 + 2 * A + 2 * (ch / 16))
        with (ch / 16 * 2 + (i * unitSize + 8 + 2 * A)) by lia.
      exact Hw.
    + simpl. rewrite nth_error_app2 by lia.
      replace (List.length (DigitalInfo._data di) + Z.to_nat i
               - List.length (DigitalInfo._data di))%nat
        with (Z.to_nat i) by lia.
      exact Hv.
Qed.

Lemma record_layout_witness :
  ComtradeData.unitSize Scenario.dec =
  8 + 2 * ChannelInfo.analog
            (ComtradeConfig.channelInfo (Scenario.doc_of Scenario.config))
  + 2 * ceil16 (ChannelInfo.digital
                  (ComtradeConfig.channelInfo (Scenario.doc_of Scenario.config))).
Proof.
  refine (proj1 (record_layout Scenario.files Scenario.config
                   (snd Scenario.decoded) (fst Scenario.decoded)
                   (Scenario.doc_of Scenario.config)
                   (Scenario.doc_of (snd Scenario.decoded)) Scenario.dec
                   _ _ _ _ _ _ _)).
  - vm_compute. reflexivity.
  - vm_compute. reflexivity.
  - vm_compute. reflexivity.
  - vm_compute. reflexivity.
  - vm_compute. reflexivity.
  - vm_compute. discriminate.
  - vm_compute. discriminate.
Defined.

(** ** Missing files *)

(** When the configuration is parsed and the file at the path the
    decoder derives ([dat_path]: the configuration path up to its first
    dot, and [.dat]) does not exist, the data stage has status
    ['no file'], the two mappings the decoder returns are empty and the
    time vector has length zero; a configuration that is not parsed gives
    status ['none'] and the same empty outputs.  In both cases the
    configuration object is left as it was. *)
Theorem missing_data_file (fs : filesystem) (config : ComtradeConfig.t) :
  (ComtradeConfig.result config = "parsed" ->
   fs (ComtradeData.dat_path config) = None ->
   exists dat,
     ComtradeData.init fs config = Return (dat, config) /\
     ComtradeData.result dat = "no file" /\
     ComtradeData.analog dat = [] /\
     ComtradeData.digital dat = [] /\
     exists tv, ComtradeData.t dat = Return tv /\ List.length tv = 0%nat) /\
  (ComtradeConfig.result config <> "parsed" ->
   exists dat,
     ComtradeData.init fs config = Return (dat, config) /\
     ComtradeData.result dat = "none" /\
     ComtradeData.analog dat = [] /\
     ComtradeData.digital dat = [] /\
     exists tv, ComtradeData.t dat = Return tv /\ List.length tv = 0%nat).
Proof.
  split.
  - intros Hp Hf. eexists. split; [apply data_init_no_file; assumption|].
    repeat split. exists []. split; reflexivity.
  - intros Hp. eexists. split; [apply data_init_unparsed; assumption|].
    repeat split. exists []. split; reflexivity.
Qed.

Lemma missing_data_file_witness :
  exists dat,
    ComtradeData.init Scenario.files_no_dat Scenario.config =
    Return (dat, Scenario.config) /\
    ComtradeData.result dat = "no file" /\
    ComtradeData.analog dat = [] /\
    ComtradeData.digital dat = [] /\
    exists tv, ComtradeData.t dat = Return tv /\ List.length tv = 0%nat.
Proof.
  apply (proj1 (missing_data_file Scenario.files_no_dat Scenario.config)).
  - vm_compute. reflexivity.
  - vm_compute. reflexivity.
Defined.

Lemma split_dot_head (base ext : string) :
  Str.contains "." base = false ->
  hd "" (Str.split "."%char (base ++ String "."%char ext)) = base.
Proof.
  induction base as [|c base IH]; intros H.
  - reflexivity.
  - simpl in H. apply orb_false_elim in H. destruct H as [Hc Hrest].
    cbn [append Str.split].
    destruct (Ascii.eqb_spec c "."%char) as [->|Hne].
    { exfalso. cbn [prefix] in Hc.
      destruct (ascii_dec "."%char "."%char) as [_|Hn];
        [destruct base; discriminate Hc | apply Hn; reflexivity]. }
    specialize (IH Hrest).
    destruct (Str.split "."%char (base ++ String "."%char ext)) as [|w ws].
    + simpl in IH. subst base. reflexivity.
    + simpl in IH. subst w. reflexivity.
Qed.

(** The data path is the same-base-name sibling of the configuration
    file whenever the base name holds no dot. *)
Lemma dat_path_sibling (base r : string) (b : option ComtradeConfig.doc) :
  Str.contains "." base = false ->
  ComtradeData.dat_path (ComtradeConfig.mk (base ++ ".cfg") r b) =
  (base ++ ".dat")%string.
Proof.
  intros H. unfold ComtradeData.dat_path. simpl ComtradeConfig.path.
  change (base ++ ".cfg")%string with (base ++ String "."%char "cfg")%string.
  rewrite split_dot_head by exact H. reflexivity.
Qed.

Lemma dat_path_sibling_witness :
  ComtradeData.dat_path (ComtradeConfig.mk ("rec" ++ ".cfg") "parsed" None) =
  ("rec" ++ ".dat")%string.
Proof. apply (dat_path_sibling "rec" "parsed" None). reflexivity. Defined.

(** With a dot before the extension the path is cut there. *)
Example dat_path_dotted :
  ComtradeData.dat_path (ComtradeConfig.mk "./rec.cfg" "parsed" None) = ".dat".
Proof. reflexivity. Qed.

(** C7 fails on the code.  The recording is opened as [./rec.cfg]; the
    configuration parses and its binary sibling [./rec.dat] does not
    exist, yet the data stage does not report a missing file: the decoder
    cuts the path at its first dot, looks for [.dat], finds that file and
    returns status ['parsed'] with two analog buffers, one digital buffer
    and a time vector of three entries, at the decoder and in the session.
    Conversely, with the sibling [./rec.dat] in place and no file named
    [.dat], it reports ['no file']. *)
Theorem missing_sibling_dotted_path :
  files_dotted "./rec.dat" = None /\
  ComtradeConfig.init files_dotted "./rec.cfg" = Return config_dotted /\
  ComtradeConfig.result config_dotted = "parsed" /\
  ComtradeData.init files_dotted config_dotted = Return decoded_dotted /\
  ComtradeData.path (fst decoded_dotted) = ".dat" /\
  ComtradeData.result (fst decoded_dotted) = "parsed" /\
  List.length (ComtradeData.analog (fst decoded_dotted)) = 2%nat /\
  List.length (ComtradeData.digital (fst decoded_dotted)) = 1%nat /\
  (exists tv, ComtradeData.t (fst decoded_dotted) = Return tv /\
              List.length tv = 3%nat) /\
  (exists s,
      ComtradeParser.init files_dotted "./rec.cfg" =
      Return (ComtradeParser.mk "parsed" (Some s)) /\
      ComtradeData.result (ComtradeParser.dat s) = "parsed" /\
      List.length (ComtradeParser.t s) = 3%nat) /\
  files_dotted_sibling "./rec.dat" = Some Scenario.dat /\
  ComtradeData.init files_dotted_sibling config_dotted =
  Return (ComtradeData.mk "no file" ".dat" None, config_dotted).
Proof.
  split; [reflexivity|].
  split; [vm_compute; reflexivity|].
  split; [vm_compute; reflexivity|].
  split; [vm_compute; reflexivity|].
  split; [vm_compute; reflexivity|].
  split; [vm_compute; reflexivity|].
  split; [vm_compute; reflexivity|].
  split; [vm_compute; reflexivity|].
  split.
  { exists [0%float; PrimFloat.div 3 2000; PrimFloat.div 3 1000].
    split; [vm_compute; reflexivity | reflexivity]. }
  split.
  { exists session_dotted.
    split; [vm_compute; reflexivity|].
    split; [vm_compute; reflexivity|]. vm_compute. reflexivity. }
  split; [reflexivity|]. vm_compute. reflexivity.
Qed.

(** ** The encoding token *)

Lemma data_init_set_dataFormat (fs1 fs2 : filesystem) (tok : string)
  (config : ComtradeConfig.t) :
  fs1 (ComtradeData.dat_path config) = fs2 (ComtradeData.dat_path config) ->
  ComtradeData.init fs2 (set_dataFormat tok config) =
  match ComtradeData.init fs1 config with
  | Return (dat, c) => Return (dat, set_dataFormat tok c)
  | Raise e => Raise e
  end.
Proof.
  intros Hfs. destruct config as [p r b]. unfold ComtradeData.init.
  change (ComtradeData.dat_path (set_dataFormat tok (ComtradeConfig.mk p r b)))
    with (ComtradeData.dat_path (ComtradeConfig.mk p r b)).
  change (ComtradeConfig.result (set_dataFormat tok (ComtradeConfig.mk p r b)))
    with r.
  simpl ComtradeConfig.result.
  destruct (String.eqb r "parsed"); simpl negb; cbv iota; [|reflexivity].
  rewrite <- Hfs.
  destruct (fs1 (ComtradeData.dat_path (ComtradeConfig.mk p r b)));
    [|reflexivity].
  destruct b as [d|]; [|reflexivity].
  unfold ComtradeConfig.attr, set_dataFormat. simpl.
  destruct (getitem (ComtradeConfig.sampleInfo d) 0); simpl; [|reflexivity].
  destruct (Py.truediv _ _); simpl; [|reflexivity].
  destruct (for_each _ _ _) as [[ais dis]|e]; simpl; reflexivity.
Qed.

(** C8.  Two sessions whose configurations differ only in the
    data-encoding token, over the same sample bytes, produce the same
    time vector, analog mapping and digital mapping (or end with the same
    exception): the decoder never reads the token. *)
Theorem encoding_token_ignored (fs1 fs2 : filesystem) (tok : string)
  (config : ComtradeConfig.t) :
  fs1 (ComtradeData.dat_path config) = fs2 (ComtradeData.dat_path config) ->
  outputs (ComtradeData.init fs2 (set_dataFormat tok config)) =
  outputs (ComtradeData.init fs1 config).
Proof.
  intros Hfs. rewrite (data_init_set_dataFormat fs1 fs2 tok config Hfs).
  destruct (ComtradeData.init fs1 config) as [[dat c]|e]; reflexivity.
Qed.

Lemma encoding_token_ignored_witness :
  outputs (ComtradeData.init Scenario.files
             (set_dataFormat "ascii" Scenario.config)) =
  outputs (ComtradeData.init Scenario.files Scenario.config).
Proof.
  apply (encoding_token_ignored Scenario.files Scenario.files "ascii"
           Scenario.config).
  reflexivity.
Defined.

(** ** The channel layout *)

Lemma channel_init_consistent (line : string) (ci : ChannelInfo.t) :
  ChannelInfo.init line = Return ci ->
  ChannelInfo.total ci = ChannelInfo.analog ci + ChannelInfo.digital ci.
Proof.
  unfold ChannelInfo.init. intros H.
  inv_bind H as s0 E0. inv_bind H as total Et.
  inv_bind H as s1 E1. inv_bind H as analog Ea.
  inv_bind H as s2 E2. inv_bind H as digital Ed.
  destruct (Z.eqb_spec total (analog + digital)) as [Heq|Hne]; simpl in H;
    inversion H; subst; simpl; lia.
Qed.

(** C5.  Every parsed channel-layout line has [total = analog + digital]
    or three zero counts; the line [3,1A,1D] gives [(0, 0, 0)]; and a
    configuration built from a file with that layout line has no analog
    and no digital descriptor. *)
Theorem channel_layout_invariant :
  (forall line ci,
      ChannelInfo.init line = Return ci ->
      ChannelInfo.total ci = ChannelInfo.analog ci + ChannelInfo.digital ci \/
      (ChannelInfo.total ci = 0 /\ ChannelInfo.analog ci = 0 /\
       ChannelInfo.digital ci = 0)) /\
  ChannelInfo.init "3,1A,1D" = Return (ChannelInfo.mk 0 0 0) /\
  (forall fs filePath content config d,
      fs filePath = Some content ->
      nth_error (ComtradeConfig._removeNextline (read_text_lines content)) 1 =
      Some "3,1A,1D" ->
      ComtradeConfig.init fs filePath = Return config ->
      ComtradeConfig.body config = Some d ->
      ComtradeConfig.channelInfo d = ChannelInfo.mk 0 0 0 /\
      ComtradeConfig.analogInfo d = [] /\
      ComtradeConfig.digitalInfo d = []).
Proof.
  split; [|split].
  - intros line ci H. left. eapply channel_init_consistent; eauto.
  - vm_compute. reflexivity.
  - intros fs filePath content config d Hf Hline Hc Hb.
    destruct (config_init_inv _ _ _ Hc) as [(Hn & _)|(c0 & d0 & Hf0 & Hp & ->)];
      [congruence|].
    rewrite Hf in Hf0. inversion Hf0; subst c0; clear Hf0.
    simpl in Hb. inversion Hb; subst d0; clear Hb.
    destruct (parse_inv _ _ Hp) as [_ (s & Hs & Hci) _ _ _].
    rewrite Hline in Hs. inversion Hs; subst s; clear Hs.
    assert (Hz : ComtradeConfig.channelInfo d = ChannelInfo.mk 0 0 0).
    { assert (Hk : ChannelInfo.init "3,1A,1D" = Return (ChannelInfo.mk 0 0 0))
        by (vm_compute; reflexivity).
      congruence. }
    destruct (parse_fresh _ _ Hp) as [La Ld _ _ _].
    rewrite Hz in La, Ld. simpl in La, Ld.
    split; [exact Hz|]. split; apply length_zero_iff_nil; assumption.
Qed.

Lemma channel_layout_invariant_witness :
  ComtradeConfig.channelInfo (Scenario.doc_of collapsed_config) =
  ChannelInfo.mk 0 0 0 /\
  ComtradeConfig.analogInfo (Scenario.doc_of collapsed_config) = [] /\
  ComtradeConfig.digitalInfo (Scenario.doc_of collapsed_config) = [].
Proof.
  apply (proj2 (proj2 channel_layout_invariant) collapsed_files "rec.cfg"
           collapsed_cfg collapsed_config (Scenario.doc_of collapsed_config)).
  - vm_compute. reflexivity.
  - vm_compute. reflexivity.
  - vm_compute. reflexivity.
  - vm_compute. reflexivity.
Defined.

(** ** The file-identity line *)

(** C10.  The file-identity parser returns only when the second field
    of the line is an integer literal; when it is not, the parser raises
    [ValueError], and so does the construction of a configuration from a
    file with that first line. *)
Theorem device_id_must_be_integer
  (fs : filesystem) (filePath content line : string) (rest : list string)
  (station dev : string) (more : list string) :
  fs filePath = Some content ->
  ComtradeConfig._removeNextline (read_text_lines content) = line :: rest ->
  fields line = station :: dev :: more ->
  ((exists fi, FileInfo.init line = Return fi) ->
   exists z, Py.int dev = Return z) /\
  (Py.int dev = Raise ValueError ->
   FileInfo.init line = Raise ValueError /\
   ComtradeConfig.init fs filePath = Raise ValueError).
Proof.
  intros Hf Hl Hfields. split.
  - intros (fi & H). unfold FileInfo.init in H. rewrite Hfields in H.
    simpl in H. inv_bind H as z Ez. eauto.
  - intros Hbad.
    assert (Hfi : FileInfo.init line = Raise ValueError).
    { unfold FileInfo.init. rewrite Hfields. simpl. rewrite Hbad. reflexivity. }
    split; [exact Hfi|].
    unfold ComtradeConfig.init. rewrite Hf, Hl.
    unfold ComtradeConfig._parse. simpl. rewrite Hfi. reflexivity.
Qed.

Lemma device_id_must_be_integer_witness :
  ((exists fi, FileInfo.init "STATION,DFR-7,1999" = Return fi) ->
   exists z, Py.int "DFR-7" = Return z) /\
  (Py.int "DFR-7" = Raise ValueError ->
   FileInfo.init "STATION,DFR-7,1999" = Raise ValueError /\
   ComtradeConfig.init bad_device_files "rec.cfg" = Raise ValueError).
Proof.
  apply (device_id_must_be_integer bad_device_files "rec.cfg" bad_device_cfg
           "STATION,DFR-7,1999"
           (tl (ComtradeConfig._removeNextline (read_text_lines bad_device_cfg)))
           "STATION" "DFR-7" ["1999"]).
  - vm_compute. reflexivity.
  - vm_compute. reflexivity.
  - vm_compute. reflexivity.
Defined.

(** ** The status of a session *)

Lemma data_init_cases (fs : filesystem) (config config' : ComtradeConfig.t)
  (dat : ComtradeData.obj) :
  ComtradeData.init fs config = Return (dat, config') ->
  (ComtradeConfig.result config <> "parsed" /\ config' = config /\
   dat = ComtradeData.mk "none" (ComtradeData.dat_path config) None) \/
  (ComtradeConfig.result config = "parsed" /\ config' = config /\
   fs (ComtradeData.dat_path config) = None /\
   dat = ComtradeData.mk "no file" (ComtradeData.dat_path config) None) \/
  (ComtradeConfig.result config = "parsed" /\
   ComtradeConfig.result config' = "parsed" /\
   ComtradeData.result dat = "parsed").
Proof.
  intros H.
  destruct (String.eqb_spec (ComtradeConfig.result config) "parsed") as [Hp|Hp].
  - destruct (fs (ComtradeData.dat_path config)) as [content|] eqn:Hf.
    + right. right.
      assert (Hres : ComtradeData.result dat = "parsed").
      { unfold ComtradeData.init in H.
        apply String.eqb_eq in Hp. rewrite Hp, Hf in H. simpl in H.
        inv_bind H as ci Eci. inv_bind H as si Esi. inv_bind H as first Ef.
        inv_bind H as dT Ed. inv_bind H as d Edoc. inv_bind H as st Es.
        destruct st as [ais dis]. inversion H. reflexivity. }
      split; [exact Hp|]. split; [|exact Hres].
      destruct (data_init_parsed _ _ _ _ H Hres)
        as (c0 & d & first & dT & st & _ & _ & _ & _ & _ & _ & _ & ->).
      simpl. exact Hp.
    + right. left. rewrite (data_init_no_file _ _ Hp Hf) in H.
      inversion H; subst. auto.
  - left. rewrite (data_init_unparsed _ _ Hp) in H. inversion H; subst. auto.
Qed.

(** C9, as amended.  When the construction of a session returns, its
    status is ['not a comtrade file: <path>'] (the path names neither a
    [.cfg] nor a [.dat] file, and nothing else is set) or ['parsed']; in
    the second case the configuration is parsed and the data stage is
    either ['parsed'] or ['no file'], the latter with empty mappings and
    an empty time vector: the top-level status is the same for both. *)
Theorem session_status (files : filesystem) (path : string)
  (p : ComtradeParser.obj) :
  ComtradeParser.init files path = Return p ->
  (Str.contains ".cfg" path = false /\ Str.contains ".dat" path = false /\
   ComtradeParser.result p = ("not a comtrade file: " ++ path)%string /\
   ComtradeParser.body p = None) \/
  (ComtradeParser.result p = "parsed" /\
   exists s,
     ComtradeParser.body p = Some s /\
     ComtradeConfig.result (ComtradeParser.config s) = "parsed" /\
     (ComtradeData.result (ComtradeParser.dat s) = "parsed" \/
      (ComtradeData.result (ComtradeParser.dat s) = "no file" /\
       ComtradeParser.analog s = [] /\
       ComtradeParser.digital s = [] /\
       ComtradeParser.t s = []))).
Proof.
  assert (Hload : forall base,
             ComtradeParser.load files base = Return p ->
             ComtradeParser.result p = "parsed" /\
             exists s,
               ComtradeParser.body p = Some s /\
               ComtradeConfig.result (ComtradeParser.config s) = "parsed" /\
               (ComtradeData.result (ComtradeParser.dat s) = "parsed" \/
                (ComtradeData.result (ComtradeParser.dat s) = "no file" /\
                 ComtradeParser.analog s = [] /\
                 ComtradeParser.digital s = [] /\
                 ComtradeParser.t s = []))).
  { intros base H. unfold ComtradeParser.load in H.
    inv_bind H as config Ec. inv_bind H as pr Ed. destruct pr as [dat config'].
    inv_bind H as tv Et. inv_bind H as si Esi. inv_bind H as first Ef.
    inversion H; subst p; clear H. simpl. split; [reflexivity|].
    eexists. split; [reflexivity|]. simpl.
    destruct (data_init_cases _ _ _ _ Ed)
      as [(Hn & -> & ->)|[(Hp & -> & Hf & ->)|(Hp & Hp' & Hres)]].
    - exfalso.
      destruct (config_init_inv _ _ _ Ec) as [(_ & ->)|(c0 & d & _ & _ & ->)].
      + discriminate Esi.
      + apply Hn. reflexivity.
    - split; [exact Hp|]. right. simpl in Et. inversion Et. auto.
    - split; [exact Hp'|]. left. exact Hres. }
  unfold ComtradeParser.init. intros H.
  destruct (Str.contains ".cfg" path) eqn:Hcfg; simpl in H.
  - right. eapply Hload; eauto.
  - destruct (Str.contains ".dat" path) eqn:Hdat; simpl in H.
    + right. eapply Hload; eauto.
    + left. inversion H; subst p. auto.
Qed.

Lemma session_status_witness :
  exists p,
    ComtradeParser.init Scenario.files_no_dat "rec.cfg" = Return p /\
    ((Str.contains ".cfg" "rec.cfg" = false /\
      Str.contains ".dat" "rec.cfg" = false /\
      ComtradeParser.result p = ("not a comtrade file: " ++ "rec.cfg")%string /\
      ComtradeParser.body p = None) \/
     (ComtradeParser.result p = "parsed" /\
      exists s,
        ComtradeParser.body p = Some s /\
        ComtradeConfig.result (ComtradeParser.config s) = "parsed" /\
        (ComtradeData.result (ComtradeParser.dat s) = "parsed" \/
         (ComtradeData.result (ComtradeParser.dat s) = "no file" /\
          ComtradeParser.analog s = [] /\
          ComtradeParser.digital s = [] /\
          ComtradeParser.t s = [])))).
Proof.
  eexists. split.
  - vm_compute. reflexivity.
  - apply (session_status Scenario.files_no_dat "rec.cfg").
    vm_compute. reflexivity.
Defined.

(** The status a caller reads is ['parsed'] with and without the data
    file. *)
Example session_status_same :
  (exists p s, ComtradeParser.init Scenario.files "rec.cfg" = Return p /\
               ComtradeParser.result p = "parsed" /\
               ComtradeParser.body p = Some s /\
               ComtradeData.result (ComtradeParser.dat s) = "parsed" /\
               List.length (ComtradeParser.t s) = 3%nat) /\
  (exists p s, ComtradeParser.init Scenario.files_no_dat "rec.cfg" = Return p /\
               ComtradeParser.result p = "parsed" /\
               ComtradeParser.body p = Some s /\
               ComtradeData.result (ComtradeParser.dat s) = "no file" /\
               List.length (ComtradeParser.t s) = 0%nat).
Proof.
  split.
  - eexists. eexists. split; [vm_compute; reflexivity|].
    split; [reflexivity|]. split; [reflexivity|].
    split; vm_compute; reflexivity.
  - eexists. eexists. split; [vm_compute; reflexivity|].
    split; [reflexivity|]. split; [reflexivity|].
    split; vm_compute; reflexivity.
Qed.

(** C9 as stated fails: a construction that returns may leave another
    status than ['parsed']. *)
Lemma session_status_counterexample :
  ~ (forall p,
        ComtradeParser.init Scenario.files "rec.txt" = Return p ->
        ComtradeParser.result p = "parsed").
Proof.
  intros H.
  specialize (H (ComtradeParser.mk "not a comtrade file: rec.txt" None)
                eq_refl).
  discriminate H.
Qed.

(** ** How the configuration builder fails *)

Lemma pf_bind {A B : Type} (m : res A) (k : A -> res B) :
  parse_failure m -> (forall a, parse_failure (k a)) -> parse_failure (bind m k).
Proof. destruct m as [a|e]; simpl; auto. Qed.

Lemma pf_Return {A : Type} (a : A) : parse_failure (Return a).
Proof. exact I. Qed.

Lemma pf_getitem {A : Type} (l : list A) (i : nat) : parse_failure (getitem l i).
Proof. unfold getitem. destruct (nth_error l i); simpl; auto. Qed.

Lemma pf_int (s : string) : parse_failure (Py.int s).
Proof. unfold Py.int. destruct (match Str.strip s with [] => _ | _ => _ end); simpl; auto. Qed.

Lemma pf_float (s : string) : parse_failure (Py.float s).
Proof.
  unfold Py.float.
  destruct (match Py.drop_underscores (Str.strip s) None with
            | Some (c :: l) => _ | _ => _ end); simpl; auto.
Qed.

Lemma pf_for_each {A S : Type} (xs : list A) (body : A -> S -> res S) (s : S) :
  (forall x s, parse_failure (body x s)) -> parse_failure (for_each xs body s).
Proof.
  intros Hb. revert s. induction xs as [|x xs IH]; intros s; simpl.
  - exact I.
  - apply pf_bind; auto.
Qed.

Ltac pf_step :=
  lazymatch goal with
  | |- parse_failure (bind _ _) => apply pf_bind; [|intros ?]
  | |- parse_failure (Return _) => exact I
  | |- parse_failure (getitem _ _) => apply pf_getitem
  | |- parse_failure (Py.int _) => apply pf_int
  | |- parse_failure (Py.float _) => apply pf_float
  | |- parse_failure (match ?p with (_, _) => _ end) => destruct p
  | |- parse_failure (if ?b then _ else _) => destruct b
  end.

Lemma pf_file (s : string) : parse_failure (FileInfo.init s).
Proof. unfold FileInfo.init. repeat pf_step. Qed.

Lemma pf_channel (s : string) : parse_failure (ChannelInfo.init s).
Proof. unfold ChannelInfo.init. repeat pf_step. Qed.

Lemma pf_analog (s : string) : parse_failure (AnalogInfo.init s).
Proof. unfold AnalogInfo.init. repeat pf_step. Qed.

Lemma pf_digital (s : string) : parse_failure (DigitalInfo.init s).
Proof. unfold DigitalInfo.init. repeat pf_step. Qed.

Lemma pf_sample (s : string) : parse_failure (SampleInfo.init s).
Proof. unfold SampleInfo.init. repeat pf_step. Qed.

Lemma pf_timestamp (s : string) : parse_failure (TimeStamp.init s).
Proof. unfold TimeStamp.init. repeat pf_step. Qed.

Lemma pf_read_block {A : Type} (make : string -> res A)
  (infoStrs : list string) (n : Z) (index : nat) :
  (forall s, parse_failure (make s)) ->
  parse_failure (ComtradeConfig.read_block make infoStrs n index).
Proof.
  intros Hm. unfold ComtradeConfig.read_block. apply pf_for_each.
  intros _ [acc i]. repeat pf_step. apply Hm.
Qed.

Ltac pf_line :=
  lazymatch goal with
  | |- parse_failure (FileInfo.init _) => apply pf_file
  | |- parse_failure (ChannelInfo.init _) => apply pf_channel
  | |- parse_failure (AnalogInfo.init _) => apply pf_analog
  | |- parse_failure (DigitalInfo.init _) => apply pf_digital
  | |- parse_failure (SampleInfo.init _) => apply pf_sample
  | |- parse_failure (TimeStamp.init _) => apply pf_timestamp
  | |- parse_failure (ComtradeConfig.read_block _ _ _ _) =>
      apply pf_read_block; intros ?
  | |- _ => pf_step
  end.

Lemma pf_parse (infoStrs : list string) :
  parse_failure (ComtradeConfig._parse infoStrs).
Proof. unfold ComtradeConfig._parse. repeat pf_line. Qed.

(** C6, as amended.  When the configuration file does not exist the
    builder returns with status ['no file'] and no document, and the
    decoder run on that object returns status ['none'] and two empty
    mappings.  When the file exists the builder either returns a fully
    populated document with status ['parsed'] (as many descriptors as the
    layout line declares, each with an empty buffer, and a layout whose
    total is the sum of its two counts, by collapse if need be), or raises
    [ValueError] (a field that is not a number) or [IndexError] (a line or
    a field that is not there): these failures are exceptions, not
    statuses. *)
Theorem builder_outcomes (fs : filesystem) (filePath : string) :
  match fs filePath with
  | None =>
      ComtradeConfig.init fs filePath =
      Return (ComtradeConfig.mk filePath "no file" None) /\
      exists dat,
        ComtradeData.init fs (ComtradeConfig.mk filePath "no file" None) =
        Return (dat, ComtradeConfig.mk filePath "no file" None) /\
        ComtradeData.result dat = "none" /\
        ComtradeData.analog dat = [] /\
        ComtradeData.digital dat = []
  | Some content =>
      (exists d,
          ComtradeConfig.init fs filePath =
          Return (ComtradeConfig.mk filePath "parsed" (Some d)) /\
          parsed_lines (ComtradeConfig._removeNextline (read_text_lines content)) d /\
          fresh_doc d /\
          ChannelInfo.total (ComtradeConfig.channelInfo d) =
          ChannelInfo.analog (ComtradeConfig.channelInfo d)
          + ChannelInfo.digital (ComtradeConfig.channelInfo d)) \/
      ComtradeConfig.init fs filePath = Raise ValueError \/
      ComtradeConfig.init fs filePath = Raise IndexError
  end.
Proof.
  destruct (fs filePath) as [content|] eqn:Hf.
  - unfold ComtradeConfig.init. rewrite Hf.
    pose proof (pf_parse (ComtradeConfig._removeNextline (read_text_lines content)))
      as Hpf.
    destruct (ComtradeConfig._parse _) as [d|e] eqn:Hp; simpl.
    + left. exists d. split; [reflexivity|].
      split; [apply parse_inv; exact Hp|].
      split; [eapply parse_fresh; exact Hp|].
      destruct (parse_inv _ _ Hp) as [_ (l1 & _ & Hci) _ _ _].
      apply (channel_init_consistent _ _ Hci).
    + right. simpl in Hpf. destruct Hpf as [->| ->]; auto.
  - split.
    + unfold ComtradeConfig.init. rewrite Hf. reflexivity.
    + eexists. split; [apply data_init_unparsed; discriminate|].
      repeat split.
Qed.

(** C6 as stated fails: a malformed numeric field is not reported through
    a status, the builder raises and returns no object at all. *)
Lemma builder_raises_counterexample :
  ComtradeConfig.init bad_device_files "rec.cfg" = Raise ValueError /\
  ~ (exists c, ComtradeConfig.init bad_device_files "rec.cfg" = Return c).
Proof.
  assert (H : ComtradeConfig.init bad_device_files "rec.cfg" = Raise ValueError)
    by (vm_compute; reflexivity).
  split; [exact H|]. intros (c & Hc). rewrite H in Hc. discriminate Hc.
Qed.

(** A missing configuration file ends the construction of the session
    object itself: the sampling rate is read from a document that was
    never built. *)
Theorem session_without_config (files : filesystem) (path : string) :
  Str.contains ".cfg" path || Str.contains ".dat" path = true ->
  files (session_base path ++ ".cfg")%string = None ->
  ComtradeParser.init files path = Raise AttributeError.
Proof.
  intros Hp Hf.
  assert (Hl : ComtradeParser.load files (session_base path) =
               Raise AttributeError).
  { unfold ComtradeParser.load, ComtradeConfig.init. rewrite Hf. cbn [bind].
    rewrite data_init_unparsed by discriminate. reflexivity. }
  unfold ComtradeParser.init. unfold session_base in Hl.
  destruct (Str.contains ".cfg" path); simpl in *; [exact Hl|].
  rewrite Hp. simpl. exact Hl.
Qed.

Lemma session_without_config_witness :
  ComtradeParser.init (fun _ => None) "rec.cfg" = Raise AttributeError.
Proof.
  apply (session_without_config (fun _ => None) "rec.cfg"); reflexivity.
Defined.

(** ** The time vector *)

Lemma set_last_length {A : Type} (l : list A) (x : A) :
  List.length (Np.set_last l x) = List.length l.
Proof.
  induction l as [|y [|z l] IH]; simpl in *; auto.
Qed.

Lemma linspace_length (start stop : float) (num : Z) (l : list float) :
  Np.linspace start stop num = Return l -> List.length l = Z.to_nat num.
Proof.
  unfold Np.linspace. destruct (num <? 0); [discriminate|].
  intros H. inversion H; subst; clear H.
  destruct (1 <? num); [rewrite set_last_length|];
    rewrite length_map;
    destruct (0 <? num - 1); try destruct (PrimFloat.eqb _ _);
    rewrite !length_map; apply range_length.
Qed.

Lemma set_last_last {A : Type} (l : list A) (x d : A) :
  l <> [] -> last (Np.set_last l x) d = x.
Proof.
  induction l as [|y [|z l] IH]; intros Hne.
  - congruence.
  - reflexivity.
  - change (last (y :: Np.set_last (z :: l) x) d = x).
    assert (Hs : Np.set_last (z :: l) x <> []).
    { intros E. apply (f_equal (@List.length A)) in E.
      rewrite set_last_length in E. discriminate E. }
    destruct (Np.set_last (z :: l) x) as [|w r] eqn:E; [congruence|].
    change (last (w :: r) d = x). apply IH. discriminate.
Qed.

(** The time vector of a decoded recording has [sampleCount] entries, and
    from two samples on its last entry is [deltaT * sampleCount]: the
    vector spans [sampleCount] steps with [sampleCount - 1] intervals. *)
Lemma time_vector_shape (dat : ComtradeData.obj) (dec : ComtradeData.decoded)
  (tv : list float) :
  ComtradeData.result dat = "parsed" ->
  ComtradeData.body dat = Some dec ->
  ComtradeData.t dat = Return tv ->
  List.length tv = Z.to_nat (ComtradeData.sampleCount dec) /\
  (1 < ComtradeData.sampleCount dec ->
   exists n, Py.float_of_int (ComtradeData.sampleCount dec) = Return n /\
             last tv 0%float = PrimFloat.mul (ComtradeData.deltaT dec) n).
Proof.
  intros Hres Hb Ht. unfold ComtradeData.t in Ht.
  apply String.eqb_eq in Hres. rewrite Hres, Hb in Ht.
  inv_bind Ht as n En. split.
  - apply (linspace_length _ _ _ _ Ht).
  - intros Hn. exists n. split; [exact En|].
    unfold Np.linspace in Ht.
    destruct (Z.ltb_spec (ComtradeData.sampleCount dec) 0); [lia|].
    destruct (Z.ltb_spec 1 (ComtradeData.sampleCount dec)); [|lia].
    inversion Ht; subst tv; clear Ht.
    apply set_last_last. intros E.
    apply (f_equal (@List.length float)) in E. rewrite length_map in E.
    destruct (0 <? _); try destruct (PrimFloat.eqb _ _);
      rewrite !length_map, range_length in E; simpl in E; lia.
Qed.

Lemma time_vector_shape_witness :
  List.length [0%float; PrimFloat.div 3 2000; PrimFloat.div 3 1000] =
  Z.to_nat (ComtradeData.sampleCount Scenario.dec) /\
  (1 < ComtradeData.sampleCount Scenario.dec ->
   exists n,
     Py.float_of_int (ComtradeData.sampleCount Scenario.dec) = Return n /\
     last [0%float; PrimFloat.div 3 2000; PrimFloat.div 3 1000] 0%float =
     PrimFloat.mul (ComtradeData.deltaT Scenario.dec) n).
Proof.
  apply (time_vector_shape (fst Scenario.decoded) Scenario.dec).
  - vm_compute. reflexivity.
  - vm_compute. reflexivity.
  - vm_compute. reflexivity.
Defined.

(** C1 at the recording of the specification (rate 1000, three samples):
    the session decodes, the time vector has three entries starting at 0,
    and it is [0, 0.0015, 0.003]: adjacent entries are 0.0015 apart, not
    [1 / rate = 0.001]. *)
Theorem time_vector_scenario :
  exists p s,
    ComtradeParser.init Scenario.files "rec.cfg" = Return p /\
    ComtradeParser.body p = Some s /\
    ComtradeData.result (ComtradeParser.dat s) = "parsed" /\
    ComtradeParser.fs s = 1000%float /\
    ComtradeParser.t s =
    [0%float; PrimFloat.div 3 2000; PrimFloat.div 3 1000] /\
    PrimFloat.eqb
      (PrimFloat.sub (nth 1 (ComtradeParser.t s) 0%float)
                     (nth 0 (ComtradeParser.t s) 0%float))
      (PrimFloat.div 1 (ComtradeParser.fs s)) = false /\
    PrimFloat.eqb (nth 1 (ComtradeParser.t s) 0%float) (PrimFloat.div 1 1000)
    = false.
Proof.
  eexists. eexists. split; [vm_compute; reflexivity|].
  split; [reflexivity|].
  repeat (split; [vm_compute; reflexivity|]).
  vm_compute. reflexivity.
Qed.

(** ** The encoding token, from the text of the configuration *)

Lemma getitem_setitem_other {A : Type} (l : list A) (i j : nat) (a : A) :
  i <> j -> getitem (setitem l i a) j = getitem l j.
Proof. intros H. unfold getitem. rewrite setitem_other by exact H. reflexivity. Qed.

Lemma getitem_setitem_same {A : Type} (l : list A) (i : nat) (a x : A) :
  getitem l i = Return x -> getitem (setitem l i a) i = Return a.
Proof.
  intros H. apply getitem_Return in H. unfold getitem.
  rewrite (setitem_same _ _ _ _ H). reflexivity.
Qed.

Lemma read_block_loop_ext {A : Type} (make : string -> res A)
  (l1 l2 : list string) (k : nat) :
  forall (s : nat) (acc : list A) (index : nat),
    (forall j, (j < k)%nat -> nth_error l2 (index + j) = nth_error l1 (index + j)) ->
    for_each (map Z.of_nat (seq s k))
      (fun (_ : Z) '(acc, index) =>
         s <- getitem l2 index ;; x <- make s ;; Return (acc ++ [x], S index))
      (acc, index) =
    for_each (map Z.of_nat (seq s k))
      (fun (_ : Z) '(acc, index) =>
         s <- getitem l1 index ;; x <- make s ;; Return (acc ++ [x], S index))
      (acc, index).
Proof.
  induction k as [|k IH]; intros s acc index Hext; simpl.
  - reflexivity.
  - assert (Hg : getitem l2 index = getitem l1 index).
    { unfold getitem. pose proof (Hext O ltac:(lia)) as H0.
      rewrite Nat.add_0_r in H0. rewrite H0. reflexivity. }
    rewrite Hg.
    destruct (getitem l1 index) as [line|]; simpl; [|reflexivity].
    destruct (make line) as [x|e]; simpl; [|reflexivity].
    apply IH. intros j Hj.
    replace (S index + j)%nat with (index + S j)%nat by lia.
    apply Hext. lia.
Qed.

Lemma read_block_ext {A : Type} (make : string -> res A)
  (l1 l2 : list string) (n : Z) (index : nat) :
  (forall j, (j < Z.to_nat n)%nat ->
             nth_error l2 (index + j) = nth_error l1 (index + j)) ->
  ComtradeConfig.read_block make l2 n index =
  ComtradeConfig.read_block make l1 n index.
Proof.
  intros H. unfold ComtradeConfig.read_block, range.
  apply read_block_loop_ext. exact H.
Qed.

(** Writing another token on the encoding line changes the document in
    its [dataFormat] attribute and nowhere else. *)
Lemma parse_token_line (infoStrs : list string) (d : ComtradeConfig.doc)
  (tok : string) :
  ComtradeConfig._parse infoStrs = Return d ->
  ComtradeConfig._parse (setitem infoStrs (token_index d) tok) =
  Return (doc_set_dataFormat (Str.lower tok) d).
Proof.
  unfold ComtradeConfig._parse. intros H.
  inv_bind H as s0 E0. inv_bind H as fi Efi.
  inv_bind H as s1 E1. inv_bind H as ci Eci.
  inv_bind H as pa Ea. destruct pa as [ais ia].
  inv_bind H as pd Ed. destruct pd as [dis id].
  inv_bind H as sf Esf. inv_bind H as fr Efr.
  inv_bind H as sn Esn. inv_bind H as nr Enr.
  inv_bind H as psi Es. destruct psi as [sis isi].
  inv_bind H as st Est. inv_bind H as stt Estt.
  inv_bind H as tr Etr. inv_bind H as trt Etrt.
  inv_bind H as sd Esd.
  inv_bind H as sm Esm. inv_bind H as tm Etm.
  inversion H; subst d; clear H.
  pose proof (read_block_spec _ _ _ _ _ _ Ea) as (-> & _).
  pose proof (read_block_spec _ _ _ _ _ _ Ed) as (-> & _).
  pose proof (read_block_spec _ _ _ _ _ _ Es) as (-> & _).
  unfold token_index, doc_set_dataFormat. simpl ComtradeConfig.channelInfo.
  simpl ComtradeConfig.nrates.
  set (k := (2 + Z.to_nat (ChannelInfo.analog ci)
             + Z.to_nat (ChannelInfo.digital ci) + 2 + Z.to_nat nr + 2)%nat).
  rewrite (getitem_setitem_other _ k 0) by (subst k; lia).
  rewrite E0. cbn [bind]. rewrite Efi. cbn [bind].
  rewrite (getitem_setitem_other _ k 1) by (subst k; lia).
  rewrite E1. cbn [bind]. rewrite Eci. cbn [bind].
  rewrite (read_block_ext AnalogInfo.init infoStrs)
    by (intros j Hj; apply setitem_other; subst k; lia).
  rewrite Ea. cbn [bind].
  rewrite (read_block_ext DigitalInfo.init infoStrs)
    by (intros j Hj; apply setitem_other; subst k; lia).
  rewrite Ed. cbn [bind].
  rewrite getitem_setitem_other by (subst k; lia).
  rewrite Esf. cbn [bind]. rewrite Efr. cbn [bind].
  rewrite getitem_setitem_other by (subst k; lia).
  rewrite Esn. cbn [bind]. rewrite Enr. cbn [bind].
  rewrite (read_block_ext SampleInfo.init infoStrs)
    by (intros j Hj; apply setitem_other; subst k; lia).
  rewrite Es. cbn [bind].
  rewrite getitem_setitem_other by (subst k; lia).
  rewrite Est. cbn [bind]. rewrite Estt. cbn [bind].
  rewrite getitem_setitem_other by (subst k; lia).
  rewrite Etr. cbn [bind]. rewrite Etrt. cbn [bind].
  match type of Esd with
  | getitem _ ?i = _ =>
      replace i with k in * by (subst k; lia)
  end.
  rewrite (getitem_setitem_same _ _ _ _ Esd). cbn [bind].
  rewrite getitem_setitem_other by lia.
  rewrite Esm. cbn [bind]. rewrite Etm. reflexivity.
Qed.

(** Two sessions from their files: the configuration texts differ in the
    encoding line only, the data files are the same, and the sessions end
    alike, with the same time vector and mappings. *)
Lemma sessions_differing_in_token (files1 files2 : filesystem)
  (base content1 content2 tok : string) (d : ComtradeConfig.doc) :
  files1 (base ++ ".cfg")%string = Some content1 ->
  files2 (base ++ ".cfg")%string = Some content2 ->
  ComtradeConfig._parse
    (ComtradeConfig._removeNextline (read_text_lines content1)) = Return d ->
  ComtradeConfig._removeNextline (read_text_lines content2) =
  setitem (ComtradeConfig._removeNextline (read_text_lines content1))
    (token_index d) tok ->
  files1 (ComtradeData.dat_path (ComtradeConfig.mk (base ++ ".cfg") "parsed" None))
  = files2 (ComtradeData.dat_path (ComtradeConfig.mk (base ++ ".cfg") "parsed" None)) ->
  session_outputs (ComtradeParser.load files2 base) =
  session_outputs (ComtradeParser.load files1 base).
Proof.
  intros H1 H2 Hp Hl Hdat. unfold ComtradeParser.load, ComtradeConfig.init.
  rewrite H1, H2, Hl, (parse_token_line _ _ tok Hp), Hp. cbn [bind].
  change (ComtradeConfig.mk (base ++ ".cfg") "parsed"
            (Some (doc_set_dataFormat (Str.lower tok) d)))
    with (set_dataFormat (Str.lower tok)
            (ComtradeConfig.mk (base ++ ".cfg") "parsed" (Some d))).
  rewrite (data_init_set_dataFormat files1 files2) by exact Hdat.
  destruct (ComtradeData.init files1 _) as [[dat c]|e]; cbn [bind];
    [|reflexivity].
  destruct (ComtradeData.t dat) as [tv|e]; cbn [bind]; [|reflexivity].
  destruct c as [p r [dc|]]; unfold ComtradeConfig.attr, set_dataFormat;
    simpl; [|reflexivity].
  destruct (getitem (ComtradeConfig.sampleInfo dc) 0); reflexivity.
Qed.

Lemma sessions_differing_in_token_witness :
  session_outputs (ComtradeParser.load Scenario.files_ascii "rec") =
  session_outputs (ComtradeParser.load Scenario.files "rec").
Proof.
  apply (sessions_differing_in_token Scenario.files Scenario.files_ascii "rec"
           Scenario.cfg Scenario.cfg_ascii "ASCII"
           (Scenario.doc_of Scenario.config)).
  - vm_compute. reflexivity.
  - vm_compute. reflexivity.
  - vm_compute. reflexivity.
  - vm_compute. reflexivity.
  - vm_compute. reflexivity.
Defined.

(** ** When the decoder returns *)

Lemma finite_from_spec (n : nat) :
  forall p q,
    finite_from p n = true ->
    (Pos.to_nat p <= Pos.to_nat q < Pos.to_nat p + n)%nat ->
    finite_int (Zpos q) = true /\ finite_int (Zneg q) = true.
Proof.
  induction n as [|n IH]; intros p q H Hq; [lia|].
  simpl in H. apply andb_prop in H. destruct H as [H Hrest].
  apply andb_prop in H. destruct H as [Hp Hn].
  destruct (Pos.eq_dec p q) as [->|Hne]; [auto|].
  apply (IH (Pos.succ p) q Hrest). rewrite Pos2Nat.inj_succ.
  assert (Pos.to_nat p <> Pos.to_nat q) by (intros E; apply Hne, Pos2Nat.inj, E).
  lia.
Qed.

Lemma finite_16 : finite_from 1 (Pos.to_nat 32768) = true.
Proof. vm_compute. reflexivity. Qed.

(** Every signed 16-bit integer converts to a float. *)
Lemma float_of_int_16 (z : Z) :
  -32768 <= z <= 32767 -> exists r, Py.float_of_int z = Return r.
Proof.
  intros Hz.
  assert (Hfin : finite_int z = true).
  { destruct z as [|q|q].
    - reflexivity.
    - apply (finite_from_spec _ 1%positive q finite_16). lia.
    - apply (finite_from_spec _ 1%positive q finite_16). lia. }
  unfold finite_int in Hfin. unfold Py.float_of_int.
  destruct (binary_normalize Py.prec Py.emax z 0 false); eauto.
  discriminate Hfin.
Qed.

Lemma read16_total (data : list ascii) (index : Z) :
  0 <= index -> index + 2 <= Z.of_nat (List.length data) ->
  exists raw, read16 data index = Return raw /\ -32768 <= raw <= 32767.
Proof.
  intros H0 H2. unfold read16.
  assert (Hs : exists lo hi, slice data index (index + 2) = [lo; hi]).
  { unfold slice, slice_bound.
    destruct (Z.ltb_spec index 0) as [?|_]; [lia|].
    destruct (Z.ltb_spec (index + 2) 0) as [?|_]; [lia|].
    rewrite !Z.min_l by lia.
    replace (Z.to_nat (index + 2 - index)) with 2%nat by lia.
    pose proof (length_skipn (Z.to_nat index) data) as Hl.
    destruct (skipn (Z.to_nat index) data) as [|a [|b r]]; simpl in Hl;
      try lia.
    exists a, b. reflexivity. }
  destruct Hs as (lo & hi & Hs). rewrite Hs.
  eexists. split; [reflexivity|].
  apply (unpack_h_range [lo; hi]). reflexivity.
Qed.

Lemma Forall_setitem {A : Type} (P : A -> Prop) (l : list A) (i : nat) (a : A) :
  Forall P l -> P a -> Forall P (setitem l i a).
Proof.
  intros Hl Ha. revert i. induction Hl as [|x l Hx Hl IH]; intros [|i]; simpl;
    constructor; auto.
Qed.

Section IndexedLoopTotal.

Context {A R : Type}.
Variable read : Z -> res R.
Variable app : A -> R -> res A.
Variable P : A -> Prop.
Variable Q : R -> Prop.
Hypothesis app_ok :
  forall x raw, P x -> Q raw -> exists x', app x raw = Return x' /\ P x'.

Lemma channel_loop_total (k : nat) :
  forall (s : nat) (l : list A),
    (forall j, (s <= j < s + k)%nat ->
               exists raw, read (Z.of_nat j) = Return raw /\ Q raw) ->
    (s + k <= List.length l)%nat ->
    Forall P l ->
    exists l',
      for_each (map Z.of_nat (seq s k)) (channel_step read app) l = Return l' /\
      List.length l' = List.length l /\ Forall P l'.
Proof.
  induction k as [|k IH]; intros s l Hread Hlen HP; simpl.
  - exists l. auto.
  - destruct (Hread s ltac:(lia)) as (raw & Hr & HQ).
    destruct (nth_error l s) as [x|] eqn:Hx.
    2:{ apply nth_error_None in Hx. lia. }
    assert (Px : P x).
    { rewrite Forall_forall in HP. apply HP. eapply nth_error_In; eauto. }
    destruct (app_ok x raw Px HQ) as (x' & Ha & Px').
    unfold channel_step at 1. rewrite Hr. cbn [bind].
    rewrite Nat2Z.id. unfold getitem. rewrite Hx. cbn [bind].
    rewrite Ha. cbn [bind].
    destruct (IH (S s) (setitem l s x')) as (l' & Hl' & Hlen' & HP').
    + intros j Hj. apply Hread. lia.
    + rewrite setitem_length. lia.
    + apply Forall_setitem; assumption.
    + exists l'. rewrite setitem_length in Hlen'. auto.
Qed.

End IndexedLoopTotal.

Lemma analog_append_total (ai : AnalogInfo.t) (raw : Z) :
  True -> -32768 <= raw <= 32767 ->
  exists ai', AnalogInfo.appendData ai raw = Return ai' /\ True.
Proof.
  intros _ Hraw. destruct (float_of_int_16 raw Hraw) as (r & Hr).
  unfold AnalogInfo.appendData, AnalogInfo.value. rewrite Hr. cbn [bind].
  eauto.
Qed.

Lemma digital_append_total (di : DigitalInfo.t) (raw : Z) :
  0 <= DigitalInfo.num di <= max_channel_number -> True ->
  exists di', DigitalInfo.appendData di raw = Return di' /\
              0 <= DigitalInfo.num di' <= max_channel_number.
Proof.
  intros Hn _. unfold DigitalInfo.appendData, DigitalInfo.value.
  rewrite lshift_one_small by exact Hn.
  cbn [bind]. eexists. split; [reflexivity|]. exact Hn.
Qed.

Section SampleLoopTotal.

Variable data : list ascii.
Variables unitSize analogChNum digitalChNum : Z.
Hypothesis analog_nonneg : 0 <= analogChNum.
Hypothesis digital_nonneg : 0 <= digitalChNum.
Hypothesis unit_covers :
  8 + 2 * analogChNum + 2 * ceil16 digitalChNum <= unitSize.

Lemma sample_step_total (i : Z) (ais : list AnalogInfo.t)
  (dis : list DigitalInfo.t) :
  0 <= i -> (i + 1) * unitSize <= Z.of_nat (List.length data) ->
  List.length ais = Z.to_nat analogChNum ->
  List.length dis = Z.to_nat digitalChNum ->
  Forall (fun di => 0 <= DigitalInfo.num di <= max_channel_number) dis ->
  exists ais' dis',
    ComtradeData.sample_step data unitSize analogChNum digitalChNum
      (2 * analogChNum) i (ais, dis) = Return (ais', dis') /\
    List.length ais' = List.length ais /\
    List.length dis' = List.length dis /\
    Forall (fun di => 0 <= DigitalInfo.num di <= max_channel_number) dis'.
Proof.
  intros Hi Hlen La Ld Hnum.
  pose proof (ceil16_nonneg _ digital_nonneg) as Hc.
  assert (HU : 0 <= i * unitSize) by (apply Z.mul_nonneg_nonneg; lia).
  assert (HS : (i + 1) * unitSize = i * unitSize + unitSize) by lia.
  unfold ComtradeData.sample_step.
  rewrite (for_each_fst _ _ _ (analog_step_channel data unitSize i)).
  destruct (channel_loop_total (analog_word data unitSize i)
              AnalogInfo.appendData (fun _ => True)
              (fun raw => -32768 <= raw <= 32767) analog_append_total
              (Z.to_nat analogChNum) 0 ais)
    as (ais' & Ha & Hla & _).
  { intros j Hj. apply read16_total; lia. }
  { lia. }
  { apply Forall_forall. auto. }
  unfold range. rewrite Ha. cbn [bind].
  rewrite (for_each_snd _ _ _
             (digital_step_channel data unitSize (2 * analogChNum) i)).
  destruct (channel_loop_total
              (digital_word data unitSize (2 * analogChNum) i)
              DigitalInfo.appendData (fun di => 0 <= DigitalInfo.num di <= max_channel_number)
              (fun _ => True) digital_append_total
              (Z.to_nat digitalChNum) 0 dis)
    as (dis' & Hd & Hld & Hnum').
  { intros j Hj.
    assert (Hq : Z.of_nat j / 16 + 1 <= ceil16 digitalChNum).
    { unfold ceil16.
      replace (Z.of_nat j / 16 + 1) with ((Z.of_nat j + 1 * 16) / 16)
        by (rewrite Z.div_add by lia; reflexivity).
      apply Z.div_le_mono; lia. }
    assert (0 <= Z.of_nat j / 16) by (apply Z.div_pos; lia).
    destruct (read16_total data
                (Z.of_nat j / 16 * 2 + (i * unitSize + 8 + 2 * analogChNum)))
      as (raw & Hr & _); [lia | lia |].
    exists raw. split; [exact Hr | exact I]. }
  { lia. }
  { exact Hnum. }
  rewrite Hd. cbn [bind]. exists ais', dis'. auto.
Qed.

Lemma samples_loop_total (k : nat) :
  forall (s : nat) (ais : list AnalogInfo.t) (dis : list DigitalInfo.t),
    Z.of_nat (s + k) * unitSize <= Z.of_nat (List.length data) ->
    List.length ais = Z.to_nat analogChNum ->
    List.length dis = Z.to_nat digitalChNum ->
    Forall (fun di => 0 <= DigitalInfo.num di <= max_channel_number) dis ->
    exists st,
      for_each (map Z.of_nat (seq s k))
        (ComtradeData.sample_step data unitSize analogChNum digitalChNum
           (2 * analogChNum)) (ais, dis) = Return st.
Proof.
  pose proof (ceil16_nonneg _ digital_nonneg) as Hc.
  induction k as [|k IH]; intros s ais dis Hlen La Ld Hnum;
    cbn [for_each map seq].
  - eauto.
  - destruct (sample_step_total (Z.of_nat s) ais dis)
      as (ais' & dis' & Hs & La' & Ld' & Hnum'); try assumption; try lia.
    { assert (Z.of_nat s + 1 <= Z.of_nat (s + S k)) by lia.
      assert ((Z.of_nat s + 1) * unitSize <= Z.of_nat (s + S k) * unitSize)
        by (apply Z.mul_le_mono_nonneg_r; lia).
      lia. }
    rewrite Hs. cbn [bind]. apply IH; try congruence.
    replace (S s + k)%nat with (s + S k)%nat by lia. exact Hlen.
Qed.

End SampleLoopTotal.

(** The decoder returns a parsed recording whenever the configuration is
    parsed, its first segment has a non-zero rate, the channel counts are
    the (non-negative) lengths of the descriptor lists, every digital
    descriptor declares an index between 0 and the largest channel
    number, and the data file holds the [sampleCount] records the segment
    announces. *)
Theorem decode_returns (fs : filesystem) (config : ComtradeConfig.t)
  (d : ComtradeConfig.doc) (content : string) (first : SampleInfo.t) :
  ComtradeConfig.result config = "parsed" ->
  ComtradeConfig.body config = Some d ->
  fs (ComtradeData.dat_path config) = Some content ->
  nth_error (ComtradeConfig.sampleInfo d) 0 = Some first ->
  PrimFloat.eqb (SampleInfo.rate first) 0%float = false ->
  0 <= ChannelInfo.analog (ComtradeConfig.channelInfo d) ->
  0 <= ChannelInfo.digital (ComtradeConfig.channelInfo d) ->
  List.length (ComtradeConfig.analogInfo d) =
  Z.to_nat (ChannelInfo.analog (ComtradeConfig.channelInfo d)) ->
  List.length (ComtradeConfig.digitalInfo d) =
  Z.to_nat (ChannelInfo.digital (ComtradeConfig.channelInfo d)) ->
  Forall (fun di => 0 <= DigitalInfo.num di <= max_channel_number) (ComtradeConfig.digitalInfo d) ->
  SampleInfo.end_ first * stride d <= Z.of_nat (String.length content) ->
  exists dat config',
    ComtradeData.init fs config = Return (dat, config') /\
    ComtradeData.result dat = "parsed".
Proof.
  intros Hp Hb Hf Hfirst Hrate HA HD La Ld Hnum Hlen.
  unfold ComtradeData.init, ComtradeConfig.attr.
  apply String.eqb_eq in Hp. rewrite Hp, Hf, Hb. cbn [negb bind].
  unfold getitem. rewrite Hfirst. cbn [bind].
  unfold Py.truediv. rewrite Hrate. cbn [bind].
  fold (stride d).
  assert (Hdata : Z.of_nat (List.length (Str.to_list content)) =
                  Z.of_nat (String.length content)).
  { f_equal. clear. induction content as [|c s IH]; simpl; congruence. }
  destruct (samples_loop_total (Str.to_list content) (stride d)
              (ChannelInfo.analog (ComtradeConfig.channelInfo d))
              (ChannelInfo.digital (ComtradeConfig.channelInfo d)) HA HD
              ltac:(unfold stride; rewrite digitalBytesLen_ceil; lia)
              (Z.to_nat (SampleInfo.end_ first)) 0
              (ComtradeConfig.analogInfo d) (ComtradeConfig.digitalInfo d))
    as ([ais dis] & Hloop); try assumption.
  { rewrite Hdata. simpl Nat.add.
    destruct (Z.le_gt_cases 0 (SampleInfo.end_ first)).
    - rewrite Z2Nat.id by assumption. exact Hlen.
    - replace (Z.to_nat (SampleInfo.end_ first)) with O by lia. simpl. lia. }
  unfold range. rewrite Hloop. cbn [bind].
  eexists. eexists. split; reflexivity.
Qed.

Lemma decode_returns_witness :
  exists dat config',
    ComtradeData.init Scenario.files Scenario.config = Return (dat, config') /\
    ComtradeData.result dat = "parsed".
Proof.
  apply (decode_returns Scenario.files Scenario.config
           (Scenario.doc_of Scenario.config) Scenario.dat
           (SampleInfo.mk 1000%float 3)).
  - vm_compute. reflexivity.
  - vm_compute. reflexivity.
  - vm_compute. reflexivity.
  - vm_compute. reflexivity.
  - vm_compute. reflexivity.
  - vm_compute. discriminate.
  - vm_compute. discriminate.
  - vm_compute. reflexivity.
  - vm_compute. reflexivity.
  - vm_compute. repeat constructor; discriminate.
  - vm_compute. discriminate.
Defined.

(** * Further properties of the code *)

(** ** What the decoder reads of a configuration *)

(** The decoder reads the path, the status, the channel layout, the
    descriptors and the first sample-rate segment of a configuration, and
    nothing else: two configuration objects that agree on these, over the
    same data file, give the same time vector and mappings, or end with
    the same exception.  Later segments, the line frequency, the segment
    count, the time stamps, the time multiplier, the encoding and the
    file identity never reach the output. *)
Theorem decoder_reads_view (fs1 fs2 : filesystem)
  (c1 c2 : ComtradeConfig.t) :
  decoder_view c1 = decoder_view c2 ->
  fs1 (ComtradeData.dat_path c1) = fs2 (ComtradeData.dat_path c1) ->
  outputs (ComtradeData.init fs1 c1) = outputs (ComtradeData.init fs2 c2).
Proof.
  intros Hv Hfs. destruct c1 as [p1 r1 b1], c2 as [p2 r2 b2].
  unfold decoder_view in Hv.
  cbn [ComtradeConfig.path ComtradeConfig.result ComtradeConfig.body] in Hv.
  injection Hv as <- <- Hb.
  unfold ComtradeData.init.
  change (ComtradeData.dat_path (ComtradeConfig.mk p1 r1 b2))
    with (ComtradeData.dat_path (ComtradeConfig.mk p1 r1 b1)).
  simpl ComtradeConfig.result.
  destruct (String.eqb r1 "parsed"); cbn [negb]; [|reflexivity].
  rewrite <- Hfs.
  destruct (fs1 (ComtradeData.dat_path (ComtradeConfig.mk p1 r1 b1)));
    [|reflexivity].
  destruct b1 as [d1|], b2 as [d2|]; try discriminate Hb; [|reflexivity].
  cbn [option_map] in Hb. injection Hb as Hci Hai Hdi Hsi.
  change (nth_error (ComtradeConfig.sampleInfo d1) 0 =
          nth_error (ComtradeConfig.sampleInfo d2) 0) in Hsi.
  unfold ComtradeConfig.attr. cbn [ComtradeConfig.body bind].
  unfold getitem. rewrite Hci, Hai, Hdi, Hsi.
  destruct (nth_error (ComtradeConfig.sampleInfo d2) 0); cbn [bind];
    [|reflexivity].
  destruct (Py.truediv _ _); cbn [bind]; [|reflexivity].
  destruct (for_each _ _ _) as [[ais dis]|e]; reflexivity.
Qed.

Lemma decoder_reads_view_witness :
  outputs (ComtradeData.init Scenario.files Scenario.config) =
  outputs (ComtradeData.init files_two_rates config_two_rates).
Proof.
  apply (decoder_reads_view Scenario.files files_two_rates Scenario.config
           config_two_rates).
  - vm_compute. reflexivity.
  - vm_compute. reflexivity.
Defined.

(** ** Digital indices from 15 on *)

Lemma signed16_high_bits (u n : Z) :
  0 <= u < 65536 -> 15 <= n ->
  Z.testbit (signed16 u) n = Z.testbit u 15.
Proof.
  intros Hu Hn. unfold signed16.
  destruct (Z.ltb_spec u 32768) as [Hlt|Hge].
  - assert (H15 : Z.testbit u 15 = false).
    { destruct (Z.eq_dec u 0) as [->|Hnz]; [apply Z.bits_0|].
      apply Z.bits_above_log2; [lia|].
      apply Z.log2_lt_pow2; [lia|]. change (2 ^ 15) with 32768. lia. }
    rewrite H15.
    destruct (Z.eq_dec u 0) as [->|Hnz]; [apply Z.bits_0|].
    apply Z.bits_above_log2; [lia|].
    apply Z.lt_le_trans with 15; [|exact Hn].
    apply Z.log2_lt_pow2; [lia|]. change (2 ^ 15) with 32768. lia.
  - assert (H15 : Z.testbit u 15 = true).
    { apply Z.testbit_true; [lia|]. change (2 ^ 15) with 32768.
      assert (Hq : u / 32768 = 1).
      { symmetry. apply Z.div_unique with (r := u - 32768); lia. }
      rewrite Hq. reflexivity. }
    rewrite H15. apply Z.bits_above_log2_neg; [lia|].
    destruct (Z.eq_dec (u - 65536) (-1)) as [E|NE].
    + rewrite E. simpl. lia.
    + apply Z.lt_le_trans with 15; [|exact Hn].
      apply Z.log2_lt_pow2; [lia|]. change (2 ^ 15) with 32768. lia.
Qed.

(** A digital descriptor whose declared index is 15 or more, up to the
    largest channel number, decodes the top bit of the covering 16-bit
    word, whatever the index: the word is unpacked as a signed integer,
    and its sign fills every higher bit. *)
Theorem digital_high_index (di : DigitalInfo.t) (lo hi : ascii) (raw : Z) :
  15 <= DigitalInfo.num di <= max_channel_number ->
  unpack_h [lo; hi] = Return raw ->
  DigitalInfo.value di raw =
  Return (if Z.testbit (Str.ord lo + 256 * Str.ord hi) 15 then 1 else 0).
Proof.
  intros Hn Hraw. destruct (unpack_h_inv _ _ Hraw) as (lo' & hi' & E & ->).
  injection E as <- <-.
  unfold DigitalInfo.value.
  rewrite lshift_one_small by lia. cbn [bind].
  rewrite land_bit by lia.
  pose proof (ord_byte lo). pose proof (ord_byte hi).
  rewrite signed16_high_bits by lia.
  destruct (Z.testbit _ 15); reflexivity.
Qed.

Lemma digital_high_index_witness :
  DigitalInfo.value (DigitalInfo.mk "17,TRIP,,,0" 17 "TRIP" "" "" 0 []) (-32768) =
  Return (if Z.testbit (Str.ord "000"%char + 256 * Str.ord "128"%char) 15
          then 1 else 0).
Proof.
  apply (digital_high_index (DigitalInfo.mk "17,TRIP,,,0" 17 "TRIP" "" "" 0 [])
           "000"%char "128"%char (-32768)).
  - vm_compute. split; discriminate.
  - vm_compute. reflexivity.
Defined.

(** ** The name-keyed mappings *)

Lemma dict_get_set {V : Type} (d : list (string * V)) (k k' : string) (v : V) :
  dict_get (dict_set d k v) k' =
  if String.eqb k k' then Some v else dict_get d k'.
Proof.
  induction d as [|[k0 v0] d IH]; simpl.
  - reflexivity.
  - destruct (String.eqb_spec k0 k) as [->|Hne]; simpl.
    + destruct (String.eqb k k'); reflexivity.
    + rewrite IH. destruct (String.eqb_spec k0 k') as [->|Hne'].
      * destruct (String.eqb_spec k k') as [->|_]; [congruence | reflexivity].
      * reflexivity.
Qed.

Lemma dict_set_In {V : Type} (d : list (string * V)) (k : string) (v : V)
  (k' : string) (v' : V) :
  In (k', v') (dict_set d k v) -> (k' = k /\ v' = v) \/ In (k', v') d.
Proof.
  induction d as [|[k0 v0] d IH]; simpl.
  - intros [H|[]]. left. split; congruence.
  - destruct (String.eqb_spec k0 k) as [->|Hne]; simpl.
    + intros [H|H]; [left; split; congruence | right; right; exact H].
    + intros [H|H]; [right; left; exact H|].
      destruct (IH H) as [?|?]; auto.
Qed.

Lemma dict_set_keys {V : Type} (d : list (string * V)) (k : string) (v : V) :
  map fst (dict_set d k v) =
  if existsb (fun k' => String.eqb k' k) (map fst d) then map fst d
  else map fst d ++ [k].
Proof.
  induction d as [|[k0 v0] d IH]; simpl.
  - reflexivity.
  - destruct (String.eqb_spec k0 k) as [->|Hne]; simpl.
    + reflexivity.
    + rewrite IH. destruct (existsb _ _); reflexivity.
Qed.

Lemma dict_set_NoDup {V : Type} (d : list (string * V)) (k : string) (v : V) :
  NoDup (map fst d) -> NoDup (map fst (dict_set d k v)).
Proof.
  intros H. rewrite dict_set_keys.
  destruct (existsb _ _) eqn:E; [exact H|].
  apply NoDup_app; [exact H | constructor; [intros [] | constructor] |].
  intros x Hx [Ek|[]]. subst x.
  assert (existsb (fun k' => String.eqb k' k) (map fst d) = true).
  { apply existsb_exists. exists k. split; [exact Hx | apply String.eqb_refl]. }
  congruence.
Qed.

Lemma find_append {A : Type} (f : A -> bool) (l1 l2 : list A) :
  find f (l1 ++ l2) =
  match find f l1 with
  | Some x => Some x
  | None => find f l2
  end.
Proof.
  induction l1 as [|x l1 IH]; simpl; [reflexivity|].
  destruct (f x); [reflexivity | exact IH].
Qed.

Section Collect.

Context {A V : Type}.
Variable key : A -> string.
Variable val : A -> V.

Lemma collect_from_get (infos : list A) :
  forall (m : list (string * V)) (k : string),
    dict_get (collect_from key val infos m) k =
    match last_with_key key infos k with
    | Some e => Some (val e)
    | None => dict_get m k
    end.
Proof.
  unfold collect_from, last_with_key.
  induction infos as [|x infos IH]; intros m k; simpl.
  - reflexivity.
  - rewrite IH, find_append.
    destruct (find _ (rev infos)) as [e|]; [reflexivity|].
    simpl. rewrite dict_get_set.
    destruct (String.eqb (key x) k); reflexivity.
Qed.

Lemma collect_from_NoDup (infos : list A) :
  forall m, NoDup (map fst m) ->
            NoDup (map fst (collect_from key val infos m)).
Proof.
  unfold collect_from. induction infos as [|x infos IH]; intros m H; simpl.
  - exact H.
  - apply IH, dict_set_NoDup, H.
Qed.

Lemma collect_from_In (infos : list A) :
  forall m k v,
    In (k, v) (collect_from key val infos m) ->
    In (k, v) m \/ exists e, In e infos /\ k = key e /\ v = val e.
Proof.
  unfold collect_from. induction infos as [|x infos IH]; intros m k v H;
    simpl in H.
  - left. exact H.
  - destruct (IH _ _ _ H) as [Hm|(e & He & Hk & Hv)].
    + destruct (dict_set_In _ _ _ _ _ Hm) as [(-> & ->)|Hin].
      * right. exists x. simpl. auto.
      * left. exact Hin.
    + right. exists e. simpl. auto.
Qed.

Lemma collect_from_distinct (infos : list A) :
  forall m,
    NoDup (map fst m ++ map key infos) ->
    collect_from key val infos m =
    m ++ map (fun e => (key e, val e)) infos.
Proof.
  unfold collect_from. induction infos as [|x infos IH]; intros m H; simpl.
  - now rewrite app_nil_r.
  - assert (Hset : dict_set m (key x) (val x) = m ++ [(key x, val x)]).
    { apply NoDup_remove_2 in H.
      assert (Hx : ~ In (key x) (map fst m)).
      { intros Hin. apply H. apply in_or_app. left. exact Hin. }
      clear -Hx. induction m as [|[k0 v0] m IHm]; simpl.
      - reflexivity.
      - destruct (String.eqb_spec k0 (key x)) as [E|_].
        + exfalso. apply Hx. left. exact E.
        + f_equal. apply IHm. intros Hin. apply Hx. right. exact Hin. }
    rewrite Hset, IH.
    + rewrite <- app_assoc. reflexivity.
    + rewrite map_app. simpl. rewrite <- app_assoc. simpl.
      replace (map fst m ++ key x :: map key infos)
        with (map fst m ++ key x :: map key infos) by reflexivity.
      exact H.
Qed.

Lemma dict_set_length {W : Type} (d : list (string * W)) (k : string) (v : W) :
  (List.length (dict_set d k v) <= S (List.length d))%nat.
Proof.
  induction d as [|[k0 v0] d IH]; simpl; [lia|].
  destruct (String.eqb k0 k); simpl; lia.
Qed.

Lemma collect_from_length (infos : list A) :
  forall m,
    (List.length (collect_from key val infos m)
     <= List.length m + List.length infos)%nat.
Proof.
  unfold collect_from. induction infos as [|x infos IH]; intros m; simpl.
  - lia.
  - pose proof (IH (dict_set m (key x) (val x))).
    pose proof (dict_set_length m (key x) (val x)). lia.
Qed.

Lemma collect_from_length_le (infos : list A) :
  (List.length (collect_from key val infos []) <= List.length infos)%nat.
Proof. apply (collect_from_length infos []). Qed.

End Collect.

(** The analog mapping of a decoded recording, read by key: the value
    under a key is the buffer of the last analog descriptor filed under
    that key ([ch_id(unit)]); the keys are pairwise distinct; and when the
    descriptors have pairwise distinct keys the mapping lists them all, in
    channel order.  Descriptors sharing a key therefore leave one entry. *)
Theorem analog_mapping_by_key (infos : list AnalogInfo.t) :
  (forall k,
      dict_get (ComtradeData.collect_analog infos) k =
      option_map AnalogInfo.data
        (last_with_key ComtradeData.analog_key infos k)) /\
  NoDup (map fst (ComtradeData.collect_analog infos)) /\
  (List.length (ComtradeData.collect_analog infos) <= List.length infos)%nat /\
  (NoDup (map ComtradeData.analog_key infos) ->
   ComtradeData.collect_analog infos =
   map (fun e => (ComtradeData.analog_key e, AnalogInfo.data e)) infos).
Proof.
  change (ComtradeData.collect_analog infos)
    with (collect_from ComtradeData.analog_key AnalogInfo.data infos []).
  split; [|split; [|split]].
  - intros k. rewrite collect_from_get.
    destruct (last_with_key _ _ _); reflexivity.
  - apply collect_from_NoDup. constructor.
  - apply collect_from_length_le.
  - intros H. rewrite collect_from_distinct; [reflexivity | exact H].
Qed.

(** The digital mapping, likewise keyed by [ch_id]. *)
Theorem digital_mapping_by_key (infos : list DigitalInfo.t) :
  (forall k,
      dict_get (ComtradeData.collect_digital infos) k =
      option_map DigitalInfo.data (last_with_key DigitalInfo.ch_id infos k)) /\
  NoDup (map fst (ComtradeData.collect_digital infos)) /\
  (List.length (ComtradeData.collect_digital infos) <= List.length infos)%nat /\
  (NoDup (map DigitalInfo.ch_id infos) ->
   ComtradeData.collect_digital infos =
   map (fun e => (DigitalInfo.ch_id e, DigitalInfo.data e)) infos).
Proof.
  change (ComtradeData.collect_digital infos)
    with (collect_from DigitalInfo.ch_id DigitalInfo.data infos []).
  split; [|split; [|split]].
  - intros k. rewrite collect_from_get.
    destruct (last_with_key _ _ _); reflexivity.
  - apply collect_from_NoDup. constructor.
  - apply collect_from_length_le.
  - intros H. rewrite collect_from_distinct; [reflexivity | exact H].
Qed.

(** ** Buffers and time vector of a session *)

Lemma Forall2_length_eq {A B : Type} (P : A -> B -> Prop) (l1 : list A)
  (l2 : list B) :
  Forall2 P l1 l2 -> List.length l1 = List.length l2.
Proof. induction 1; simpl; congruence. Qed.

(** After the decoding of a freshly built configuration every buffer
    holds one value per sample. *)
Lemma session_buffer_lengths (fs : filesystem) (filePath : string)
  (config config' : ComtradeConfig.t) (dat : ComtradeData.obj)
  (d' : ComtradeConfig.doc) (dec : ComtradeData.decoded) :
  ComtradeConfig.init fs filePath = Return config ->
  ComtradeData.init fs config = Return (dat, config') ->
  ComtradeData.result dat = "parsed" ->
  ComtradeData.body dat = Some dec ->
  ComtradeConfig.body config' = Some d' ->
  Forall (fun ai => List.length (AnalogInfo.data ai) =
                    Z.to_nat (ComtradeData.sampleCount dec))
    (ComtradeConfig.analogInfo d') /\
  Forall (fun di => List.length (DigitalInfo.data di) =
                    Z.to_nat (ComtradeData.sampleCount dec))
    (ComtradeConfig.digitalInfo d').
Proof.
  intros Hc Hd Hres Hdec Hb'.
  destruct (data_init_decodes _ _ _ _ Hd Hres)
    as (content & d & d1 & dec1 & Hf & _ & _ & Hb & Hb1 & Hdec1 & D).
  rewrite Hb' in Hb1. inversion Hb1; subst d1; clear Hb1.
  rewrite Hdec in Hdec1. inversion Hdec1; subst dec1; clear Hdec1.
  destruct (config_init_inv _ _ _ Hc) as [(_ & ->)|(c0 & d0 & _ & Hp & ->)];
    [discriminate Hb|].
  simpl in Hb. inversion Hb; subst d0; clear Hb.
  destruct (parse_fresh _ _ Hp) as [La Ld _ Ea Ed].
  split; apply Forall_forall.
  - intros ai' Hin. destruct (In_nth_error _ _ Hin) as (ch & Hai').
    assert (Hch : (ch < Z.to_nat (ChannelInfo.analog
                                    (ComtradeConfig.channelInfo d)))%nat).
    { destruct (Nat.lt_ge_cases ch
                  (Z.to_nat (ChannelInfo.analog (ComtradeConfig.channelInfo d))))
        as [Hlt|Hge]; [exact Hlt|].
      rewrite (dc_analog_rest _ _ _ _ D) in Hai' by lia.
      rewrite <- La in Hge. apply nth_error_None in Hge. congruence. }
    destruct (nth_error (ComtradeConfig.analogInfo d) ch) as [ai|] eqn:Hai.
    2:{ apply nth_error_None in Hai. lia. }
    destruct (dc_analog _ _ _ _ D ch ai Hch Hai) as (vals & Hnew & Htr).
    rewrite Hai' in Hnew. inversion Hnew; subst ai'; clear Hnew.
    assert (Hfresh : AnalogInfo._data ai = []).
    { rewrite Forall_forall in Ea. apply Ea. eapply nth_error_In; eauto. }
    unfold AnalogInfo.data, AnalogInfo.with_data. simpl. rewrite Hfresh. simpl.
    rewrite <- (Forall2_length_eq _ _ _ Htr). apply range_length.
  - intros di' Hin. destruct (In_nth_error _ _ Hin) as (ch & Hdi').
    assert (Hch : (ch < Z.to_nat (ChannelInfo.digital
                                    (ComtradeConfig.channelInfo d)))%nat).
    { destruct (Nat.lt_ge_cases ch
                  (Z.to_nat (ChannelInfo.digital (ComtradeConfig.channelInfo d))))
        as [Hlt|Hge]; [exact Hlt|].
      rewrite (dc_digital_rest _ _ _ _ D) in Hdi' by lia.
      rewrite <- Ld in Hge. apply nth_error_None in Hge. congruence. }
    destruct (nth_error (ComtradeConfig.digitalInfo d) ch) as [di|] eqn:Hdi.
    2:{ apply nth_error_None in Hdi. lia. }
    destruct (dc_digital _ _ _ _ D ch di Hch Hdi) as (vals & Hnew & Htr).
    rewrite Hdi' in Hnew. inversion Hnew; subst di'; clear Hnew.
    assert (Hfresh : DigitalInfo._data di = []).
    { rewrite Forall_forall in Ed. apply Ed. eapply nth_error_In; eauto. }
    unfold DigitalInfo.data, DigitalInfo.with_data. simpl. rewrite Hfresh. simpl.
    rewrite <- (Forall2_length_eq _ _ _ Htr). apply range_length.
Qed.

(** In every session whose construction returns, each sequence of the
    analog mapping and of the digital mapping has exactly as many entries
    as the time vector: what the session hands to plotting and export is
    rectangular. *)
Theorem session_is_rectangular (files : filesystem) (path : string)
  (p : ComtradeParser.obj) (s : ComtradeParser.session) :
  ComtradeParser.init files path = Return p ->
  ComtradeParser.body p = Some s ->
  (forall k v, In (k, v) (ComtradeParser.analog s) ->
               List.length v = List.length (ComtradeParser.t s)) /\
  (forall k v, In (k, v) (ComtradeParser.digital s) ->
               List.length v = List.length (ComtradeParser.t s)).
Proof.
  intros Hinit Hbody.
  assert (Hload : exists base, ComtradeParser.load files base = Return p).
  { unfold ComtradeParser.init in Hinit.
    destruct (Str.contains ".cfg" path); simpl in Hinit; [eauto|].
    destruct (Str.contains ".dat" path); simpl in Hinit; [eauto|].
    inversion Hinit; subst p. discriminate Hbody. }
  destruct Hload as (base & H). unfold ComtradeParser.load in H.
  inv_bind H as config Ec. inv_bind H as pr Ed. destruct pr as [dat config'].
  inv_bind H as tv Et. inv_bind H as si Esi. inv_bind H as first Ef.
  inversion H; subst p; clear H. simpl in Hbody.
  inversion Hbody; subst s; clear Hbody. simpl.
  destruct (data_init_cases _ _ _ _ Ed)
    as [(Hn & -> & ->)|[(Hp & -> & Hf & ->)|(Hp & Hp' & Hres)]].
  - split; intros k v [].
  - split; intros k v [].
  - destruct (data_init_decodes _ _ _ _ Ed Hres)
      as (content & d & d' & dec & _ & _ & _ & Hb & Hb' & Hdec & D).
    destruct (session_buffer_lengths _ _ _ _ _ _ _ Ec Ed Hres Hdec Hb')
      as (HA & HD).
    assert (Htv : List.length tv = Z.to_nat (ComtradeData.sampleCount dec)).
    { unfold ComtradeData.t in Et. apply String.eqb_eq in Hres.
      rewrite Hres, Hdec in Et. inv_bind Et as n En.
      apply (linspace_length _ _ _ _ Et). }
    unfold ComtradeData.analog, ComtradeData.digital.
    apply String.eqb_eq in Hres. rewrite Hres, Hdec.
    rewrite (dc_analog_dict _ _ _ _ D), (dc_digital_dict _ _ _ _ D).
    rewrite Htv. split; intros k v Hin.
    + apply (collect_from_In ComtradeData.analog_key AnalogInfo.data) in Hin.
      destruct Hin as [[]|(e & He & _ & ->)].
      rewrite Forall_forall in HA. apply HA. exact He.
    + apply (collect_from_In DigitalInfo.ch_id DigitalInfo.data) in Hin.
      destruct Hin as [[]|(e & He & _ & ->)].
      rewrite Forall_forall in HD. apply HD. exact He.
Qed.

Lemma session_is_rectangular_witness :
  (forall k v,
      In (k, v)
        (ComtradeParser.analog
           (match ComtradeParser.body scenario_session with
            | Some s => s
            | None => empty_session
            end)) ->
      List.length v =
      List.length
        (ComtradeParser.t
           (match ComtradeParser.body scenario_session with
            | Some s => s
            | None => empty_session
            end))) /\
  (forall k v,
      In (k, v)
        (ComtradeParser.digital
           (match ComtradeParser.body scenario_session with
            | Some s => s
            | None => empty_session
            end)) ->
      List.length v =
      List.length
        (ComtradeParser.t
           (match ComtradeParser.body scenario_session with
            | Some s => s
            | None => empty_session
            end))).
Proof.
  apply (session_is_rectangular Scenario.files "rec.cfg" scenario_session).
  - vm_compute. reflexivity.
  - vm_compute. reflexivity.
Defined.

(** ** The lines a configuration needs *)

Lemma getitem_ext {A : Type} (l1 l2 : list A) (i : nat) :
  nth_error l2 i = nth_error l1 i -> getitem l2 i = getitem l1 i.
Proof. intros H. unfold getitem. rewrite H. reflexivity. Qed.

(** A successful parse read the lines up to the time multiplier, which
    stands right after the encoding token, and no other. *)
Lemma parse_ext (l1 l2 : list string) (d : ComtradeConfig.doc) :
  ComtradeConfig._parse l1 = Return d ->
  (forall i, (i < token_index d + 2)%nat -> nth_error l2 i = nth_error l1 i) ->
  (token_index d + 2 <= List.length l1)%nat /\
  ComtradeConfig._parse l2 = Return d.
Proof.
  unfold ComtradeConfig._parse. intros H.
  inv_bind H as s0 E0. inv_bind H as fi Efi.
  inv_bind H as s1 E1. inv_bind H as ci Eci.
  inv_bind H as pa Ea. destruct pa as [ais ia].
  inv_bind H as pd Ed. destruct pd as [dis id].
  inv_bind H as sf Esf. inv_bind H as fr Efr.
  inv_bind H as sn Esn. inv_bind H as nr Enr.
  inv_bind H as psi Es. destruct psi as [sis isi].
  inv_bind H as st Est. inv_bind H as stt Estt.
  inv_bind H as tr Etr. inv_bind H as trt Etrt.
  inv_bind H as sd Esd.
  inv_bind H as sm Esm. inv_bind H as tm Etm.
  inversion H; subst d; clear H.
  pose proof (read_block_spec _ _ _ _ _ _ Ea) as (-> & _).
  pose proof (read_block_spec _ _ _ _ _ _ Ed) as (-> & _).
  pose proof (read_block_spec _ _ _ _ _ _ Es) as (-> & _).
  unfold token_index. simpl ComtradeConfig.channelInfo.
  simpl ComtradeConfig.nrates.
  set (K := (2 + Z.to_nat (ChannelInfo.analog ci)
             + Z.to_nat (ChannelInfo.digital ci) + 2 + Z.to_nat nr + 2 + 2)%nat).
  intros Hext. split.
  - apply getitem_Return in Esm.
    assert (Hsome : nth_error l1 (K - 1) <> None).
    { replace (K - 1)%nat
        with (S (S (S (S (S (2 + Z.to_nat (ChannelInfo.analog ci)
                               + Z.to_nat (ChannelInfo.digital ci)))
                         + Z.to_nat nr)))) by (subst K; lia).
      congruence. }
    apply nth_error_Some in Hsome. subst K. lia.
  - rewrite (getitem_ext l1 l2 0) by (apply Hext; subst K; lia).
    rewrite E0. cbn [bind]. rewrite Efi. cbn [bind].
    rewrite (getitem_ext l1 l2 1) by (apply Hext; subst K; lia).
    rewrite E1. cbn [bind]. rewrite Eci. cbn [bind].
    rewrite (read_block_ext AnalogInfo.init l1 l2)
      by (intros j Hj; apply Hext; subst K; lia).
    rewrite Ea. cbn [bind].
    rewrite (read_block_ext DigitalInfo.init l1 l2)
      by (intros j Hj; apply Hext; subst K; lia).
    rewrite Ed. cbn [bind].
    rewrite (getitem_ext l1 l2) by (apply Hext; subst K; lia).
    rewrite Esf. cbn [bind]. rewrite Efr. cbn [bind].
    rewrite (getitem_ext l1 l2) by (apply Hext; subst K; lia).
    rewrite Esn. cbn [bind]. rewrite Enr. cbn [bind].
    rewrite (read_block_ext SampleInfo.init l1 l2)
      by (intros j Hj; apply Hext; subst K; lia).
    rewrite Es. cbn [bind].
    rewrite (getitem_ext l1 l2) by (apply Hext; subst K; lia).
    rewrite Est. cbn [bind]. rewrite Estt. cbn [bind].
    rewrite (getitem_ext l1 l2) by (apply Hext; subst K; lia).
    rewrite Etr. cbn [bind]. rewrite Etrt. cbn [bind].
    rewrite (getitem_ext l1 l2) by (apply Hext; subst K; lia).
    rewrite Esd. cbn [bind].
    rewrite (getitem_ext l1 l2) by (apply Hext; subst K; lia).
    rewrite Esm. cbn [bind]. rewrite Etm. reflexivity.
Qed.

(** A configuration that parses has at least
    [2 + analog + digital + 2 + nrates + 4] lines (the last one being the
    time multiplier), and every line after those is ignored: appending
    lines to the file, or cutting it after the time multiplier, leaves the
    document unchanged. *)
Theorem parse_line_budget (infoStrs : list string) (d : ComtradeConfig.doc) :
  ComtradeConfig._parse infoStrs = Return d ->
  (token_index d + 2 <= List.length infoStrs)%nat /\
  (forall extra, ComtradeConfig._parse (infoStrs ++ extra) = Return d) /\
  ComtradeConfig._parse (firstn (token_index d + 2) infoStrs) = Return d.
Proof.
  intros H.
  assert (Hlen : (token_index d + 2 <= List.length infoStrs)%nat).
  { apply (parse_ext infoStrs infoStrs d H). reflexivity. }
  split; [exact Hlen|]. split.
  - intros extra. apply (parse_ext infoStrs _ d H).
    intros i Hi. apply nth_error_app1. lia.
  - apply (parse_ext infoStrs _ d H).
    intros i Hi. rewrite nth_error_firstn.
    destruct (Nat.ltb_spec i (token_index d + 2)); [reflexivity | lia].
Qed.

Lemma parse_line_budget_witness :
  (token_index (Scenario.doc_of Scenario.config) + 2 <=
   List.length (ComtradeConfig._removeNextline (read_text_lines Scenario.cfg)))%nat /\
  (forall extra,
      ComtradeConfig._parse
        (ComtradeConfig._removeNextline (read_text_lines Scenario.cfg) ++ extra) =
      Return (Scenario.doc_of Scenario.config)) /\
  ComtradeConfig._parse
    (firstn (token_index (Scenario.doc_of Scenario.config) + 2)
       (ComtradeConfig._removeNextline (read_text_lines Scenario.cfg))) =
  Return (Scenario.doc_of Scenario.config).
Proof.
  apply (parse_line_budget
           (ComtradeConfig._removeNextline (read_text_lines Scenario.cfg))
           (Scenario.doc_of Scenario.config)).
  vm_compute. reflexivity.
Defined.

(** ** The fields a line needs *)

Lemma replace_char_app (c : ascii) (s1 s2 : string) :
  Str.replace (String c "") "" (s1 ++ s2) =
  (Str.replace (String c "") "" s1 ++ Str.replace (String c "") "" s2)%string.
Proof.
  unfold Str.replace. induction s1 as [|x s1 IH]; [reflexivity|].
  cbn [append Str.replace_from prefix String.length Nat.pred].
  destruct (ascii_dec c x) as [_|_].
  - assert (Hp : forall s, prefix "" s = true) by (intros []; reflexivity).
    rewrite !Hp. cbn [append]. exact IH.
  - cbn [append]. f_equal. exact IH.
Qed.

Lemma split_nonempty (sep : ascii) (s : string) : Str.split sep s <> [].
Proof.
  destruct s as [|x s]; cbn [Str.split]; [discriminate|].
  destruct (Ascii.eqb x sep); [discriminate|].
  destruct (Str.split sep s); discriminate.
Qed.

Lemma split_app (sep : ascii) (s1 s2 : string) :
  Str.split sep (s1 ++ String sep s2) = Str.split sep s1 ++ Str.split sep s2.
Proof.
  induction s1 as [|x s1 IH]; cbn [append Str.split].
  - rewrite Ascii.eqb_refl. reflexivity.
  - destruct (Ascii.eqb x sep); [rewrite IH; reflexivity|].
    rewrite IH. pose proof (split_nonempty sep s1) as Hne.
    destruct (Str.split sep s1); [congruence | reflexivity].
Qed.

Lemma fields_app (line extra : string) :
  fields (line ++ String comma extra) = fields line ++ fields extra.
Proof.
  unfold fields, stripped. rewrite replace_char_app.
  assert (Hc : Str.replace (String Str.LF "") "" (String comma extra) =
               String comma (Str.replace (String Str.LF "") "" extra)).
  { reflexivity. }
  rewrite Hc. apply split_app.
Qed.

Lemma getitem_app {A : Type} (l l' : list A) (i : nat) (x : A) :
  getitem l i = Return x -> getitem (l ++ l') i = Return x.
Proof.
  intros H. apply getitem_Return in H. apply getitem_Return.
  rewrite nth_error_app1; [exact H|]. apply nth_error_Some. congruence.
Qed.

Lemma getitem_length {A : Type} (l : list A) (i : nat) (x : A) :
  getitem l i = Return x -> (i < List.length l)%nat.
Proof.
  intros H. apply getitem_Return in H. apply nth_error_Some. congruence.
Qed.

(** Replays a successful run of a field parser on the same line with
    more fields. *)
Ltac replay line :=
  repeat match goal with
         | H : getitem (fields line) ?i = Return _
           |- context [getitem (fields line ++ _) ?i] =>
             rewrite (getitem_app _ _ _ _ H); cbn [bind]
         | H : ?m = Return _ |- context [bind ?m _] =>
             rewrite H; cbn [bind]
         end.

(** Every field parser returns only on a line with at least the fields
    it reads (13 for an analog channel, 5 for a digital channel, 3 for
    the file identity and for the layout, 2 for a segment and for a time
    stamp), and reads no field after those: on the line with more fields
    it sets every parsed attribute to the same value.  The descriptors
    and the time stamp also keep the line itself in [str], which then is
    the longer line. *)
Theorem field_budget (line extra : string) :
  (forall v, AnalogInfo.init line = Return v ->
             (13 <= List.length (fields line))%nat /\
             AnalogInfo.str v = stripped line /\
             AnalogInfo.init (line ++ String comma extra) =
             Return (analog_with_str v
                       (stripped (line ++ String comma extra)))) /\
  (forall v, DigitalInfo.init line = Return v ->
             (5 <= List.length (fields line))%nat /\
             DigitalInfo.str v = stripped line /\
             DigitalInfo.init (line ++ String comma extra) =
             Return (digital_with_str v
                       (stripped (line ++ String comma extra)))) /\
  (forall v, FileInfo.init line = Return v ->
             (3 <= List.length (fields line))%nat /\
             FileInfo.init (line ++ String comma extra) = Return v) /\
  (forall v, ChannelInfo.init line = Return v ->
             (3 <= List.length (fields line))%nat /\
             ChannelInfo.init (line ++ String comma extra) = Return v) /\
  (forall v, SampleInfo.init line = Return v ->
             (2 <= List.length (fields line))%nat /\
             SampleInfo.init (line ++ String comma extra) = Return v) /\
  (forall v, TimeStamp.init line = Return v ->
             (2 <= List.length (fields line))%nat /\
             TimeStamp.str v = stripped line /\
             TimeStamp.init (line ++ String comma extra) =
             Return (timestamp_with_str v
                       (stripped (line ++ String comma extra)))).
Proof.
  split; [|split; [|split; [|split; [|split]]]]; intros v H.
  - split; [|split].
    + unfold AnalogInfo.init in H. inv_binds H.
      match goal with
      | E : getitem (fields line) 12 = Return _ |- _ =>
          apply getitem_length in E; lia
      end.
    + unfold AnalogInfo.init in H. cbv zeta in H. inv_binds H.
      inversion H; reflexivity.
    + unfold AnalogInfo.init in *. rewrite fields_app. cbv zeta in *.
      inv_binds H. replay line. inversion H; reflexivity.
  - split; [|split].
    + unfold DigitalInfo.init in H. inv_binds H.
      match goal with
      | E : getitem (fields line) 4 = Return _ |- _ =>
          apply getitem_length in E; lia
      end.
    + unfold DigitalInfo.init in H. cbv zeta in H. inv_binds H.
      inversion H; reflexivity.
    + unfold DigitalInfo.init in *. rewrite fields_app. cbv zeta in *.
      inv_binds H. replay line. inversion H; reflexivity.
  - split.
    + unfold FileInfo.init in H. inv_binds H.
      match goal with
      | E : getitem (fields line) 2 = Return _ |- _ =>
          apply getitem_length in E; lia
      end.
    + unfold FileInfo.init in *. rewrite fields_app. cbv zeta in *.
      inv_binds H. replay line. exact H.
  - split.
    + unfold ChannelInfo.init in H. inv_binds H.
      match goal with
      | E : getitem (fields line) 2 = Return _ |- _ =>
          apply getitem_length in E; lia
      end.
    + unfold ChannelInfo.init in *. rewrite fields_app. cbv zeta in *.
      inv_binds H. replay line. exact H.
  - split.
    + unfold SampleInfo.init in H. inv_binds H.
      match goal with
      | E : getitem (fields line) 1 = Return _ |- _ =>
          apply getitem_length in E; lia
      end.
    + unfold SampleInfo.init in *. rewrite fields_app. cbv zeta in *.
      inv_binds H. replay line. exact H.
  - split; [|split].
    + unfold TimeStamp.init in H. cbv zeta in H. inv_binds H.
      match goal with
      | E : getitem (fields line) 1 = Return _ |- _ =>
          apply getitem_length in E; lia
      end.
    + unfold TimeStamp.init in H. cbv zeta in H. inv_binds H.
      inversion H; reflexivity.
    + unfold TimeStamp.init in *. rewrite fields_app. cbv zeta in *.
      inv_binds H. replay line. inversion H; reflexivity.
Qed.

Lemma field_budget_witness :
  (13 <= List.length (fields "1,UA,A,,V,0.5,1,0,-32767,32767,1,1,P"))%nat /\
  AnalogInfo.str
    (AnalogInfo.mk "1,UA,A,,V,0.5,1,0,-32767,32767,1,1,P"
       1 "UA" "A" "" "V" 0.5 1 0 (-32767) 32767 1 1 "P" []) =
  stripped "1,UA,A,,V,0.5,1,0,-32767,32767,1,1,P" /\
  AnalogInfo.init
    ("1,UA,A,,V,0.5,1,0,-32767,32767,1,1,P" ++ String comma "more,fields") =
  Return (analog_with_str
            (AnalogInfo.mk "1,UA,A,,V,0.5,1,0,-32767,32767,1,1,P"
               1 "UA" "A" "" "V" 0.5 1 0 (-32767) 32767 1 1 "P" [])
            (stripped ("1,UA,A,,V,0.5,1,0,-32767,32767,1,1,P"
                       ++ String comma "more,fields"))).
Proof.
  apply (proj1 (field_budget "1,UA,A,,V,0.5,1,0,-32767,32767,1,1,P"
                  "more,fields")).
  vm_compute. reflexivity.
Defined.

(** ** The two names of a recording *)

Lemma append_empty_r (s : string) : (s ++ "")%string = s.
Proof. induction s as [|c s IH]; simpl; congruence. Qed.

Lemma prefix_other_head (c x : ascii) (p s : string) :
  x <> c -> prefix (String c p) (String x s) = false.
Proof.
  intros H. cbn [prefix]. destruct (ascii_dec c x) as [E|_]; [|reflexivity].
  exfalso. apply H. symmetry. exact E.
Qed.

Lemma no_dot_head (c : ascii) (base : string) :
  Str.contains "." (String c base) = false ->
  c <> "."%char /\ Str.contains "." base = false.
Proof.
  intros H. cbn [Str.contains] in H. apply orb_false_elim in H.
  destruct H as [Hc Hrest]. split; [|exact Hrest].
  intros ->. cbn [prefix] in Hc.
  destruct (ascii_dec "."%char "."%char) as [_|Hn];
    [destruct base; discriminate Hc | apply Hn; reflexivity].
Qed.

(** Scanning a string with no dot for a pattern that starts with a dot
    finds nothing before the suffix. *)
Lemma no_dot_scan (p suffix base : string) :
  Str.contains "." base = false ->
  Str.contains (String "."%char p) (base ++ suffix) =
  Str.contains (String "."%char p) suffix /\
  Str.replace (String "."%char p) "" (base ++ suffix) =
  (base ++ Str.replace (String "."%char p) "" suffix)%string.
Proof.
  unfold Str.replace. induction base as [|c base IH]; intros H.
  - split; reflexivity.
  - destruct (no_dot_head _ _ H) as (Hc & Hrest).
    destruct (IH Hrest) as (IH1 & IH2).
    cbn [append Str.contains Str.replace_from].
    rewrite (prefix_other_head "."%char c p _ Hc). cbn [orb].
    split; [exact IH1 | f_equal; exact IH2].
Qed.

(** For a base name with no dot, the [.cfg] name and the [.dat] name of a
    recording build the same session; it reads [base.cfg], and looks for
    the samples in [base.dat]. *)
Theorem either_file_name (files : filesystem) (base : string) :
  Str.contains "." base = false ->
  ComtradeParser.init files (base ++ ".cfg") =
  ComtradeParser.init files (base ++ ".dat") /\
  forall p s,
    ComtradeParser.init files (base ++ ".dat") = Return p ->
    ComtradeParser.body p = Some s ->
    ComtradeParser.path s = base /\
    ComtradeConfig.path (ComtradeParser.config s) = (base ++ ".cfg")%string /\
    ComtradeData.path (ComtradeParser.dat s) = (base ++ ".dat")%string.
Proof.
  intros Hb.
  destruct (no_dot_scan "cfg" ".cfg" base Hb) as (Hc1 & Hr1).
  destruct (no_dot_scan "cfg" ".dat" base Hb) as (Hc2 & _).
  destruct (no_dot_scan "dat" ".dat" base Hb) as (Hc3 & Hr3).
  assert (Hk1 : Str.contains ".cfg" ".cfg" = true) by (vm_compute; reflexivity).
  assert (Hk2 : Str.contains ".cfg" ".dat" = false) by (vm_compute; reflexivity).
  assert (Hk3 : Str.contains ".dat" ".dat" = true) by (vm_compute; reflexivity).
  assert (Hk4 : Str.replace ".cfg" "" ".cfg" = "") by (vm_compute; reflexivity).
  assert (Hk5 : Str.replace ".dat" "" ".dat" = "") by (vm_compute; reflexivity).
  assert (Hcfg : ComtradeParser.init files (base ++ ".cfg") =
                 ComtradeParser.load files base).
  { unfold ComtradeParser.init. rewrite Hc1, Hk1. cbn [negb].
    rewrite Hr1, Hk4, append_empty_r. reflexivity. }
  assert (Hdat : ComtradeParser.init files (base ++ ".dat") =
                 ComtradeParser.load files base).
  { unfold ComtradeParser.init. rewrite Hc2, Hk2. cbn [negb].
    rewrite Hc3, Hk3. cbn [negb].
    rewrite Hr3, Hk5, append_empty_r. reflexivity. }
  split; [congruence|].
  intros p s Hinit Hbody. rewrite Hdat in Hinit.
  unfold ComtradeParser.load in Hinit.
  inv_bind Hinit as config Ec. inv_bind Hinit as pr Ed.
  destruct pr as [dat config'].
  inv_bind Hinit as tv Et. inv_bind Hinit as si Esi. inv_bind Hinit as first Ef.
  inversion Hinit; subst p; clear Hinit. simpl in Hbody.
  inversion Hbody; subst s; clear Hbody. simpl.
  assert (Hpath : ComtradeConfig.path config = (base ++ ".cfg")%string).
  { destruct (config_init_inv _ _ _ Ec) as [(_ & ->)|(c0 & d & _ & _ & ->)];
      reflexivity. }
  assert (Hdp : ComtradeData.dat_path config = (base ++ ".dat")%string).
  { unfold ComtradeData.dat_path. rewrite Hpath.
    change (base ++ ".cfg")%string with (base ++ String "."%char "cfg")%string.
    rewrite split_dot_head by exact Hb. reflexivity. }
  split; [reflexivity|].
  destruct (data_init_cases _ _ _ _ Ed)
    as [(Hn & -> & ->)|[(Hp & -> & Hf & ->)|(Hp & Hp' & Hres)]]; simpl.
  - auto.
  - auto.
  - destruct (data_init_parsed _ _ _ _ Ed Hres)
      as (c0 & d & f0 & dT & st & _ & _ & _ & _ & _ & _ & -> & ->).
    simpl. auto.
Qed.

Lemma either_file_name_witness :
  ComtradeParser.init Scenario.files ("rec" ++ ".cfg") =
  ComtradeParser.init Scenario.files ("rec" ++ ".dat") /\
  forall p s,
    ComtradeParser.init Scenario.files ("rec" ++ ".dat") = Return p ->
    ComtradeParser.body p = Some s ->
    ComtradeParser.path s = "rec" /\
    ComtradeConfig.path (ComtradeParser.config s) = ("rec" ++ ".cfg")%string /\
    ComtradeData.path (ComtradeParser.dat s) = ("rec" ++ ".dat")%string.
Proof.
  apply (either_file_name Scenario.files "rec"). reflexivity.
Defined.

(** ** Decoding the same configuration object again *)

Lemma Forall2_functional {A B : Type} (P : A -> B -> Prop) (l : list A) :
  (forall x y z, P x y -> P x z -> y = z) ->
  forall l1 l2, Forall2 P l l1 -> Forall2 P l l2 -> l1 = l2.
Proof.
  intros Hf. induction l as [|x l IH]; intros l1 l2 H1 H2;
    inversion H1; subst; inversion H2; subst; [reflexivity|].
  f_equal; [eapply Hf; eauto | apply IH; assumption].
Qed.

Lemma analog_trace_functional (data : list ascii) (unitSize : Z)
  (ai : AnalogInfo.t) (ch : Z) (samples : list Z) (v1 v2 : list float) :
  analog_trace data unitSize ai ch samples v1 ->
  analog_trace data unitSize ai ch samples v2 -> v1 = v2.
Proof.
  apply Forall2_functional.
  intros i x y (r1 & Hr1 & Hv1) (r2 & Hr2 & Hv2). congruence.
Qed.

Lemma digital_trace_functional (data : list ascii) (unitSize abl : Z)
  (di : DigitalInfo.t) (ch : Z) (samples : list Z) (v1 v2 : list Z) :
  digital_trace data unitSize abl di ch samples v1 ->
  digital_trace data unitSize abl di ch samples v2 -> v1 = v2.
Proof.
  apply Forall2_functional.
  intros i x y (r1 & Hr1 & Hv1) (r2 & Hr2 & Hv2). congruence.
Qed.

Lemma map_setitem {A B : Type} (f : A -> B) (l : list A) (i : nat) (a : A) :
  map f (setitem l i a) = setitem (map f l) i (f a).
Proof.
  revert i. induction l as [|x l IH]; intros [|i]; simpl; try reflexivity.
  f_equal. apply IH.
Qed.

Lemma for_each_inv {A S : Type} (Inv : S -> Prop) (xs : list A)
  (body : A -> S -> res S) :
  (forall x s s', In x xs -> Inv s -> body x s = Return s' -> Inv s') ->
  forall s s', Inv s -> for_each xs body s = Return s' -> Inv s'.
Proof.
  induction xs as [|x xs IH]; intros Hstep s s' Hs H; simpl in H.
  - inversion H; subst. exact Hs.
  - inv_bind H as s1 E. eapply IH; [| |exact H].
    + intros y t t' Hy. apply Hstep. right. exact Hy.
    + eapply Hstep; [left; reflexivity | exact Hs | exact E].
Qed.

Lemma setitem_nth_same {A : Type} (l : list A) (i : nat) (x : A) :
  nth_error l i = Some x -> setitem l i x = l.
Proof.
  revert i. induction l as [|y l IH]; intros [|i] H; simpl in *;
    try discriminate.
  - inversion H; subst. reflexivity.
  - f_equal. apply IH. exact H.
Qed.

Lemma for_each_again {A S : Type} (R : S -> S -> Prop) (xs : list A)
  (body : A -> S -> res S) :
  (forall x s1 s1' s2,
      body x s1 = Return s1' -> R s1 s2 ->
      exists s2', body x s2 = Return s2' /\ R s1' s2') ->
  forall s1 s1' s2,
    for_each xs body s1 = Return s1' -> R s1 s2 ->
    exists s2', for_each xs body s2 = Return s2' /\ R s1' s2'.
Proof.
  intros Hstep. induction xs as [|x xs IH]; intros s1 s1' s2 H HR; simpl in *.
  - inversion H; subst. eauto.
  - inv_bind H as t1 E.
    destruct (Hstep _ _ _ _ E HR) as (t2 & E2 & HR2).
    rewrite E2. cbn [bind]. eapply IH; eauto.
Qed.

Lemma same_layout_refl (st : ComtradeData.buffers) : same_layout st st.
Proof. split; reflexivity. Qed.

Lemma same_layout_trans (st1 st2 st3 : ComtradeData.buffers) :
  same_layout st1 st2 -> same_layout st2 st3 -> same_layout st1 st3.
Proof. intros [H1 H2] [H3 H4]. split; congruence. Qed.

Section SampleLoopAgain.

Variable data : list ascii.
Variables unitSize analogChNum digitalChNum analogBytesLen : Z.

Lemma analog_step_layout (idx ch : Z) (st st' : ComtradeData.buffers) :
  ComtradeData.analog_step data idx ch st = Return st' -> same_layout st st'.
Proof.
  unfold ComtradeData.analog_step. intros H.
  inv_bind H as raw Er. inv_bind H as info Ei. inv_bind H as info' Ea.
  inversion H; subst st'. split; simpl; [|reflexivity].
  rewrite setitem_length. reflexivity.
Qed.

Lemma digital_step_layout (idx ch : Z) (st st' : ComtradeData.buffers) :
  ComtradeData.digital_step data idx ch st = Return st' -> same_layout st st'.
Proof.
  unfold ComtradeData.digital_step. intros H.
  inv_bind H as raw Er. inv_bind H as info Ei. inv_bind H as info' Ea.
  inversion H; subst st'. split; simpl; [reflexivity|].
  destruct (digital_append _ _ _ Ea) as (v & _ & ->).
  apply getitem_Return in Ei. rewrite map_setitem. symmetry.
  apply setitem_nth_same. rewrite nth_error_map, Ei. reflexivity.
Qed.

Lemma analog_step_again (idx ch : Z) (s1 s1' s2 : ComtradeData.buffers) :
  ComtradeData.analog_step data idx ch s1 = Return s1' ->
  same_layout s1 s2 ->
  exists s2', ComtradeData.analog_step data idx ch s2 = Return s2' /\
              same_layout s1' s2'.
Proof.
  intros H HR. pose proof (analog_step_layout _ _ _ _ H) as HL.
  unfold ComtradeData.analog_step in *.
  inv_bind H as raw Er. inv_bind H as info Ei. inv_bind H as info' Ea.
  rewrite Er. cbn [bind].
  pose proof (getitem_length _ _ _ Ei) as Hlt.
  destruct HR as [Hlen Hnum]. rewrite Hlen in Hlt.
  unfold getitem. destruct (nth_error (fst s2) (Z.to_nat ch)) as [info2|] eqn:E2.
  2:{ apply nth_error_None in E2. lia. }
  cbn [bind].
  destruct (analog_append _ _ _ Ea) as (v & Hv & _).
  unfold AnalogInfo.value in Hv. inv_bind Hv as r Hr.
  unfold AnalogInfo.appendData, AnalogInfo.value. rewrite Hr. cbn [bind].
  eexists. split; [reflexivity|].
  apply same_layout_trans with s1.
  - destruct HL as [L1 L2]. split; congruence.
  - split; simpl; [|exact Hnum]. rewrite setitem_length. exact Hlen.
Qed.

Lemma digital_step_again (idx ch : Z) (s1 s1' s2 : ComtradeData.buffers) :
  ComtradeData.digital_step data idx ch s1 = Return s1' ->
  same_layout s1 s2 ->
  exists s2', ComtradeData.digital_step data idx ch s2 = Return s2' /\
              same_layout s1' s2'.
Proof.
  intros H HR. pose proof (digital_step_layout _ _ _ _ H) as HL.
  unfold ComtradeData.digital_step in *.
  inv_bind H as raw Er. inv_bind H as info Ei. inv_bind H as info' Ea.
  rewrite Er. cbn [bind].
  destruct HR as [Hlen Hnum].
  apply getitem_Return in Ei.
  assert (Hn : nth_error (map DigitalInfo.num (snd s2)) (Z.to_nat ch) =
               Some (DigitalInfo.num info)).
  { rewrite <- Hnum, nth_error_map, Ei. reflexivity. }
  rewrite nth_error_map in Hn.
  unfold getitem. destruct (nth_error (snd s2) (Z.to_nat ch)) as [info2|] eqn:E2;
    [|discriminate Hn].
  simpl in Hn. inversion Hn as [Hsame]. cbn [bind].
  destruct (digital_append _ _ _ Ea) as (v & Hv & _).
  unfold DigitalInfo.value in Hv. inv_bind Hv as mask Hm.
  unfold DigitalInfo.appendData, DigitalInfo.value. rewrite Hsame, Hm.
  cbn [bind]. eexists. split; [reflexivity|].
  apply same_layout_trans with s1.
  - destruct HL as [L1 L2]. split; congruence.
  - split; simpl; [exact Hlen|].
    rewrite map_setitem. symmetry.
    rewrite Hnum. apply setitem_nth_same.
    rewrite nth_error_map, E2. reflexivity.
Qed.

Lemma sample_step_again (i : Z) (s1 s1' s2 : ComtradeData.buffers) :
  ComtradeData.sample_step data unitSize analogChNum digitalChNum
    analogBytesLen i s1 = Return s1' ->
  same_layout s1 s2 ->
  exists s2',
    ComtradeData.sample_step data unitSize analogChNum digitalChNum
      analogBytesLen i s2 = Return s2' /\
    same_layout s1' s2'.
Proof.
  unfold ComtradeData.sample_step. intros H HR. inv_bind H as t1 E.
  destruct (for_each_again same_layout (range analogChNum)
              (ComtradeData.analog_step data (i * unitSize + 8))
              (analog_step_again (i * unitSize + 8)) _ _ _ E HR)
    as (t2 & E2 & HR2).
  rewrite E2. cbn [bind].
  exact (for_each_again same_layout (range digitalChNum)
           (ComtradeData.digital_step data
              (i * unitSize + 8 + analogBytesLen))
           (digital_step_again (i * unitSize + 8 + analogBytesLen))
           _ _ _ H HR2).
Qed.

Lemma sample_step_layout (i : Z) (st st' : ComtradeData.buffers) :
  ComtradeData.sample_step data unitSize analogChNum digitalChNum
    analogBytesLen i st = Return st' ->
  same_layout st st'.
Proof.
  unfold ComtradeData.sample_step. intros H. inv_bind H as t1 E.
  apply same_layout_trans with t1.
  - eapply (for_each_inv (same_layout st)); [| apply same_layout_refl | exact E].
    intros ch s s' _ Hs Hstep. eapply same_layout_trans; [exact Hs|].
    eapply analog_step_layout; eauto.
  - eapply (for_each_inv (same_layout t1)); [| apply same_layout_refl | exact H].
    intros ch s s' _ Hs Hstep. eapply same_layout_trans; [exact Hs|].
    eapply digital_step_layout; eauto.
Qed.

(** A run of the sample loop that returned returns again from the state
    it left. *)
Lemma samples_loop_again (samples : list Z) (st st' : ComtradeData.buffers) :
  for_each samples
    (ComtradeData.sample_step data unitSize analogChNum digitalChNum
       analogBytesLen) st = Return st' ->
  exists st'',
    for_each samples
      (ComtradeData.sample_step data unitSize analogChNum digitalChNum
         analogBytesLen) st' = Return st''.
Proof.
  intros H.
  assert (HL : same_layout st st').
  { eapply (for_each_inv (same_layout st)); [| apply same_layout_refl | exact H].
    intros i s s' _ Hs Hstep. eapply same_layout_trans; [exact Hs|].
    eapply sample_step_layout; eauto. }
  destruct (for_each_again same_layout samples
              (ComtradeData.sample_step data unitSize analogChNum
                 digitalChNum analogBytesLen)
              sample_step_again _ _ _ H HL) as (st'' & E & _).
  eauto.
Qed.

End SampleLoopAgain.

(** The decoder's constructor returns again on the configuration object
    a successful run left. *)
Lemma data_init_again (fs : filesystem) (config c1 : ComtradeConfig.t)
  (dat1 : ComtradeData.obj) :
  ComtradeData.init fs config = Return (dat1, c1) ->
  ComtradeData.result dat1 = "parsed" ->
  exists dat2 c2,
    ComtradeData.init fs c1 = Return (dat2, c2) /\
    ComtradeData.result dat2 = "parsed".
Proof.
  intros H1 Hres1.
  destruct (data_init_parsed _ _ _ _ H1 Hres1)
    as (content & d & first & dT & st & Hp & Hf & Hb & Hfirst & HdT & Hloop
        & _ & ->).
  destruct (samples_loop_again _ _ _ _ _ _ _ _ Hloop) as (st2 & Hloop2).
  unfold ComtradeData.init, ComtradeConfig.attr.
  change (ComtradeData.dat_path (ComtradeData.store config d st))
    with (ComtradeData.dat_path config).
  unfold ComtradeData.store at 1 2 3 4 5.
  cbn [ComtradeConfig.result ComtradeConfig.body ComtradeConfig.channelInfo
       ComtradeConfig.sampleInfo ComtradeConfig.analogInfo
       ComtradeConfig.digitalInfo bind].
  apply String.eqb_eq in Hp. rewrite Hp, Hf. cbn [negb bind].
  unfold getitem. rewrite Hfirst. cbn [bind]. rewrite HdT. cbn [bind].
  destruct st as [ais dis]. unfold stride in Hloop2. cbn [fst snd] in *.
  rewrite Hloop2. cbn [bind]. destruct st2 as [ais2 dis2].
  eexists. eexists. split; reflexivity.
Qed.

(** The decoder appends to the buffers it finds and does not reset
    them: run a second time on the configuration object a first run
    left, it returns again, having read the same values and appended
    them again, so every buffer then holds each sample twice (and the
    mappings no longer match the time vector in length). *)
Theorem decoding_twice_appends (fs : filesystem)
  (config c1 : ComtradeConfig.t) (dat1 : ComtradeData.obj)
  (d : ComtradeConfig.doc) (dec1 : ComtradeData.decoded) :
  ComtradeData.init fs config = Return (dat1, c1) ->
  ComtradeData.result dat1 = "parsed" ->
  ComtradeConfig.body config = Some d ->
  ComtradeData.body dat1 = Some dec1 ->
  exists dat2 c2 d2,
    ComtradeData.init fs c1 = Return (dat2, c2) /\
    ComtradeData.result dat2 = "parsed" /\
    ComtradeConfig.body c2 = Some d2 /\
    (forall j ai,
        (j < Z.to_nat (ChannelInfo.analog (ComtradeConfig.channelInfo d)))%nat ->
        nth_error (ComtradeConfig.analogInfo d) j = Some ai ->
        exists vals,
          List.length vals = Z.to_nat (ComtradeData.sampleCount dec1) /\
          nth_error (ComtradeConfig.analogInfo d2) j =
          Some (AnalogInfo.with_data ai (AnalogInfo._data ai ++ vals ++ vals))) /\
    (forall j di,
        (j < Z.to_nat (ChannelInfo.digital (ComtradeConfig.channelInfo d)))%nat ->
        nth_error (ComtradeConfig.digitalInfo d) j = Some di ->
        exists vals,
          List.length vals = Z.to_nat (ComtradeData.sampleCount dec1) /\
          nth_error (ComtradeConfig.digitalInfo d2) j =
          Some (DigitalInfo.with_data di
                  (DigitalInfo._data di ++ vals ++ vals))).
Proof.
  intros H1 Hres1 Hb Hdec1.
  destruct (data_init_again _ _ _ _ H1 Hres1) as (dat2 & c2 & H2 & Hres2).
  destruct (data_init_parsed _ _ _ _ H1 Hres1)
    as (content & d0 & first & dT & st & Hp & Hf & Hb0 & Hfirst & _ & _ & _
        & Hc1).
  rewrite Hb in Hb0. inversion Hb0; subst d0; clear Hb0.
  assert (Hpath : ComtradeData.dat_path c1 = ComtradeData.dat_path config).
  { rewrite Hc1. reflexivity. }
  destruct (data_init_decodes _ _ _ _ H1 Hres1)
    as (ct1 & da & d1 & dc1 & Hf1 & Hp1 & _ & Hba & Hb1 & Hdc1 & D1).
  rewrite Hb in Hba. inversion Hba; subst da; clear Hba.
  rewrite Hdec1 in Hdc1. inversion Hdc1; subst dc1; clear Hdc1.
  destruct (data_init_decodes _ _ _ _ H2 Hres2)
    as (ct2 & db & d2 & dc2 & Hf2 & Hp2 & _ & Hbb & Hb2 & Hdc2 & D2).
  rewrite Hb1 in Hbb. inversion Hbb; subst db; clear Hbb.
  exists dat2, c2, d2.
  split; [exact H2|]. split; [exact Hres2|]. split; [exact Hb2|].
  assert (Hct : ct2 = ct1).
  { rewrite Hp2, Hpath, <- Hp1 in Hf2. congruence. }
  subst ct2.
  assert (Hstride : stride d1 = stride d).
  { unfold stride. rewrite (dc_channel _ _ _ _ D1). reflexivity. }
  assert (Hcount : ComtradeData.sampleCount dc2 = ComtradeData.sampleCount dec1).
  { destruct (dc_first _ _ _ _ D1) as (f1 & Hf1' & Hn1 & _).
    destruct (dc_first _ _ _ _ D2) as (f2 & Hf2' & Hn2 & _).
    rewrite (dc_sample _ _ _ _ D1) in Hf2'. congruence. }
  split.
  - intros j ai Hj Hai.
    destruct (dc_analog _ _ _ _ D1 j ai Hj Hai) as (v1 & Hn1 & Ht1).
    destruct (dc_analog _ _ _ _ D2 j _
                ltac:(rewrite (dc_channel _ _ _ _ D1); exact Hj) Hn1)
      as (v2 & Hn2 & Ht2).
    rewrite Hstride, Hcount in Ht2.
    change (analog_trace (Str.to_list ct1) (stride d) ai (Z.of_nat j)
              (range (ComtradeData.sampleCount dec1)) v2) in Ht2.
    assert (v2 = v1) by (eapply analog_trace_functional; eauto). subst v2.
    exists v1. split.
    + rewrite <- (Forall2_length_eq _ _ _ Ht1). apply range_length.
    + rewrite Hn2. f_equal. unfold AnalogInfo.with_data. simpl.
      rewrite <- app_assoc. reflexivity.
  - intros j di Hj Hdi.
    destruct (dc_digital _ _ _ _ D1 j di Hj Hdi) as (v1 & Hn1 & Ht1).
    destruct (dc_digital _ _ _ _ D2 j _
                ltac:(rewrite (dc_channel _ _ _ _ D1); exact Hj) Hn1)
      as (v2 & Hn2 & Ht2).
    rewrite Hstride, Hcount, (dc_channel _ _ _ _ D1) in Ht2.
    change (digital_trace (Str.to_list ct1) (stride d)
              (2 * ChannelInfo.analog (ComtradeConfig.channelInfo d)) di
              (Z.of_nat j) (range (ComtradeData.sampleCount dec1)) v2) in Ht2.
    assert (v2 = v1) by (eapply digital_trace_functional; eauto). subst v2.
    exists v1. split.
    + rewrite <- (Forall2_length_eq _ _ _ Ht1). apply range_length.
    + rewrite Hn2. f_equal. unfold DigitalInfo.with_data. simpl.
      rewrite <- app_assoc. reflexivity.
Qed.

Lemma decoding_twice_appends_witness :
  exists dat2 c2 d2,
    ComtradeData.init Scenario.files (snd Scenario.decoded) =
    Return (dat2, c2) /\
    ComtradeData.result dat2 = "parsed" /\
    ComtradeConfig.body c2 = Some d2 /\
    (forall j ai,
        (j < Z.to_nat (ChannelInfo.analog
                         (ComtradeConfig.channelInfo
                            (Scenario.doc_of Scenario.config))))%nat ->
        nth_error
          (ComtradeConfig.analogInfo (Scenario.doc_of Scenario.config)) j
        = Some ai ->
        exists vals,
          List.length vals = Z.to_nat (ComtradeData.sampleCount Scenario.dec) /\
          nth_error (ComtradeConfig.analogInfo d2) j =
          Some (AnalogInfo.with_data ai (AnalogInfo._data ai ++ vals ++ vals))) /\
    (forall j di,
        (j < Z.to_nat (ChannelInfo.digital
                         (ComtradeConfig.channelInfo
                            (Scenario.doc_of Scenario.config))))%nat ->
        nth_error
          (ComtradeConfig.digitalInfo (Scenario.doc_of Scenario.config)) j
        = Some di ->
        exists vals,
          List.length vals = Z.to_nat (ComtradeData.sampleCount Scenario.dec) /\
          nth_error (ComtradeConfig.digitalInfo d2) j =
          Some (DigitalInfo.with_data di
                  (DigitalInfo._data di ++ vals ++ vals))).
Proof.
  apply (decoding_twice_appends Scenario.files Scenario.config
           (snd Scenario.decoded) (fst Scenario.decoded)
           (Scenario.doc_of Scenario.config) Scenario.dec).
  - vm_compute. reflexivity.
  - vm_compute. reflexivity.
  - vm_compute. reflexivity.
  - vm_compute. reflexivity.
Defined.

(** ** A data file shorter than the configuration announces *)

Lemma read16_outcome (data : list ascii) (index : Z) :
  (exists raw, read16 data index = Return raw /\ -32768 <= raw <= 32767) \/
  read16 data index = Raise StructError.
Proof.
  unfold read16.
  destruct (slice data index (index + 2)) as [|a [|b [|c r]]] eqn:Hs;
    try (right; reflexivity).
  left. eexists. split; [reflexivity|].
  apply (unpack_h_range [a; b]). reflexivity.
Qed.

Lemma read16_short (data : list ascii) (index : Z) :
  0 <= index -> Z.of_nat (List.length data) < index + 2 ->
  read16 data index = Raise StructError.
Proof.
  intros H0 Hlen. unfold read16.
  assert (Hs : (List.length (slice data index (index + 2)) < 2)%nat).
  { unfold slice, slice_bound.
    destruct (Z.ltb_spec index 0) as [?|_]; [lia|].
    destruct (Z.ltb_spec (index + 2) 0) as [?|_]; [lia|].
    rewrite length_firstn, length_skipn. lia. }
  destruct (slice data index (index + 2)) as [|a [|b r]]; simpl in Hs;
    try reflexivity; lia.
Qed.

Section IndexedLoopOutcome.

Context {A R : Type}.
Variable read : Z -> res R.
Variable app : A -> R -> res A.
Variable P : A -> Prop.
Variable Q : R -> Prop.
Hypothesis app_ok :
  forall x raw, P x -> Q raw -> exists x', app x raw = Return x' /\ P x'.

Lemma channel_loop_outcome (k : nat) :
  forall (s : nat) (l : list A),
    (forall j, (s <= j < s + k)%nat ->
               (exists raw, read (Z.of_nat j) = Return raw /\ Q raw) \/
               read (Z.of_nat j) = Raise StructError) ->
    (s + k <= List.length l)%nat ->
    Forall P l ->
    (exists l',
        for_each (map Z.of_nat (seq s k)) (channel_step read app) l = Return l' /\
        List.length l' = List.length l /\ Forall P l') \/
    for_each (map Z.of_nat (seq s k)) (channel_step read app) l =
    Raise StructError.
Proof.
  induction k as [|k IH]; intros s l Hread Hlen HP; cbn [for_each map seq].
  - left. exists l. auto.
  - destruct (Hread s ltac:(lia)) as [(raw & Hr & HQ)|Hr].
    2:{ right. unfold channel_step at 1. rewrite Hr. reflexivity. }
    destruct (nth_error l s) as [x|] eqn:Hx.
    2:{ apply nth_error_None in Hx. lia. }
    assert (Px : P x).
    { rewrite Forall_forall in HP. apply HP. eapply nth_error_In; eauto. }
    destruct (app_ok x raw Px HQ) as (x' & Ha & Px').
    assert (Hstep : channel_step read app (Z.of_nat s) l =
                    Return (setitem l s x')).
    { unfold channel_step. rewrite Hr. cbn [bind].
      rewrite Nat2Z.id. unfold getitem. rewrite Hx. cbn [bind].
      rewrite Ha. reflexivity. }
    rewrite Hstep. cbn [bind].
    destruct (IH (S s) (setitem l s x')) as [(l' & Hl' & Hlen' & HP')|Hl'].
    + intros j Hj. apply Hread. lia.
    + rewrite setitem_length. lia.
    + apply Forall_setitem; assumption.
    + left. exists l'. rewrite setitem_length in Hlen'. auto.
    + right. exact Hl'.
Qed.

End IndexedLoopOutcome.

Section SampleLoopOutcome.

Variable data : list ascii.
Variables unitSize analogChNum digitalChNum analogBytesLen : Z.

Lemma sample_step_outcome (i : Z) (ais : list AnalogInfo.t)
  (dis : list DigitalInfo.t) :
  List.length ais = Z.to_nat analogChNum ->
  List.length dis = Z.to_nat digitalChNum ->
  Forall (fun di => 0 <= DigitalInfo.num di <= max_channel_number) dis ->
  (exists ais' dis',
      ComtradeData.sample_step data unitSize analogChNum digitalChNum
        analogBytesLen i (ais, dis) = Return (ais', dis') /\
      List.length ais' = List.length ais /\
      List.length dis' = List.length dis /\
      Forall (fun di => 0 <= DigitalInfo.num di <= max_channel_number) dis') \/
  ComtradeData.sample_step data unitSize analogChNum digitalChNum
    analogBytesLen i (ais, dis) = Raise StructError.
Proof.
  intros La Ld Hnum.
  unfold ComtradeData.sample_step.
  rewrite (for_each_fst _ _ _ (analog_step_channel data unitSize i)).
  destruct (channel_loop_outcome (analog_word data unitSize i)
              AnalogInfo.appendData (fun _ => True)
              (fun raw => -32768 <= raw <= 32767) analog_append_total
              (Z.to_nat analogChNum) 0 ais)
    as [(ais' & Ha & Hla & _)|Ha].
  { intros j _. apply read16_outcome. }
  { lia. }
  { apply Forall_forall. auto. }
  2:{ right. unfold range. rewrite Ha. reflexivity. }
  unfold range. rewrite Ha. cbn [bind].
  rewrite (for_each_snd _ _ _
             (digital_step_channel data unitSize analogBytesLen i)).
  destruct (channel_loop_outcome
              (digital_word data unitSize analogBytesLen i)
              DigitalInfo.appendData (fun di => 0 <= DigitalInfo.num di <= max_channel_number)
              (fun _ => True) digital_append_total
              (Z.to_nat digitalChNum) 0 dis)
    as [(dis' & Hd & Hld & Hnum')|Hd].
  { intros j _.
    destruct (read16_outcome data
                (Z.of_nat j / 16 * 2 + (i * unitSize + 8 + analogBytesLen)))
      as [(raw & Hr & _)|Hr]; [left; exists raw; split; [exact Hr | exact I]|].
    right. exact Hr. }
  { lia. }
  { exact Hnum. }
  - rewrite Hd. cbn [bind]. left. exists ais', dis'. auto.
  - right. rewrite Hd. reflexivity.
Qed.

Lemma samples_loop_outcome (k : nat) :
  forall (s : nat) (ais : list AnalogInfo.t) (dis : list DigitalInfo.t),
    List.length ais = Z.to_nat analogChNum ->
    List.length dis = Z.to_nat digitalChNum ->
    Forall (fun di => 0 <= DigitalInfo.num di <= max_channel_number) dis ->
    (exists st,
        for_each (map Z.of_nat (seq s k))
          (ComtradeData.sample_step data unitSize analogChNum digitalChNum
             analogBytesLen) (ais, dis) = Return st) \/
    for_each (map Z.of_nat (seq s k))
      (ComtradeData.sample_step data unitSize analogChNum digitalChNum
         analogBytesLen) (ais, dis) = Raise StructError.
Proof.
  induction k as [|k IH]; intros s ais dis La Ld Hnum; cbn [for_each map seq].
  - left. eauto.
  - destruct (sample_step_outcome (Z.of_nat s) ais dis La Ld Hnum)
      as [(ais' & dis' & Hs & La' & Ld' & Hnum')|Hs].
    + rewrite Hs. cbn [bind]. apply IH; congruence.
    + right. rewrite Hs. reflexivity.
Qed.

End SampleLoopOutcome.

(** The decoder does not check the size of the data file against the
    configuration.  With at least one channel declared and every digital
    index between 0 and the largest channel number, a data file shorter
    than [sampleCount] records of [unitSize] bytes makes the constructor
    end with [struct.error]. *)
Theorem short_data_file_raises (fs : filesystem) (config : ComtradeConfig.t)
  (d : ComtradeConfig.doc) (content : string) (first : SampleInfo.t) :
  ComtradeConfig.result config = "parsed" ->
  ComtradeConfig.body config = Some d ->
  fs (ComtradeData.dat_path config) = Some content ->
  nth_error (ComtradeConfig.sampleInfo d) 0 = Some first ->
  PrimFloat.eqb (SampleInfo.rate first) 0%float = false ->
  0 <= ChannelInfo.analog (ComtradeConfig.channelInfo d) ->
  0 <= ChannelInfo.digital (ComtradeConfig.channelInfo d) ->
  0 < ChannelInfo.analog (ComtradeConfig.channelInfo d) +
      ChannelInfo.digital (ComtradeConfig.channelInfo d) ->
  List.length (ComtradeConfig.analogInfo d) =
  Z.to_nat (ChannelInfo.analog (ComtradeConfig.channelInfo d)) ->
  List.length (ComtradeConfig.digitalInfo d) =
  Z.to_nat (ChannelInfo.digital (ComtradeConfig.channelInfo d)) ->
  Forall (fun di => 0 <= DigitalInfo.num di <= max_channel_number) (ComtradeConfig.digitalInfo d) ->
  Z.of_nat (String.length content) < SampleInfo.end_ first * stride d ->
  ComtradeData.init fs config = Raise StructError.
Proof.
  intros Hp Hb Hf Hfirst Hrate HA HD Htot La Ld Hnum Hlen.
  set (A := ChannelInfo.analog (ComtradeConfig.channelInfo d)) in *.
  set (D := ChannelInfo.digital (ComtradeConfig.channelInfo d)) in *.
  set (n := SampleInfo.end_ first) in *.
  assert (Hdata : Z.of_nat (List.length (Str.to_list content)) =
                  Z.of_nat (String.length content)).
  { f_equal. clear. induction content as [|c s IH]; simpl; congruence. }
  assert (HU : stride d = 8 + 2 * ceil16 D + 2 * A).
  { unfold stride. fold A D. rewrite digitalBytesLen_ceil. lia. }
  pose proof (ceil16_nonneg _ HD) as Hc.
  assert (Hn : 0 < n).
  { destruct (Z.le_gt_cases n 0) as [Hle|Hgt]; [|lia].
    assert (n * stride d <= 0) by (apply Z.mul_nonpos_nonneg; lia). lia. }
  assert (Hlast : n * stride d = (n - 1) * stride d + stride d) by ring.
  assert (Hbase : 0 <= (n - 1) * stride d)
    by (apply Z.mul_nonneg_nonneg; lia).
  unfold ComtradeData.init, ComtradeConfig.attr.
  apply String.eqb_eq in Hp. rewrite Hp, Hf, Hb. cbn [negb bind].
  unfold getitem. rewrite Hfirst. cbn [bind].
  unfold Py.truediv. rewrite Hrate. cbn [bind].
  fold (stride d). fold A D n.
  destruct (samples_loop_outcome (Str.to_list content) (stride d) A D (2 * A)
              (Z.to_nat n) 0 (ComtradeConfig.analogInfo d)
              (ComtradeConfig.digitalInfo d) La Ld Hnum)
    as [([ais dis] & Hloop)|Hloop].
  2:{ unfold range. rewrite Hloop. reflexivity. }
  exfalso.
  destruct (samples_loop _ _ _ _ _ _ _ _ _ _ _ Hloop) as (TA & _ & TD & _).
  assert (Hi : nth_error (map Z.of_nat (seq 0 (Z.to_nat n)))
                 (Z.to_nat (n - 1)) = Some (n - 1)).
  { fold (range n). rewrite (range_nth n (Z.to_nat (n - 1))) by lia.
    f_equal. lia. }
  destruct (Z.eq_dec D 0) as [HD0|HD0].
  - (* no digital channel: the last analog word of the last record *)
    assert (HA1 : 0 < A) by lia.
    destruct (nth_error (ComtradeConfig.analogInfo d) (Z.to_nat (A - 1)))
      as [ai|] eqn:Hai.
    2:{ apply nth_error_None in Hai. lia. }
    destruct (TA (Z.to_nat (A - 1)) ai ltac:(lia) Hai) as (vals & _ & Ht).
    destruct (Forall2_nth _ _ _ _ _ Ht Hi) as (v & _ & raw & Hr & _).
    unfold analog_word in Hr. rewrite read16_short in Hr; [discriminate| |].
    + rewrite Z2Nat.id by lia. lia.
    + rewrite Hdata, Z2Nat.id by lia.
      assert (ceil16 D = 0) by (rewrite HD0; reflexivity). lia.
  - (* the last digital word of the last record *)
    assert (HD1 : 0 < D) by lia.
    destruct (nth_error (ComtradeConfig.digitalInfo d) (Z.to_nat (D - 1)))
      as [di|] eqn:Hdi.
    2:{ apply nth_error_None in Hdi. lia. }
    destruct (TD (Z.to_nat (D - 1)) di ltac:(lia) Hdi) as (vals & _ & Ht).
    destruct (Forall2_nth _ _ _ _ _ Ht Hi) as (v & _ & raw & Hr & _).
    assert (Hq : (D - 1) / 16 + 1 = ceil16 D).
    { unfold ceil16. replace (D + 15) with (D - 1 + 1 * 16) by lia.
      rewrite Z.div_add by lia. reflexivity. }
    assert (0 <= (D - 1) / 16) by (apply Z.div_pos; lia).
    unfold digital_word in Hr. rewrite read16_short in Hr; [discriminate| |].
    + rewrite Z2Nat.id by lia. lia.
    + rewrite Hdata, Z2Nat.id by lia. lia.
Qed.

Lemma short_data_file_raises_witness :
  ComtradeData.init files_short Scenario.config = Raise StructError.
Proof.
  apply (short_data_file_raises files_short Scenario.config
           (Scenario.doc_of Scenario.config) dat_short
           (SampleInfo.mk 1000%float 3)).
  - vm_compute. reflexivity.
  - vm_compute. reflexivity.
  - vm_compute. reflexivity.
  - vm_compute. reflexivity.
  - vm_compute. reflexivity.
  - vm_compute. discriminate.
  - vm_compute. discriminate.
  - vm_compute. reflexivity.
  - vm_compute. reflexivity.
  - vm_compute. reflexivity.
  - vm_compute. repeat constructor; discriminate.
  - vm_compute. reflexivity.
Defined.

(** ** The bytes of the data file the decoder never reads *)

Lemma slice_from {A : Type} (l : list A) (off : Z) :
  0 <= off -> slice l off (off + 2) = firstn 2 (skipn (Z.to_nat off) l).
Proof.
  intros Hoff. unfold slice, slice_bound.
  destruct (Z.ltb_spec off 0) as [?|_]; [lia|].
  destruct (Z.ltb_spec (off + 2) 0) as [?|_]; [lia|].
  set (len := Z.of_nat (List.length l)).
  destruct (Z.le_gt_cases len off) as [Hge|Hlt].
  - rewrite !Z.min_r by lia. rewrite Z.sub_diag. simpl firstn.
    rewrite skipn_all2 by (subst len; lia). reflexivity.
  - rewrite (Z.min_l off) by lia.
    destruct (Z.le_gt_cases (off + 2) len) as [H2|H2].
    + rewrite Z.min_l by lia. f_equal. lia.
    + rewrite Z.min_r by lia.
      assert (Hl : List.length (skipn (Z.to_nat off) l) = Z.to_nat (len - off)).
      { rewrite length_skipn. subst len. lia. }
      rewrite <- Hl, firstn_all. symmetry. apply firstn_all2. lia.
Qed.

Lemma two_from_ext {A : Type} (n : nat) :
  forall l1 l2 : list A,
    nth_error l1 n = nth_error l2 n ->
    nth_error l1 (S n) = nth_error l2 (S n) ->
    firstn 2 (skipn n l1) = firstn 2 (skipn n l2).
Proof.
  induction n as [|n IH]; intros l1 l2 H0 H1.
  - destruct l1 as [|a [|a' r1]], l2 as [|b [|b' r2]]; simpl in *;
      congruence.
  - destruct l1 as [|a r1], l2 as [|b r2].
    + reflexivity.
    + simpl in H0. symmetry in H0. apply nth_error_None in H0.
      simpl. rewrite (skipn_all2 r2) by exact H0. reflexivity.
    + simpl in H0. apply nth_error_None in H0.
      simpl. rewrite (skipn_all2 r1) by exact H0. reflexivity.
    + simpl. apply IH; assumption.
Qed.

Lemma read16_ext (d1 d2 : list ascii) (off : Z) :
  0 <= off ->
  nth_error d1 (Z.to_nat off) = nth_error d2 (Z.to_nat off) ->
  nth_error d1 (Z.to_nat (off + 1)) = nth_error d2 (Z.to_nat (off + 1)) ->
  read16 d1 off = read16 d2 off.
Proof.
  intros Hoff H0 H1. unfold read16. rewrite !slice_from by exact Hoff.
  f_equal. apply two_from_ext; [exact H0|].
  replace (S (Z.to_nat off)) with (Z.to_nat (off + 1)) by lia. exact H1.
Qed.

Lemma for_each_ext {A S : Type} (xs : list A) (f g : A -> S -> res S) :
  (forall x s, In x xs -> f x s = g x s) ->
  forall s, for_each xs f s = for_each xs g s.
Proof.
  induction xs as [|x xs IH]; intros H s; simpl; [reflexivity|].
  rewrite (H x s) by (left; reflexivity).
  destruct (g x s) as [s'|e]; simpl; [|reflexivity].
  apply IH. intros y t Hy. apply H. right. exact Hy.
Qed.

Lemma range_In (n x : Z) : In x (range n) -> 0 <= x < n.
Proof.
  unfold range. rewrite in_map_iff. intros (k & <- & Hk).
  apply in_seq in Hk. lia.
Qed.

(** The decoder reads bytes 8 and up of each of the first [sampleCount]
    records and nothing else: two data files that agree on these bytes
    give the same result, whatever the sample numbers and time stamps at
    the head of each record are, and whatever follows the last record. *)
Theorem unread_bytes_ignored (fs1 fs2 : filesystem)
  (config : ComtradeConfig.t) (d : ComtradeConfig.doc)
  (first : SampleInfo.t) (c1 c2 : string) :
  ComtradeConfig.body config = Some d ->
  fs1 (ComtradeData.dat_path config) = Some c1 ->
  fs2 (ComtradeData.dat_path config) = Some c2 ->
  nth_error (ComtradeConfig.sampleInfo d) 0 = Some first ->
  0 <= ChannelInfo.analog (ComtradeConfig.channelInfo d) ->
  0 <= ChannelInfo.digital (ComtradeConfig.channelInfo d) ->
  (forall i k,
      0 <= i < SampleInfo.end_ first -> 8 <= k < stride d ->
      nth_error (Str.to_list c1) (Z.to_nat (i * stride d + k)) =
      nth_error (Str.to_list c2) (Z.to_nat (i * stride d + k))) ->
  ComtradeData.init fs1 config = ComtradeData.init fs2 config.
Proof.
  intros Hb Hf1 Hf2 Hfirst HA HD Hagree.
  set (A := ChannelInfo.analog (ComtradeConfig.channelInfo d)) in *.
  set (D := ChannelInfo.digital (ComtradeConfig.channelInfo d)) in *.
  set (n := SampleInfo.end_ first) in *.
  assert (HU : stride d = 8 + 2 * ceil16 D + 2 * A).
  { unfold stride. fold A D. rewrite digitalBytesLen_ceil. lia. }
  pose proof (ceil16_nonneg _ HD) as Hc.
  assert (Hword : forall i off,
             0 <= i < n -> 8 <= off -> off + 2 <= stride d ->
             read16 (Str.to_list c1) (i * stride d + off) =
             read16 (Str.to_list c2) (i * stride d + off)).
  { intros i off Hi H8 Hend.
    assert (0 <= i * stride d) by (apply Z.mul_nonneg_nonneg; lia).
    apply read16_ext; [lia | apply Hagree; lia |].
    rewrite <- Z.add_assoc. apply Hagree; lia. }
  assert (Hstep : forall i st,
             In i (range n) ->
             ComtradeData.sample_step (Str.to_list c1) (stride d) A D (2 * A)
               i st =
             ComtradeData.sample_step (Str.to_list c2) (stride d) A D (2 * A)
               i st).
  { intros i st Hi. apply range_In in Hi.
    unfold ComtradeData.sample_step.
    rewrite (for_each_ext (range A)
               (ComtradeData.analog_step (Str.to_list c1) (i * stride d + 8))
               (ComtradeData.analog_step (Str.to_list c2) (i * stride d + 8))).
    2:{ intros ch [ais dis] Hch. apply range_In in Hch.
        rewrite !analog_step_channel. unfold channel_step, analog_word.
        replace (ch * 2 + (i * stride d + 8))
          with (i * stride d + (8 + 2 * ch)) by lia.
        rewrite Hword by lia. reflexivity. }
    destruct (for_each (range A) _ st) as [st1|e]; cbn [bind]; [|reflexivity].
    apply for_each_ext.
    intros ch [ais dis] Hch. apply range_In in Hch.
    rewrite !digital_step_channel. unfold channel_step, digital_word.
    assert (0 <= ch / 16) by (apply Z.div_pos; lia).
    assert (Hq : ch / 16 + 1 <= ceil16 D).
    { unfold ceil16.
      replace (ch / 16 + 1) with ((ch + 1 * 16) / 16)
        by (rewrite Z.div_add by lia; reflexivity).
      apply Z.div_le_mono; lia. }
    replace (ch / 16 * 2 + (i * stride d + 8 + 2 * A))
      with (i * stride d + (8 + 2 * A + 2 * (ch / 16))) by lia.
    rewrite Hword by lia. reflexivity. }
  unfold ComtradeData.init, ComtradeConfig.attr.
  destruct (String.eqb (ComtradeConfig.result config) "parsed");
    cbn [negb]; [|reflexivity].
  rewrite Hf1, Hf2, Hb. cbn [bind].
  unfold getitem. rewrite Hfirst. cbn [bind].
  destruct (Py.truediv _ _) as [dT|e]; cbn [bind]; [|reflexivity].
  fold (stride d). fold A D n.
  rewrite (for_each_ext (range n) _ _ Hstep). reflexivity.
Qed.

Lemma unread_bytes_ignored_witness :
  ComtradeData.init Scenario.files Scenario.config =
  ComtradeData.init files_rewritten Scenario.config.
Proof.
  apply (unread_bytes_ignored Scenario.files files_rewritten Scenario.config
           (Scenario.doc_of Scenario.config) (SampleInfo.mk 1000%float 3)
           Scenario.dat dat_rewritten).
  - vm_compute. reflexivity.
  - vm_compute. reflexivity.
  - vm_compute. reflexivity.
  - vm_compute. reflexivity.
  - vm_compute. discriminate.
  - vm_compute. discriminate.
  - change (stride (Scenario.doc_of Scenario.config)) with 14.
    change (SampleInfo.end_ (SampleInfo.mk 1000%float 3)) with 3.
    intros i k Hi Hk.
    assert (Hc : i = 0 \/ i = 1 \/ i = 2) by lia.
    assert (Hd : k = 8 \/ k = 9 \/ k = 10 \/ k = 11 \/ k = 12 \/ k = 13)
      by lia.
    destruct Hc as [->|[->| ->]];
      destruct Hd as [->|[->|[->|[->|[->| ->]]]]]; vm_compute; reflexivity.
Defined.

(** ** The exceptions of the decoder *)

Lemma for_each_raises {A S : Type} (Inv : S -> Prop) (ok : exn -> Prop)
  (xs : list A) (body : A -> S -> res S) :
  (forall x s s', In x xs -> Inv s -> body x s = Return s' -> Inv s') ->
  (forall x s e, In x xs -> Inv s -> body x s = Raise e -> ok e) ->
  forall s e, Inv s -> for_each xs body s = Raise e -> ok e.
Proof.
  induction xs as [|x xs IH]; intros Hstep Hraise s e Hs H; simpl in H.
  - discriminate H.
  - destruct (body x s) as [s1|e1] eqn:E; simpl in H.
    + eapply IH; [| | |exact H].
      * intros y t t' Hy. apply Hstep. right. exact Hy.
      * intros y t e' Hy. apply Hraise. right. exact Hy.
      * eapply Hstep; [left; reflexivity | exact Hs | exact E].
    + inversion H; subst e1.
      eapply Hraise; [left; reflexivity | exact Hs | exact E].
Qed.

Lemma unpack_h_raises (b : list ascii) (e : exn) :
  unpack_h b = Raise e -> e = StructError.
Proof.
  destruct b as [|lo [|hi [|x r]]]; simpl; intros H; inversion H; reflexivity.
Qed.

Section SampleLoopRaises.

Variable data : list ascii.
Variables unitSize analogChNum digitalChNum analogBytesLen : Z.

(** The loops change neither the number of descriptors nor their
    indices. *)
Let sized (st : ComtradeData.buffers) : Prop :=
  List.length (fst st) = Z.to_nat analogChNum /\
  List.length (snd st) = Z.to_nat digitalChNum /\
  Forall (fun di => DigitalInfo.num di <= max_channel_number) (snd st).

Lemma analog_step_sized (idx ch : Z) (st st' : ComtradeData.buffers) :
  sized st -> ComtradeData.analog_step data idx ch st = Return st' -> sized st'.
Proof.
  unfold ComtradeData.analog_step. intros (Ha & Hd & Hn) H.
  inv_bind H as raw Er. inv_bind H as info Ei. inv_bind H as info' Ea.
  inversion H; subst st'. split; [|split]; simpl; [|exact Hd|exact Hn].
  rewrite setitem_length. exact Ha.
Qed.

Lemma digital_step_sized (idx ch : Z) (st st' : ComtradeData.buffers) :
  sized st -> ComtradeData.digital_step data idx ch st = Return st' -> sized st'.
Proof.
  unfold ComtradeData.digital_step. intros (Ha & Hd & Hn) H.
  inv_bind H as raw Er. inv_bind H as info Ei. inv_bind H as info' Ea.
  inversion H; subst st'. split; [|split]; simpl; [exact Ha| |].
  - rewrite setitem_length. exact Hd.
  - apply Forall_setitem; [exact Hn|].
    destruct (digital_append _ _ _ Ea) as (v & _ & ->).
    apply getitem_Return in Ei. apply nth_error_In in Ei.
    rewrite Forall_forall in Hn. exact (Hn _ Ei).
Qed.

Lemma analog_step_raises (idx ch : Z) (st : ComtradeData.buffers) (e : exn) :
  In ch (range analogChNum) -> sized st ->
  ComtradeData.analog_step data idx ch st = Raise e -> e = StructError.
Proof.
  unfold ComtradeData.analog_step. intros Hch (Ha & _) H.
  apply range_In in Hch.
  destruct (unpack_h (slice data (ch * 2 + idx) (ch * 2 + idx + 2)))
    as [raw|e1] eqn:Er; cbn [bind] in H.
  2:{ inversion H; subst e1. eapply unpack_h_raises; eauto. }
  unfold getitem in H.
  destruct (nth_error (fst st) (Z.to_nat ch)) as [info|] eqn:Ei.
  2:{ apply nth_error_None in Ei. lia. }
  cbn [bind] in H.
  destruct (analog_append_total info raw I (unpack_h_range _ _ Er))
    as (info' & Hi & _).
  rewrite Hi in H. discriminate H.
Qed.

Lemma digital_step_raises (idx ch : Z) (st : ComtradeData.buffers) (e : exn) :
  In ch (range digitalChNum) -> sized st ->
  ComtradeData.digital_step data idx ch st = Raise e ->
  e = StructError \/ e = ValueError.
Proof.
  unfold ComtradeData.digital_step. intros Hch (_ & Hd & Hn) H.
  apply range_In in Hch.
  destruct (unpack_h (slice data (ch / 16 * 2 + idx) (ch / 16 * 2 + idx + 2)))
    as [raw|e1] eqn:Er; cbn [bind] in H.
  2:{ inversion H; subst e1. left. eapply unpack_h_raises; eauto. }
  unfold getitem in H.
  destruct (nth_error (snd st) (Z.to_nat ch)) as [info|] eqn:Ei.
  2:{ apply nth_error_None in Ei. lia. }
  cbn [bind] in H.
  unfold DigitalInfo.appendData, DigitalInfo.value in H.
  destruct (Py.lshift_one (DigitalInfo.num info)) as [mask|e1] eqn:Es;
    cbn [bind] in H; [discriminate H|].
  inversion H; subst e1.
  destruct (lshift_one_raises _ _ Es) as [(-> & _)|(_ & Hbig)];
    [right; reflexivity|].
  apply nth_error_In in Ei. rewrite Forall_forall in Hn.
  specialize (Hn _ Ei). lia.
Qed.

Lemma sample_step_sized (i : Z) (st st' : ComtradeData.buffers) :
  sized st ->
  ComtradeData.sample_step data unitSize analogChNum digitalChNum
    analogBytesLen i st = Return st' ->
  sized st'.
Proof.
  unfold ComtradeData.sample_step. intros Hs H. inv_bind H as st1 E.
  eapply (for_each_inv sized); [| |exact H].
  - intros ch s s' _. apply digital_step_sized.
  - eapply (for_each_inv sized); [| exact Hs | exact E].
    intros ch s s' _. apply analog_step_sized.
Qed.

Lemma sample_step_raises (i : Z) (st : ComtradeData.buffers) (e : exn) :
  sized st ->
  ComtradeData.sample_step data unitSize analogChNum digitalChNum
    analogBytesLen i st = Raise e ->
  e = StructError \/ e = ValueError.
Proof.
  unfold ComtradeData.sample_step. intros Hs H.
  destruct (for_each (range analogChNum) _ st) as [st1|e1] eqn:E;
    cbn [bind] in H.
  - eapply (for_each_raises sized (fun e => e = StructError \/ e = ValueError));
      [| | |exact H].
    + intros ch s s' _. apply digital_step_sized.
    + intros ch s e' Hch. apply digital_step_raises. exact Hch.
    + eapply (for_each_inv sized); [| exact Hs | exact E].
      intros ch s s' _. apply analog_step_sized.
  - inversion H; subst e1. left.
    eapply (for_each_raises sized (fun e => e = StructError));
      [| | exact Hs | exact E].
    + intros ch s s' _. apply analog_step_sized.
    + intros ch s e' Hch. apply analog_step_raises. exact Hch.
Qed.

Lemma samples_loop_raises (samples : list Z) (st : ComtradeData.buffers)
  (e : exn) :
  sized st ->
  for_each samples
    (ComtradeData.sample_step data unitSize analogChNum digitalChNum
       analogBytesLen) st = Raise e ->
  e = StructError \/ e = ValueError.
Proof.
  intros Hs H.
  eapply (for_each_raises sized (fun e => e = StructError \/ e = ValueError));
    [| | exact Hs | exact H].
  - intros i s s' _. apply sample_step_sized.
  - intros i s e' _. apply sample_step_raises.
Qed.

End SampleLoopRaises.

(** The decoder catches nothing.  Over a configuration the builder has
    parsed, whose digital descriptors declare no index above the largest
    channel number, it can end in four ways only: [IndexError] when the
    configuration declares no sample-rate segment, [ZeroDivisionError]
    when the rate of the first segment is zero, [struct.error] when a
    read runs past the end of the data file, and [ValueError] when a
    digital descriptor declares a negative index.  The channel look-ups
    and the calibration never fail. *)
Theorem decoder_exceptions (fs : filesystem) (filePath : string)
  (config : ComtradeConfig.t) (d : ComtradeConfig.doc) (e : exn) :
  ComtradeConfig.init fs filePath = Return config ->
  ComtradeConfig.body config = Some d ->
  Forall (fun di => DigitalInfo.num di <= max_channel_number)
    (ComtradeConfig.digitalInfo d) ->
  ComtradeData.init fs config = Raise e ->
  (e = IndexError /\ ComtradeConfig.nrates d <= 0) \/
  (e = ZeroDivisionError /\
   exists first, nth_error (ComtradeConfig.sampleInfo d) 0 = Some first /\
                 PrimFloat.eqb (SampleInfo.rate first) 0%float = true) \/
  e = StructError \/
  (e = ValueError /\
   Exists (fun di => DigitalInfo.num di < 0) (ComtradeConfig.digitalInfo d)).
Proof.
  intros Hc Hb Hmax He.
  destruct (config_init_inv _ _ _ Hc) as [(_ & ->)|(content & d0 & _ & Hp & ->)];
    [discriminate Hb|].
  simpl in Hb. inversion Hb; subst d0; clear Hb.
  pose proof (parse_fresh _ _ Hp) as F.
  unfold ComtradeData.init, ComtradeConfig.attr in He.
  cbn [ComtradeConfig.result ComtradeConfig.body String.eqb Ascii.eqb
       Bool.eqb negb andb] in He.
  destruct (fs _) as [data|]; [|discriminate He].
  cbn [bind] in He. unfold getitem in He.
  destruct (nth_error (ComtradeConfig.sampleInfo d) 0) as [first|] eqn:Hfirst;
    cbn [bind] in He.
  2:{ left. inversion He. split; [reflexivity|].
      apply nth_error_None in Hfirst.
      pose proof (fd_sample_len _ F). lia. }
  unfold Py.truediv in He.
  destruct (PrimFloat.eqb (SampleInfo.rate first) 0) eqn:Hrate;
    cbn [bind] in He.
  { right. left. inversion He. split; [reflexivity|]. eauto. }
  right. right.
  destruct (for_each _ _ _) as [[ais dis]|e1] eqn:Hloop; cbn [bind] in He;
    [discriminate He|].
  inversion He; subst e1; clear He.
  destruct (Forall_Exists_dec
              (fun di => 0 <= DigitalInfo.num di <= max_channel_number)
              (fun di =>
                 match Z_le_dec 0 (DigitalInfo.num di),
                       Z_le_dec (DigitalInfo.num di) max_channel_number with
                 | left H1, left H2 => left (conj H1 H2)
                 | right H1, _ => right (fun H => H1 (proj1 H))
                 | _, right H2 => right (fun H => H2 (proj2 H))
                 end)
              (ComtradeConfig.digitalInfo d)) as [Hall|Hex].
  - left.
    destruct (samples_loop_outcome (Str.to_list data) (stride d)
                (ChannelInfo.analog (ComtradeConfig.channelInfo d))
                (ChannelInfo.digital (ComtradeConfig.channelInfo d))
                (2 * ChannelInfo.analog (ComtradeConfig.channelInfo d))
                (Z.to_nat (SampleInfo.end_ first)) 0 _ _
                (fd_analog_len _ F) (fd_digital_len _ F) Hall)
      as [(st & Hst)|Hst]; unfold range, stride in *; congruence.
  - apply samples_loop_raises in Hloop;
      [|split; [exact (fd_analog_len _ F) |
                split; [exact (fd_digital_len _ F) | exact Hmax]]].
    destruct Hloop as [->| ->]; [left; reflexivity|].
    right. split; [reflexivity|].
    apply Exists_exists in Hex. destruct Hex as (di & Hin & Hbad).
    apply Exists_exists. exists di. split; [exact Hin|].
    rewrite Forall_forall in Hmax. specialize (Hmax _ Hin). lia.
Qed.

Lemma decoder_exceptions_witness :
  (StructError = IndexError /\
   ComtradeConfig.nrates (Scenario.doc_of Scenario.config) <= 0) \/
  (StructError = ZeroDivisionError /\
   exists first,
     nth_error (ComtradeConfig.sampleInfo (Scenario.doc_of Scenario.config)) 0
     = Some first /\
     PrimFloat.eqb (SampleInfo.rate first) 0%float = true) \/
  StructError = StructError \/
  (StructError = ValueError /\
   Exists (fun di => DigitalInfo.num di < 0)
     (ComtradeConfig.digitalInfo (Scenario.doc_of Scenario.config))).
Proof.
  apply (decoder_exceptions files_short "rec.cfg" Scenario.config
           (Scenario.doc_of Scenario.config) StructError).
  - vm_compute. reflexivity.
  - vm_compute. reflexivity.
  - vm_compute. repeat constructor; discriminate.
  - vm_compute. reflexivity.
Defined.

(** ** A configuration without sample-rate segment *)

(** A configuration that declares no sample-rate segment ([nrates] zero
    or negative) parses, and then ends the construction of the session
    with [IndexError], whether the data file is there or not: the
    decoder and the session both read the first segment. *)
Theorem session_needs_a_segment (files : filesystem) (path : string)
  (config : ComtradeConfig.t) (d : ComtradeConfig.doc) :
  Str.contains ".cfg" path || Str.contains ".dat" path = true ->
  ComtradeConfig.init files (session_base path ++ ".cfg") = Return config ->
  ComtradeConfig.body config = Some d ->
  ComtradeConfig.nrates d <= 0 ->
  ComtradeParser.init files path = Raise IndexError.
Proof.
  intros Hpath Hc Hb Hn.
  assert (Hl : ComtradeParser.load files (session_base path) =
               Raise IndexError).
  { unfold ComtradeParser.load. rewrite Hc. cbn [bind].
    destruct (config_init_inv _ _ _ Hc)
      as [(_ & ->)|(content & d0 & _ & Hp & ->)]; [discriminate Hb|].
    simpl in Hb. inversion Hb; subst d0; clear Hb.
    pose proof (fd_sample_len _ (parse_fresh _ _ Hp)) as Hlen.
    assert (Hs : ComtradeConfig.sampleInfo d = []).
    { destruct (ComtradeConfig.sampleInfo d); [reflexivity|].
      simpl in Hlen. lia. }
    unfold ComtradeData.init, ComtradeConfig.attr.
    cbn [ComtradeConfig.result ComtradeConfig.body String.eqb Ascii.eqb
         Bool.eqb negb andb].
    destruct (files _) as [data|]; cbn [bind].
    - rewrite Hs. reflexivity.
    - unfold ComtradeData.t. simpl. rewrite Hs. reflexivity. }
  unfold ComtradeParser.init. unfold session_base in Hl.
  destruct (Str.contains ".cfg" path); simpl in *; [exact Hl|].
  rewrite Hpath. simpl. exact Hl.
Qed.

Lemma session_needs_a_segment_witness :
  ComtradeParser.init files_no_rates "rec.dat" = Raise IndexError.
Proof.
  apply (session_needs_a_segment files_no_rates "rec.dat" config_no_rates
           (Scenario.doc_of config_no_rates)).
  - vm_compute. reflexivity.
  - vm_compute. reflexivity.
  - vm_compute. reflexivity.
  - vm_compute. discriminate.
Defined.

(** ** Line terminators of the configuration file *)

Lemma translate_plain_app (l r : string) :
  plain_line l = true ->
  Str.translate_newlines (l ++ r) = (l ++ Str.translate_newlines r)%string.
Proof.
  induction l as [|c l IH]; intros H; [reflexivity|].
  cbn [plain_line] in H. apply andb_prop in H as [H Hl].
  apply andb_prop in H as [_ Hcr]. apply negb_true_iff in Hcr.
  cbn [append Str.translate_newlines]. rewrite Hcr. f_equal. apply IH, Hl.
Qed.

Lemma append_assoc (a b c : string) :
  ((a ++ b) ++ c)%string = (a ++ (b ++ c))%string.
Proof. induction a as [|x a IH]; simpl; [reflexivity | f_equal; exact IH]. Qed.

Lemma translate_text (eol : string) (ls : list string) (tail : string) :
  eol = String Str.LF "" \/ eol = String Str.CR (String Str.LF "") ->
  forallb plain_line ls = true ->
  plain_line tail = true ->
  Str.translate_newlines (text_of_lines eol ls ++ tail) =
  (text_of_lines (String Str.LF "") ls ++ tail)%string.
Proof.
  intros Heol. induction ls as [|l ls IH]; intros H Ht.
  - cbn [text_of_lines append].
    rewrite <- (append_empty_r tail) at 1.
    rewrite translate_plain_app by exact Ht.
    cbn [Str.translate_newlines]. apply append_empty_r.
  - cbn [forallb] in H. apply andb_prop in H as [Hl Hls].
    cbn [text_of_lines]. rewrite !append_assoc.
    rewrite translate_plain_app by exact Hl.
    f_equal. destruct Heol as [-> | ->];
      cbn [append Str.translate_newlines Ascii.eqb Bool.eqb Str.CR Str.LF andb];
      f_equal; apply IH; assumption.
Qed.

Lemma readlines_plain_app (l r : string) :
  plain_line l = true ->
  Str.readlines (l ++ String Str.LF r) =
  (l ++ String Str.LF "")%string :: Str.readlines r.
Proof.
  induction l as [|c l IH]; intros H.
  - reflexivity.
  - cbn [plain_line] in H. apply andb_prop in H as [H Hl].
    apply andb_prop in H as [Hlf _]. apply negb_true_iff in Hlf.
    cbn [append Str.readlines]. rewrite Hlf, (IH Hl). reflexivity.
Qed.

Lemma readlines_plain (l : string) :
  plain_line l = true -> Str.readlines l = unterminated l.
Proof.
  induction l as [|c l IH]; intros H; [reflexivity|].
  cbn [plain_line] in H. apply andb_prop in H as [H Hl].
  apply andb_prop in H as [Hlf _]. apply negb_true_iff in Hlf.
  cbn [Str.readlines]. rewrite Hlf, (IH Hl).
  destruct l; reflexivity.
Qed.

Lemma replace_plain (l : string) :
  plain_line l = true -> Str.replace (String Str.LF "") "" l = l.
Proof.
  unfold Str.replace. induction l as [|c l IH]; intros H; [reflexivity|].
  cbn [plain_line] in H. apply andb_prop in H as [H Hl].
  apply andb_prop in H as [Hlf _]. apply negb_true_iff in Hlf.
  cbn [Str.replace_from prefix].
  destruct (ascii_dec Str.LF c) as [E|_].
  - subst c. discriminate Hlf.
  - f_equal. apply IH, Hl.
Qed.

Lemma lines_of_text (ls : list string) (tail : string) :
  forallb plain_line ls = true ->
  plain_line tail = true ->
  ComtradeConfig._removeNextline
    (Str.readlines (text_of_lines (String Str.LF "") ls ++ tail)) =
  ls ++ unterminated tail.
Proof.
  intros H Ht. induction ls as [|l ls IH].
  - cbn [text_of_lines append app]. rewrite readlines_plain by exact Ht.
    unfold ComtradeConfig._removeNextline, unterminated.
    destruct tail; [reflexivity|]. cbn [map].
    rewrite replace_plain by exact Ht. reflexivity.
  - cbn [forallb] in H. apply andb_prop in H as [Hl Hls].
    cbn [text_of_lines]. rewrite !append_assoc. cbn [append].
    rewrite readlines_plain_app by exact Hl.
    unfold ComtradeConfig._removeNextline in *. cbn [map app].
    rewrite replace_char_app, replace_plain by exact Hl.
    rewrite (IH Hls). f_equal.
    change (Str.replace (String Str.LF "") "" (String Str.LF "")) with "".
    apply append_empty_r.
Qed.

(** The builder opens the configuration in text mode and strips the line
    feeds, so [_parse] is handed the lines of the file as they are,
    whether they end with a line feed (Unix) or with a carriage return
    and a line feed (DOS), and whether or not the last line has its
    terminator: such files give the same configuration, or end with the
    same exception. *)
Theorem line_terminators (fs : filesystem) (filePath eol : string)
  (ls : list string) (tail : string) :
  fs filePath = Some (text_of_lines eol ls ++ tail)%string ->
  eol = String Str.LF "" \/ eol = String Str.CR (String Str.LF "") ->
  forallb plain_line ls = true ->
  plain_line tail = true ->
  ComtradeConfig.init fs filePath =
  (d <- ComtradeConfig._parse (ls ++ unterminated tail) ;;
   Return (ComtradeConfig.mk filePath "parsed" (Some d))).
Proof.
  intros Hf Heol Hls Ht. unfold ComtradeConfig.init, read_text_lines.
  rewrite Hf, (translate_text _ _ _ Heol Hls Ht), (lines_of_text _ _ Hls Ht).
  reflexivity.
Qed.

Lemma line_terminators_witness :
  ComtradeConfig.init files_crlf "rec.cfg" =
  (d <- ComtradeConfig._parse (firstn 11 scenario_lines ++ unterminated "1") ;;
   Return (ComtradeConfig.mk "rec.cfg" "parsed" (Some d))).
Proof.
  apply (line_terminators files_crlf "rec.cfg"
           (String Str.CR (String Str.LF "")) (firstn 11 scenario_lines) "1").
  - vm_compute. reflexivity.
  - right. reflexivity.
  - vm_compute. reflexivity.
  - vm_compute. reflexivity.
Defined.

(** ** When a session is built *)

Lemma data_init_returns (fs : filesystem) (config : ComtradeConfig.t)
  (d : ComtradeConfig.doc) (content : string) (first : SampleInfo.t) :
  ComtradeConfig.result config = "parsed" ->
  ComtradeConfig.body config = Some d ->
  fs (ComtradeData.dat_path config) = Some content ->
  nth_error (ComtradeConfig.sampleInfo d) 0 = Some first ->
  PrimFloat.eqb (SampleInfo.rate first) 0%float = false ->
  0 <= ChannelInfo.analog (ComtradeConfig.channelInfo d) ->
  0 <= ChannelInfo.digital (ComtradeConfig.channelInfo d) ->
  List.length (ComtradeConfig.analogInfo d) =
  Z.to_nat (ChannelInfo.analog (ComtradeConfig.channelInfo d)) ->
  List.length (ComtradeConfig.digitalInfo d) =
  Z.to_nat (ChannelInfo.digital (ComtradeConfig.channelInfo d)) ->
  Forall (fun di => 0 <= DigitalInfo.num di <= max_channel_number) (ComtradeConfig.digitalInfo d) ->
  SampleInfo.end_ first * stride d <= Z.of_nat (String.length content) ->
  exists st,
    ComtradeData.init fs config =
    Return (ComtradeData.mk "parsed" (ComtradeData.dat_path config)
              (Some (ComtradeData.mkdecoded (stride d) (SampleInfo.end_ first)
                       (PrimFloat.div 1 (SampleInfo.rate first))
                       (ComtradeData.collect_analog (fst st))
                       (ComtradeData.collect_digital (snd st)))),
            ComtradeData.store config d st).
Proof.
  intros Hp Hb Hf Hfirst Hrate HA HD La Ld Hnum Hlen.
  unfold ComtradeData.init, ComtradeConfig.attr.
  apply String.eqb_eq in Hp. rewrite Hp, Hf, Hb. cbn [negb bind].
  unfold getitem. rewrite Hfirst. cbn [bind].
  unfold Py.truediv. rewrite Hrate. cbn [bind].
  fold (stride d).
  assert (Hdata : Z.of_nat (List.length (Str.to_list content)) =
                  Z.of_nat (String.length content)).
  { f_equal. clear. induction content as [|c s IH]; simpl; congruence. }
  destruct (samples_loop_total (Str.to_list content) (stride d)
              (ChannelInfo.analog (ComtradeConfig.channelInfo d))
              (ChannelInfo.digital (ComtradeConfig.channelInfo d)) HA HD
              ltac:(unfold stride; rewrite digitalBytesLen_ceil; lia)
              (Z.to_nat (SampleInfo.end_ first)) 0
              (ComtradeConfig.analogInfo d) (ComtradeConfig.digitalInfo d))
    as ([ais dis] & Hloop); try assumption.
  { rewrite Hdata. simpl Nat.add.
    destruct (Z.le_gt_cases 0 (SampleInfo.end_ first)).
    - rewrite Z2Nat.id by assumption. exact Hlen.
    - replace (Z.to_nat (SampleInfo.end_ first)) with O by lia. simpl. lia. }
  unfold range. rewrite Hloop. cbn [bind].
  exists (ais, dis). reflexivity.
Qed.

Lemma time_vector_returns (dat : ComtradeData.obj)
  (dec : ComtradeData.decoded) :
  ComtradeData.result dat = "parsed" ->
  ComtradeData.body dat = Some dec ->
  0 <= ComtradeData.sampleCount dec ->
  finite_int (ComtradeData.sampleCount dec) = true ->
  exists tv, ComtradeData.t dat = Return tv.
Proof.
  intros Hres Hb Hn Hfin. unfold ComtradeData.t.
  apply String.eqb_eq in Hres. rewrite Hres, Hb.
  unfold finite_int in Hfin. unfold Py.float_of_int.
  assert (Hl : forall x y, exists tv,
             Np.linspace x y (ComtradeData.sampleCount dec) = Return tv).
  { intros x y. unfold Np.linspace.
    destruct (Z.ltb_spec (ComtradeData.sampleCount dec) 0); [lia|]. eauto. }
  destruct (binary_normalize Py.prec Py.emax (ComtradeData.sampleCount dec)
              0 false); cbn [bind]; try apply Hl.
  discriminate Hfin.
Qed.

(** The conditions under which the construction of a session goes
    through: the path names a configuration that parses, the data file
    the decoder looks for is there and holds the records announced, the
    first segment has a non-zero rate and a sample count that is not
    negative, and every digital index lies between 0 and the largest
    channel number.  The session is then in state [parsed], over a decoded
    recording, with the rate of the first segment as its [fs]. *)
Theorem session_returns (files : filesystem) (path : string)
  (config : ComtradeConfig.t) (d : ComtradeConfig.doc) (content : string)
  (first : SampleInfo.t) :
  Str.contains ".cfg" path || Str.contains ".dat" path = true ->
  ComtradeConfig.init files (session_base path ++ ".cfg") = Return config ->
  ComtradeConfig.body config = Some d ->
  files (ComtradeData.dat_path config) = Some content ->
  nth_error (ComtradeConfig.sampleInfo d) 0 = Some first ->
  PrimFloat.eqb (SampleInfo.rate first) 0%float = false ->
  0 <= SampleInfo.end_ first ->
  finite_int (SampleInfo.end_ first) = true ->
  0 <= ChannelInfo.analog (ComtradeConfig.channelInfo d) ->
  0 <= ChannelInfo.digital (ComtradeConfig.channelInfo d) ->
  Forall (fun di => 0 <= DigitalInfo.num di <= max_channel_number) (ComtradeConfig.digitalInfo d) ->
  SampleInfo.end_ first * stride d <= Z.of_nat (String.length content) ->
  exists s,
    ComtradeParser.init files path = Return (ComtradeParser.mk "parsed" (Some s)) /\
    ComtradeParser.path s = session_base path /\
    ComtradeData.result (ComtradeParser.dat s) = "parsed" /\
    ComtradeParser.analog s = ComtradeData.analog (ComtradeParser.dat s) /\
    ComtradeParser.digital s = ComtradeData.digital (ComtradeParser.dat s) /\
    ComtradeData.t (ComtradeParser.dat s) = Return (ComtradeParser.t s) /\
    ComtradeParser.fs s = SampleInfo.rate first.
Proof.
  intros Hpath Hc Hb Hf Hfirst Hrate Hn Hfin HA HD Hnum Hlen.
  assert (Hl : exists s,
             ComtradeParser.load files (session_base path) =
             Return (ComtradeParser.mk "parsed" (Some s)) /\
             ComtradeParser.path s = session_base path /\
             ComtradeData.result (ComtradeParser.dat s) = "parsed" /\
             ComtradeParser.analog s =
             ComtradeData.analog (ComtradeParser.dat s) /\
             ComtradeParser.digital s =
             ComtradeData.digital (ComtradeParser.dat s) /\
             ComtradeData.t (ComtradeParser.dat s) =
             Return (ComtradeParser.t s) /\
             ComtradeParser.fs s = SampleInfo.rate first).
  { unfold ComtradeParser.load. rewrite Hc. cbn [bind].
    assert (Hres : ComtradeConfig.result config = "parsed").
    { destruct (config_init_inv _ _ _ Hc)
        as [(_ & ->)|(c0 & d0 & _ & _ & ->)]; [discriminate Hb | reflexivity]. }
    assert (F : fresh_doc d).
    { destruct (config_init_inv _ _ _ Hc)
        as [(_ & ->)|(c0 & d0 & _ & Hp & ->)]; [discriminate Hb|].
      simpl in Hb. inversion Hb; subst d0. eapply parse_fresh; eauto. }
    destruct (data_init_returns files config d content first Hres Hb Hf Hfirst
                Hrate HA HD (fd_analog_len _ F) (fd_digital_len _ F) Hnum Hlen)
      as (st & Hst).
    rewrite Hst. cbn [bind].
    match goal with
    | |- context [ComtradeData.t ?x] =>
        destruct (time_vector_returns x _ eq_refl eq_refl Hn Hfin) as (tv & Htv);
        rewrite Htv
    end.
    cbn [bind]. unfold ComtradeConfig.attr, ComtradeData.store.
    cbn [ComtradeConfig.body ComtradeConfig.sampleInfo bind].
    unfold getitem. rewrite Hfirst. cbn [bind].
    eexists. split; [reflexivity|].
    cbn [ComtradeParser.path ComtradeParser.dat ComtradeParser.analog
         ComtradeParser.digital ComtradeParser.t ComtradeParser.fs
         ComtradeData.result].
    repeat (split; [reflexivity|]). split; [exact Htv | reflexivity]. }
  unfold ComtradeParser.init.
  destruct (Str.contains ".cfg" path) eqn:Hcfg; cbn [negb].
  - replace (Str.replace ".cfg" "" path) with (session_base path)
      by (unfold session_base; rewrite Hcfg; reflexivity).
    exact Hl.
  - cbn [orb] in Hpath. rewrite Hpath. cbn [negb].
    replace (Str.replace ".dat" "" path) with (session_base path)
      by (unfold session_base; rewrite Hcfg; reflexivity).
    exact Hl.
Qed.

Lemma session_returns_witness :
  exists s,
    ComtradeParser.init Scenario.files "rec.dat" =
    Return (ComtradeParser.mk "parsed" (Some s)) /\
    ComtradeParser.path s = session_base "rec.dat" /\
    ComtradeData.result (ComtradeParser.dat s) = "parsed" /\
    ComtradeParser.analog s = ComtradeData.analog (ComtradeParser.dat s) /\
    ComtradeParser.digital s = ComtradeData.digital (ComtradeParser.dat s) /\
    ComtradeData.t (ComtradeParser.dat s) = Return (ComtradeParser.t s) /\
    ComtradeParser.fs s = SampleInfo.rate (SampleInfo.mk 1000%float 3).
Proof.
  apply (session_returns Scenario.files "rec.dat" Scenario.config
           (Scenario.doc_of Scenario.config) Scenario.dat
           (SampleInfo.mk 1000%float 3)).
  - vm_compute. reflexivity.
  - vm_compute. reflexivity.
  - vm_compute. reflexivity.
  - vm_compute. reflexivity.
  - vm_compute. reflexivity.
  - vm_compute. reflexivity.
  - vm_compute. discriminate.
  - vm_compute. reflexivity.
  - vm_compute. discriminate.
  - vm_compute. discriminate.
  - vm_compute. repeat constructor; discriminate.
  - vm_compute. discriminate.
Defined.

(** ** The document of a parsed configuration *)

(** Whatever the file holds, a configuration the builder returns with a
    document is in state [parsed] under the path it was given, lists
    exactly as many analog and digital descriptors and sample-rate
    segments as it declares (none for a count that is not positive), and
    every descriptor starts with an empty buffer. *)
Theorem parsed_document_shape (fs : filesystem) (filePath : string)
  (config : ComtradeConfig.t) (d : ComtradeConfig.doc) :
  ComtradeConfig.init fs filePath = Return config ->
  ComtradeConfig.body config = Some d ->
  ComtradeConfig.result config = "parsed" /\
  ComtradeConfig.path config = filePath /\
  List.length (ComtradeConfig.analogInfo d) =
  Z.to_nat (ChannelInfo.analog (ComtradeConfig.channelInfo d)) /\
  List.length (ComtradeConfig.digitalInfo d) =
  Z.to_nat (ChannelInfo.digital (ComtradeConfig.channelInfo d)) /\
  List.length (ComtradeConfig.sampleInfo d) =
  Z.to_nat (ComtradeConfig.nrates d) /\
  Forall (fun ai => AnalogInfo.data ai = []) (ComtradeConfig.analogInfo d) /\
  Forall (fun di => DigitalInfo.data di = []) (ComtradeConfig.digitalInfo d).
Proof.
  intros Hc Hb.
  destruct (config_init_inv _ _ _ Hc) as [(_ & ->)|(content & d0 & _ & Hp & ->)];
    [discriminate Hb|].
  simpl in Hb. inversion Hb; subst d0; clear Hb.
  destruct (parse_fresh _ _ Hp) as [La Ld Ls Ea Ed].
  repeat split; assumption.
Qed.

Lemma parsed_document_shape_witness :
  ComtradeConfig.result Scenario.config = "parsed" /\
  ComtradeConfig.path Scenario.config = "rec.cfg" /\
  List.length (ComtradeConfig.analogInfo (Scenario.doc_of Scenario.config)) =
  Z.to_nat (ChannelInfo.analog
              (ComtradeConfig.channelInfo (Scenario.doc_of Scenario.config))) /\
  List.length (ComtradeConfig.digitalInfo (Scenario.doc_of Scenario.config)) =
  Z.to_nat (ChannelInfo.digital
              (ComtradeConfig.channelInfo (Scenario.doc_of Scenario.config))) /\
  List.length (ComtradeConfig.sampleInfo (Scenario.doc_of Scenario.config)) =
  Z.to_nat (ComtradeConfig.nrates (Scenario.doc_of Scenario.config)) /\
  Forall (fun ai => AnalogInfo.data ai = [])
    (ComtradeConfig.analogInfo (Scenario.doc_of Scenario.config)) /\
  Forall (fun di => DigitalInfo.data di = [])
    (ComtradeConfig.digitalInfo (Scenario.doc_of Scenario.config)).
Proof.
  apply (parsed_document_shape Scenario.files "rec.cfg" Scenario.config
           (Scenario.doc_of Scenario.config)).
  - vm_compute. reflexivity.
  - vm_compute. reflexivity.
Defined.

(** ** The data path of a dotted configuration path *)

(** The decoder cuts the configuration path at its first dot, wherever
    that dot is: for a path whose directory part holds a dot, or that
    starts with [./], the data path is not the sibling of the
    configuration file. *)
Theorem dat_path_first_dot (pre rest r : string)
  (b : option ComtradeConfig.doc) :
  Str.contains "." pre = false ->
  ComtradeData.dat_path
    (ComtradeConfig.mk (pre ++ String "."%char rest) r b) =
  (pre ++ ".dat")%string.
Proof.
  intros H. unfold ComtradeData.dat_path. simpl ComtradeConfig.path.
  rewrite split_dot_head by exact H. reflexivity.
Qed.

Lemma dat_path_first_dot_witness :
  ComtradeData.dat_path
    (ComtradeConfig.mk ("records/v1" ++ String "."%char "2/rec.cfg")
       "parsed" None) =
  ("records/v1" ++ ".dat")%string.
Proof.
  apply (dat_path_first_dot "records/v1" "2/rec.cfg" "parsed" None).
  reflexivity.
Defined.
